(** * Shopify "orders/paid" cashback webhook: a shallow embedding

    The repository holds two variants of one Vercel handler:
    - [Api]     embeds  src/api/shopify-orders-paid.js
    - [Part000] embeds  src/unnamed/part_000

    The handlers are ordinary sequential JavaScript threaded through a
    request, three configuration constants, a console and a Postgres table.
    They are embedded in a state-and-exception monad over a [World]; the
    JavaScript values they touch (JSON payloads, IEEE-754 numbers, strings)
    and the Node primitives they call (HMAC-SHA256, base64,
    [crypto.timingSafeEqual], [JSON.parse]) are modelled executable, so every
    definition can be run on a concrete delivery. *)

From Stdlib Require Import ZArith List String Ascii Bool Lia.
From Stdlib Require Import SpecFloat.
Import ListNotations.

#[local] Set Warnings "-register-all".

Local Open Scope string_scope.
Local Open Scope Z_scope.

(* ================================================================== *)
(** ** Bytes and strings

    A JavaScript string is represented by its UTF-8 encoding, one [ascii]
    per byte; [Buffer.from(s, "utf8")] and [buf.toString("utf8")] are then
    the identity (request bodies are taken to be valid UTF-8). *)

Definition code (c : ascii) : Z := Z.of_N (N_of_ascii c).
Definition chr (z : Z) : ascii := ascii_of_N (Z.to_N (z mod 256)).

Definition is_digit (c : ascii) : bool := (48 <=? code c) && (code c <=? 57).
Definition digit_val (c : ascii) : Z := code c - 48.

Fixpoint str_rev_onto (s acc : string) : string :=
  match s with
  | EmptyString => acc
  | String c s' => str_rev_onto s' (String c acc)
  end.

Definition str_rev (s : string) : string := str_rev_onto s EmptyString.

Fixpoint starts_with (p s : string) : bool :=
  match p, s with
  | EmptyString, _ => true
  | String a p', String b s' => Ascii.eqb a b && starts_with p' s'
  | String _ _, EmptyString => false
  end.

Fixpoint drop (n : nat) (s : string) : string :=
  match n, s with
  | O, _ => s
  | S n', String _ s' => drop n' s'
  | S _, EmptyString => EmptyString
  end.

(** [String.prototype.includes] *)
Fixpoint includes (s p : string) : bool :=
  starts_with p s ||
  match s with
  | EmptyString => false
  | String _ s' => includes s' p
  end.

(** [String.prototype.toLowerCase] on the letters of Basic Latin and of
    Latin-1 Supplement (U+00C0 to U+00DE but the sign U+00D7, in UTF-8 the
    byte 195 and a byte from 128 to 158 but 151); cased characters beyond
    these are left as they are. *)
Definition lower_ascii (c : ascii) : ascii :=
  if (65 <=? code c) && (code c <=? 90) then chr (code c + 32) else c.

Definition latin1_capital (c d : ascii) : bool :=
  (code c =? 195) && (128 <=? code d) && (code d <=? 158)
  && negb (code d =? 151).

Fixpoint toLowerCase (s : string) : string :=
  match s with
  | EmptyString => EmptyString
  | String c s' =>
      match s' with
      | String d s'' =>
          if latin1_capital c d
          then String c (String (chr (code d + 32)) (toLowerCase s''))
          else String (lower_ascii c) (toLowerCase s')
      | EmptyString => String (lower_ascii c) EmptyString
      end
  end.

Fixpoint repeat_char (c : ascii) (n : nat) : string :=
  match n with
  | O => EmptyString
  | S n' => String c (repeat_char c n')
  end.

(* ================================================================== *)
(** ** JavaScript numbers: IEEE-754 binary64 *)

Module Num.

Definition prec : Z := 53.
Definition emax : Z := 1024.

Definition Number : Type := spec_float.

Definition NaN : Number := S754_nan.
Definition zero : Number := S754_zero false.

Definition mul : Number -> Number -> Number := SFmul prec emax.
Definition div : Number -> Number -> Number := SFdiv prec emax.
Definition ltb : Number -> Number -> bool := SFltb.
Definition eqb : Number -> Number -> bool := SFeqb.

(** [a > b] *)
Definition gtb (a b : Number) : bool := ltb b a.

(** [Number.isFinite(x)] and the global [isFinite(x)] agree on numbers. *)
Definition isFinite (x : Number) : bool :=
  match x with
  | S754_zero _ | S754_finite _ _ _ => true
  | S754_infinity _ | S754_nan => false
  end.

Definition of_Z (z : Z) : Number := binary_normalize prec emax z 0 false.

(** The number nearest to [(-1)^neg * m * 10^e10] (ties to even). *)
Definition of_decimal (neg : bool) (m e10 : Z) : Number :=
  match m with
  | Z0 => S754_zero neg
  | Zpos p =>
      if 0 <=? e10
      then binary_normalize prec emax (cond_Zopp neg (m * 10 ^ e10)) 0 neg
      else SFdiv prec emax (S754_finite neg p 0)
                           (S754_finite false (Z.to_pos (10 ^ (- e10))) 0)
  | Zneg _ => NaN
  end.

(** *** Exact value of a finite number, as a fraction [num / den] *)

Definition abs_num (x : Number) : Z :=
  match x with
  | S754_finite _ m e => if 0 <=? e then Zpos m * 2 ^ e else Zpos m
  | _ => 0
  end.

Definition abs_den (x : Number) : Z :=
  match x with
  | S754_finite _ m e => if 0 <=? e then 1 else 2 ^ (- e)
  | _ => 1
  end.

Definition sign (x : Number) : bool :=
  match x with
  | S754_zero s | S754_infinity s | S754_finite s _ _ => s
  | S754_nan => false
  end.

(** [x < 0] *)
Definition is_negative (x : Number) : bool := ltb x zero.

(** *** Decimal digits *)

Fixpoint digits_fuel (fuel : nat) (n : Z) (acc : string) : string :=
  match fuel with
  | O => acc
  | S fuel' =>
      let acc' := String (chr (48 + n mod 10)) acc in
      if n <? 10 then acc' else digits_fuel fuel' (n / 10) acc'
  end.

(** The decimal digits of [n >= 0], most significant first. *)
Definition decimal_digits (n : Z) : string :=
  digits_fuel (S (Z.to_nat (Z.log2 n))) n EmptyString.

(** Value of a digit of radix up to 16, if it is one. *)
Definition radix_digit (radix : Z) (c : ascii) : option Z :=
  let v :=
    if is_digit c then code c - 48
    else if (97 <=? code c) && (code c <=? 102) then code c - 87
    else if (65 <=? code c) && (code c <=? 70) then code c - 55
    else 16 in
  if v <? radix then Some v else None.

(** Reads a whole string of digits of the given radix. *)
Fixpoint radix_value (radix : Z) (s : string) (acc : Z) : option Z :=
  match s with
  | EmptyString => Some acc
  | String c s' =>
      match radix_digit radix c with
      | Some v => radix_value radix s' (radix * acc + v)
      | None => None
      end
  end.

(** Longest prefix of decimal digits: its value, its length, the rest. *)
Fixpoint span_digits (s : string) (acc : Z) (len : Z) : Z * Z * string :=
  match s with
  | String c s' =>
      if is_digit c then span_digits s' (10 * acc + digit_val c) (len + 1)
      else (acc, len, s)
  | EmptyString => (acc, len, s)
  end.

(** *** [StringToNumber] (ECMA-262, StringNumericLiteral) *)

(** Drops leading WhiteSpace and LineTerminator characters (TAB, LF, VT,
    FF, CR, SP, and in UTF-8: NBSP, U+1680, U+2000..U+200A, LS, PS,
    U+202F, U+205F, U+3000, BOM). *)
Fixpoint strip_ws (s : string) : string :=
  match s with
  | String c s1 =>
      let a := code c in
      if ((9 <=? a) && (a <=? 13)) || (a =? 32) then strip_ws s1
      else
        match s1 with
        | String c1 s2 =>
            let b := code c1 in
            if (a =? 194) && (b =? 160) then strip_ws s2
            else
              match s2 with
              | String c2 s3 =>
                  let d := code c2 in
                  if ((a =? 225) && (b =? 154) && (d =? 128))
                     || ((a =? 226) && (b =? 128)
                         && (((128 <=? d) && (d <=? 138))
                             || (d =? 168) || (d =? 169) || (d =? 175)))
                     || ((a =? 226) && (b =? 129) && (d =? 159))
                     || ((a =? 227) && (b =? 128) && (d =? 128))
                     || ((a =? 239) && (b =? 187) && (d =? 191))
                  then strip_ws s3
                  else s
              | EmptyString => s
              end
        | EmptyString => s
        end
  | EmptyString => s
  end.

Definition only_ws (s : string) : bool :=
  match strip_ws s with
  | EmptyString => true
  | String _ _ => false
  end.

(** ExponentPart_opt followed by trailing white space: the exponent. *)
Definition exponent_part (s : string) : option Z :=
  match s with
  | String c s1 =>
      if (code c =? 101) || (code c =? 69) then
        let '(neg, s2) :=
          match s1 with
          | String c1 s1' =>
              if code c1 =? 45 then (true, s1')
              else if code c1 =? 43 then (false, s1')
              else (false, s1)
          | EmptyString => (false, s1)
          end in
        let '(v, len, rest) := span_digits s2 0 0 in
        if (0 <? len) && only_ws rest then Some (if neg then - v else v)
        else None
      else if only_ws s then Some 0 else None
  | EmptyString => Some 0
  end.

(** StrUnsignedDecimalLiteral, then white space. *)
Definition unsigned_decimal (neg : bool) (s : string) : Number :=
  if starts_with "Infinity" s then
    if only_ws (drop 8 s) then S754_infinity neg else NaN
  else
    let '(ip, ilen, r1) := span_digits s 0 0 in
    let '(m, flen, r2) :=
      match r1 with
      | String c r1' =>
          if code c =? 46 then span_digits r1' ip 0 else (ip, 0, r1)
      | EmptyString => (ip, 0, r1)
      end in
    if 0 <? ilen + flen then
      match exponent_part r2 with
      | Some e => of_decimal neg m (e - flen)
      | None => NaN
      end
    else NaN.

Definition non_decimal (radix : Z) (s : string) : Number :=
  let body := str_rev (strip_ws (str_rev s)) in
  match body with
  | EmptyString => NaN
  | String _ _ =>
      match radix_value radix body 0 with
      | Some v => of_Z v
      | None => NaN
      end
  end.

Definition StringToNumber (s : string) : Number :=
  match strip_ws s with
  | EmptyString => zero
  | String c s1 as t =>
      if code c =? 45 then unsigned_decimal true s1
      else if code c =? 43 then unsigned_decimal false s1
      else if code c =? 48 then
        match s1 with
        | String c1 s2 =>
            let b := code c1 in
            if (b =? 120) || (b =? 88) then non_decimal 16 s2
            else if (b =? 111) || (b =? 79) then non_decimal 8 s2
            else if (b =? 98) || (b =? 66) then non_decimal 2 s2
            else unsigned_decimal false t
        | EmptyString => unsigned_decimal false t
        end
      else unsigned_decimal false t
  end.

(** *** [Number::toString] (radix 10) *)

(** [x < 10^n], for [x = num/den > 0]. *)
Definition below_pow10 (num den n : Z) : bool :=
  if 0 <=? n then num <? 10 ^ n * den else num * 10 ^ (- n) <? den.

Fixpoint lower_exp (fuel : nat) (num den n : Z) : Z :=
  match fuel with
  | O => n
  | S fuel' =>
      if below_pow10 num den (n - 1) then lower_exp fuel' num den (n - 1)
      else n
  end.

Fixpoint raise_exp (fuel : nat) (num den n : Z) : Z :=
  match fuel with
  | O => n
  | S fuel' =>
      if below_pow10 num den n then n else raise_exp fuel' num den (n + 1)
  end.

(** The [n] with [10^(n-1) <= num/den < 10^n]. *)
Definition decimal_exponent (num den : Z) : Z :=
  let guess := (Z.log2 num - Z.log2 den) * 30103 / 100000 in
  raise_exp 8 num den (lower_exp 8 num den guess).

(** Shortest digits: the least [k] (tried in order) for which some
    [s * 10^(n-k)] with [k] digits reads back as [x]; of two such [s]
    the one nearer to [x], the even one on a tie. *)
Fixpoint shortest_from (fuel : nat) (x : Number) (num den n k : Z)
  : Z * Z * Z :=
  let sh := k - n in
  let a := if 0 <=? sh then num * 10 ^ sh else num in
  let b := if 0 <=? sh then den else den * 10 ^ (- sh) in
  let lo := a / b in
  let hi := lo + 1 in
  let ok s := (0 <? s) && eqb (of_decimal false s (n - k)) x in
  let pick :=
    match ok lo, ok hi with
    | true, true =>
        let dlo := a - lo * b in
        let dhi := hi * b - a in
        if dlo <? dhi then Some lo
        else if dhi <? dlo then Some hi
        else Some (if Z.even lo then lo else hi)
    | true, false => Some lo
    | false, true => Some hi
    | false, false => None
    end in
  match pick, fuel with
  | Some s, _ => if s =? 10 ^ k then (1, 1, n + 1) else (s, k, n)
  | None, S fuel' => shortest_from fuel' x num den n (k + 1)
  | None, O => (lo, k, n)
  end.

(** The digits [s], their count [k] and the exponent [n] of a finite
    [x], so that [|x|] prints as [s * 10^(n-k)]. *)
Definition shortest_digits (x : Number) : Z * Z * Z :=
  let num := abs_num x in
  let den := abs_den x in
  shortest_from 17 (SFabs x) num den (decimal_exponent num den) 1.

Definition format_digits (s k n : Z) : string :=
  let ds := decimal_digits s in
  if (k <=? n) && (n <=? 21) then
    ds ++ repeat_char "0" (Z.to_nat (n - k))
  else if (0 <? n) && (n <=? 21) then
    substring 0 (Z.to_nat n) ds ++ "." ++
    substring (Z.to_nat n) (Z.to_nat (k - n)) ds
  else if (-6 <? n) && (n <=? 0) then
    "0." ++ repeat_char "0" (Z.to_nat (- n)) ++ ds
  else
    let e := n - 1 in
    let es := (if e <? 0 then "-" else "+") ++ decimal_digits (Z.abs e) in
    if k =? 1 then ds ++ "e" ++ es
    else substring 0 1 ds ++ "." ++
         substring 1 (Z.to_nat (k - 1)) ds ++ "e" ++ es.

Definition toString (x : Number) : string :=
  match x with
  | S754_nan => "NaN"
  | S754_zero _ => "0"
  | S754_infinity s => if s then "-Infinity" else "Infinity"
  | S754_finite sg _ _ =>
      let '(s, k, n) := shortest_digits x in
      (if sg then "-" else "") ++ format_digits s k n
  end.

(** *** [Number.prototype.toFixed(2)] *)

(** The integer [n] for which [n / 100 - |x|] is as close to zero as
    possible, the larger one when there are two: [floor (100 |x| + 1/2)]. *)
Definition hundredths (x : Number) : Z :=
  (200 * abs_num x + abs_den x) / (2 * abs_den x).

(** The digits of [n] with a point before the last two, zero-padded. *)
Definition fixed2_digits (n : Z) : string :=
  let m := decimal_digits n in
  let k := String.length m in
  let m' := repeat_char "0" (3 - k) ++ m in
  let k' := String.length m' in
  substring 0 (k' - 2) m' ++ "." ++ substring (k' - 2) 2 m'.

Definition toFixed2 (x : Number) : string :=
  if negb (isFinite x) then toString x
  else if (10 ^ 21 * abs_den x <=? abs_num x) then toString x
  else
    (if is_negative x then "-" else "") ++ fixed2_digits (hundredths x).

End Num.

(* ================================================================== *)
(** ** JavaScript values

    The values a handler meets: what [JSON.parse] builds, and [undefined].
    An object keeps its members in source order; a repeated key reads as
    its last occurrence, as [JSON.parse] leaves it. *)

Inductive value : Type :=
| VUndefined
| VNull
| VBool (b : bool)
| VNum (n : Num.Number)
| VStr (s : string)
| VArr (items : list value)
| VObj (members : list (string * value)).

Module JS.

(** ToBoolean *)
Definition truthy (v : value) : bool :=
  match v with
  | VUndefined | VNull => false
  | VBool b => b
  | VNum n =>
      match n with
      | S754_zero _ | S754_nan => false
      | _ => true
      end
  | VStr s =>
      match s with
      | EmptyString => false
      | String _ _ => true
      end
  | VArr _ | VObj _ => true
  end.

Definition nullish (v : value) : bool :=
  match v with
  | VUndefined | VNull => true
  | _ => false
  end.

(** [a || b] *)
Definition or (a b : value) : value := if truthy a then a else b.

(** [a ?? b] *)
Definition coalesce (a b : value) : value := if nullish a then b else a.

Fixpoint lookup (k : string) (ms : list (string * value)) : option value :=
  match ms with
  | [] => None
  | (k', v) :: ms' =>
      match lookup k ms' with
      | Some later => Some later
      | None => if String.eqb k k' then Some v else None
      end
  end.

(** [v.k] on a value that is neither [null] nor [undefined].  None of the
    keys the handlers read is defined on a prototype, so only an object's
    own members answer. *)
Definition member (v : value) (k : string) : value :=
  match v with
  | VObj ms =>
      match lookup k ms with
      | Some x => x
      | None => VUndefined
      end
  | _ => VUndefined
  end.

(** [v.k]: [None] is the TypeError of reading a property of [null] or
    [undefined]. *)
Definition get (v : value) (k : string) : option value :=
  if nullish v then None else Some (member v k).

(** [v?.k] *)
Definition get_opt (v : value) (k : string) : value :=
  if nullish v then VUndefined else member v k.

(** Whether an object has a member of its own under [k]. *)
Definition has_own (k : string) (ms : list (string * value)) : bool :=
  match lookup k ms with
  | Some _ => true
  | None => false
  end.

(** ToString; [None] is the TypeError "Cannot convert object to primitive
    value".  An object is converted by the first callable of its [toString]
    and [valueOf] that returns a primitive (OrdinaryToPrimitive): a parsed
    object inherits both, [valueOf] returns the object itself and [toString]
    returns "[object Object]", unless the object has a member of its own
    named [toString], which is data and hides the inherited function; then
    no primitive is found.  An array joins its elements with commas, [null]
    and [undefined] elements as the empty string; it has no primitive when
    one of its elements has none. *)
Fixpoint ToString (v : value) : option string :=
  match v with
  | VUndefined => Some "undefined"
  | VNull => Some "null"
  | VBool b => Some (if b then "true" else "false")
  | VNum n => Some (Num.toString n)
  | VStr s => Some s
  | VArr items =>
      (fix join (l : list value) : option string :=
         match l with
         | [] => Some ""
         | x :: l' =>
             match (if nullish x then Some "" else ToString x) with
             | None => None
             | Some s =>
                 match l' with
                 | [] => Some s
                 | _ :: _ =>
                     match join l' with
                     | None => None
                     | Some r => Some (s ++ "," ++ r)
                     end
                 end
             end
         end) items
  | VObj ms => if has_own "toString" ms then None else Some "[object Object]"
  end.

(** [String(v)] *)
Definition String_ (v : value) : option string := ToString v.

(** [Number(v)]; arrays and objects go through their string, the inherited
    [valueOf] returning no primitive (or being hidden by a member of that
    name), and have no number when they have no string. *)
Definition Number_ (v : value) : option Num.Number :=
  match v with
  | VUndefined => Some Num.NaN
  | VNull => Some Num.zero
  | VBool b => Some (if b then Num.of_Z 1 else Num.zero)
  | VNum n => Some n
  | VStr s => Some (Num.StringToNumber s)
  | VArr _ | VObj _ =>
      match ToString v with
      | Some s => Some (Num.StringToNumber s)
      | None => None
      end
  end.

End JS.

(* ================================================================== *)
(** ** [JSON.parse] *)

Module JSON.

Fixpoint skip_ws (s : string) : string :=
  match s with
  | String c s' =>
      let a := code c in
      if (a =? 32) || (a =? 9) || (a =? 10) || (a =? 13) then skip_ws s'
      else s
  | EmptyString => s
  end.

(** UTF-8 bytes of a code point, prepended in reverse to [acc]. *)
Definition push_utf8 (cp : Z) (acc : string) : string :=
  if cp <? 128 then String (chr cp) acc
  else if cp <? 2048 then
    String (chr (128 + cp mod 64)) (String (chr (192 + cp / 64)) acc)
  else if cp <? 65536 then
    String (chr (128 + cp mod 64))
      (String (chr (128 + (cp / 64) mod 64))
         (String (chr (224 + cp / 4096)) acc))
  else
    String (chr (128 + cp mod 64))
      (String (chr (128 + (cp / 64) mod 64))
         (String (chr (128 + (cp / 4096) mod 64))
            (String (chr (240 + cp / 262144)) acc))).

(** Four hexadecimal digits. *)
Definition hex4 (s : string) : option (Z * string) :=
  match s with
  | String a (String b (String c (String d r))) =>
      match Num.radix_value 16 (String a (String b (String c (String d "")))) 0 with
      | Some v => Some (v, r)
      | None => None
      end
  | _ => None
  end.

(** The rest of a string literal after its opening quote; [acc] holds the
    bytes read so far, last first. *)
Fixpoint string_body (s : string) (acc : string) (fuel : nat)
  : option (string * string) :=
  match fuel with
  | O => None
  | S fuel' =>
      match s with
      | EmptyString => None
      | String c r =>
          let a := code c in
          if a =? 34 then Some (str_rev acc, r)
          else if a <? 32 then None
          else if a =? 92 then
            match r with
            | String e r' =>
                let b := code e in
                if (b =? 34) || (b =? 92) || (b =? 47)
                then string_body r' (String e acc) fuel'
                else if b =? 98 then string_body r' (String (chr 8) acc) fuel'
                else if b =? 102 then string_body r' (String (chr 12) acc) fuel'
                else if b =? 110 then string_body r' (String (chr 10) acc) fuel'
                else if b =? 114 then string_body r' (String (chr 13) acc) fuel'
                else if b =? 116 then string_body r' (String (chr 9) acc) fuel'
                else if b =? 117 then
                  match hex4 r' with
                  | Some (hi, r2) =>
                      let pair :=
                        if (55296 <=? hi) && (hi <=? 56319)
                           && starts_with "\u" r2
                        then
                          match hex4 (drop 2 r2) with
                          | Some (lo, r3) =>
                              if (56320 <=? lo) && (lo <=? 57343)
                              then Some (65536 + (hi - 55296) * 1024
                                         + (lo - 56320), r3)
                              else None
                          | None => None
                          end
                        else None in
                      match pair with
                      | Some (cp, r3) => string_body r3 (push_utf8 cp acc) fuel'
                      | None => string_body r2 (push_utf8 hi acc) fuel'
                      end
                  | None => None
                  end
                else None
            | EmptyString => None
            end
          else string_body r (String c acc) fuel'
      end
  end.

(** A JSON number: [-? (0 | [1-9][0-9]* ) (. [0-9]+)? ([eE] [+-]? [0-9]+)?] *)
Definition number (s : string) : option (Num.Number * string) :=
  let '(neg, s0) :=
    match s with
    | String c r => if code c =? 45 then (true, r) else (false, s)
    | EmptyString => (false, s)
    end in
  let '(ip, ilen, r1) := Num.span_digits s0 0 0 in
  if (ilen =? 0) || ((1 <? ilen) && starts_with "0" s0) then None
  else
    let frac :=
      match r1 with
      | String c r1' =>
          if code c =? 46 then
            let '(m, flen, r2) := Num.span_digits r1' ip 0 in
            if flen =? 0 then None else Some (m, flen, r2)
          else Some (ip, 0, r1)
      | EmptyString => Some (ip, 0, r1)
      end in
    match frac with
    | None => None
    | Some (m, flen, r2) =>
        let expo :=
          match r2 with
          | String c r2' =>
              if (code c =? 101) || (code c =? 69) then
                let '(eneg, r3) :=
                  match r2' with
                  | String c1 r2'' =>
                      if code c1 =? 45 then (true, r2'')
                      else if code c1 =? 43 then (false, r2'')
                      else (false, r2')
                  | EmptyString => (false, r2')
                  end in
                let '(e, elen, r4) := Num.span_digits r3 0 0 in
                if elen =? 0 then None
                else Some (if eneg then - e else e, r4)
              else Some (0, r2)
          | EmptyString => Some (0, r2)
          end in
        match expo with
        | None => None
        | Some (e, r4) => Some (Num.of_decimal neg m (e - flen), r4)
        end
    end.

Fixpoint parse_value (fuel : nat) (s : string) : option (value * string) :=
  match fuel with
  | O => None
  | S fuel' =>
      match skip_ws s with
      | EmptyString => None
      | String c r as t =>
          let a := code c in
          if a =? 123 then
            match skip_ws r with
            | String c' r' =>
                if code c' =? 125 then Some (VObj [], r')
                else parse_members fuel' r []
            | EmptyString => None
            end
          else if a =? 91 then
            match skip_ws r with
            | String c' r' =>
                if code c' =? 93 then Some (VArr [], r')
                else parse_elements fuel' r []
            | EmptyString => None
            end
          else if a =? 34 then
            match string_body r "" (S (String.length r)) with
            | Some (str, r') => Some (VStr str, r')
            | None => None
            end
          else if starts_with "true" t then Some (VBool true, drop 4 t)
          else if starts_with "false" t then Some (VBool false, drop 5 t)
          else if starts_with "null" t then Some (VNull, drop 4 t)
          else
            match number t with
            | Some (n, r') => Some (VNum n, r')
            | None => None
            end
      end
  end

with parse_elements (fuel : nat) (s : string) (acc : list value)
  : option (value * string) :=
  match fuel with
  | O => None
  | S fuel' =>
      match parse_value fuel' s with
      | Some (v, r) =>
          match skip_ws r with
          | String c r' =>
              if code c =? 44 then parse_elements fuel' r' (v :: acc)
              else if code c =? 93 then Some (VArr (rev (v :: acc)), r')
              else None
          | EmptyString => None
          end
      | None => None
      end
  end

with parse_members (fuel : nat) (s : string) (acc : list (string * value))
  : option (value * string) :=
  match fuel with
  | O => None
  | S fuel' =>
      match skip_ws s with
      | String q r0 =>
          if code q =? 34 then
            match string_body r0 "" (S (String.length r0)) with
            | Some (k, r1) =>
                match skip_ws r1 with
                | String c r2 =>
                    if code c =? 58 then
                      match parse_value fuel' r2 with
                      | Some (v, r3) =>
                          match skip_ws r3 with
                          | String d r4 =>
                              if code d =? 44
                              then parse_members fuel' r4 ((k, v) :: acc)
                              else if code d =? 125
                              then Some (VObj (rev ((k, v) :: acc)), r4)
                              else None
                          | EmptyString => None
                          end
                      | None => None
                      end
                    else None
                | EmptyString => None
                end
            | None => None
            end
          else None
      | EmptyString => None
      end
  end.

(** [JSON.parse(text)]; [None] is its SyntaxError. *)
Definition parse (text : string) : option value :=
  match parse_value (2 * String.length text + 2) text with
  | Some (v, r) =>
      match skip_ws r with
      | EmptyString => Some v
      | String _ _ => None
      end
  | None => None
  end.

End JSON.

(* ================================================================== *)
(** ** Node's [crypto]: HMAC-SHA256, base64, [timingSafeEqual] *)

Module Crypto.

(** *** SHA-256 (FIPS 180-4) on 32-bit words held in [Z] *)

Definition wrap (x : Z) : Z := x mod 2 ^ 32.
Definition add32 (a b : Z) : Z := wrap (a + b).
Definition not32 (x : Z) : Z := Z.lxor x (2 ^ 32 - 1).
Definition rotr (n x : Z) : Z :=
  wrap (Z.lor (Z.shiftr x n) (Z.shiftl x (32 - n))).

Definition Ch (x y z : Z) : Z := Z.lxor (Z.land x y) (Z.land (not32 x) z).
Definition Maj (x y z : Z) : Z :=
  Z.lxor (Z.lxor (Z.land x y) (Z.land x z)) (Z.land y z).
Definition Sigma0 (x : Z) : Z :=
  Z.lxor (Z.lxor (rotr 2 x) (rotr 13 x)) (rotr 22 x).
Definition Sigma1 (x : Z) : Z :=
  Z.lxor (Z.lxor (rotr 6 x) (rotr 11 x)) (rotr 25 x).
Definition sigma0 (x : Z) : Z :=
  Z.lxor (Z.lxor (rotr 7 x) (rotr 18 x)) (Z.shiftr x 3).
Definition sigma1 (x : Z) : Z :=
  Z.lxor (Z.lxor (rotr 17 x) (rotr 19 x)) (Z.shiftr x 10).

Definition K256 : list Z :=
  [
   1116352408; 1899447441; 3049323471; 3921009573; 961987163; 1508970993;
   2453635748; 2870763221; 3624381080; 310598401; 607225278; 1426881987;
   1925078388; 2162078206; 2614888103; 3248222580; 3835390401; 4022224774;
   264347078; 604807628; 770255983; 1249150122; 1555081692; 1996064986;
   2554220882; 2821834349; 2952996808; 3210313671; 3336571891; 3584528711;
   113926993; 338241895; 666307205; 773529912; 1294757372; 1396182291;
   1695183700; 1986661051; 2177026350; 2456956037; 2730485921; 2820302411;
   3259730800; 3345764771; 3516065817; 3600352804; 4094571909; 275423344;
   430227734; 506948616; 659060556; 883997877; 958139571; 1322822218;
   1537002063; 1747873779; 1955562222; 2024104815; 2227730452; 2361852424;
   2428436474; 2756734187; 3204031479; 3329325298
  ].

Definition H_init : list Z :=
  [
   1779033703; 3144134277; 1013904242; 2773480762;
   1359893119; 2600822924; 528734635; 1541459225
  ].

(** Message padding: a one bit, zeros up to 56 mod 64, the bit length on
    eight bytes. *)
Definition be_bytes (width : nat) (x : Z) : list Z :=
  map (fun i => (x / 256 ^ Z.of_nat i) mod 256) (rev (seq 0 width)).

Definition pad (msg : list Z) : list Z :=
  let len := Z.of_nat (List.length msg) in
  let zeros := Z.to_nat ((55 - len) mod 64) in
  (msg ++ 128 :: repeat 0 zeros ++ be_bytes 8 (8 * len))%list.

Fixpoint words_of (fuel : nat) (bs : list Z) : list Z :=
  match fuel, bs with
  | S fuel', a :: b :: c :: d :: rest =>
      (((a * 256 + b) * 256 + c) * 256 + d) :: words_of fuel' rest
  | _, _ => []
  end.

(** The message schedule, latest word first. *)
Fixpoint schedule (n : nat) (w : list Z) : list Z :=
  match n with
  | O => w
  | S n' =>
      let next :=
        add32 (add32 (sigma1 (nth 1 w 0)) (nth 6 w 0))
              (add32 (sigma0 (nth 14 w 0)) (nth 15 w 0)) in
      schedule n' (next :: w)
  end.

Definition round (st : list Z) (kw : Z * Z) : list Z :=
  match st with
  | [a; b; c; d; e; f; g; h] =>
      let t1 := add32 (add32 (add32 h (Sigma1 e)) (Ch e f g))
                      (add32 (fst kw) (snd kw)) in
      let t2 := add32 (Sigma0 a) (Maj a b c) in
      [add32 t1 t2; a; b; c; add32 d t1; e; f; g]
  | _ => st
  end.

Definition compress (h : list Z) (block : list Z) : list Z :=
  let w := rev (schedule 48 (rev block)) in
  let st := fold_left round (combine K256 w) h in
  map (fun p => add32 (fst p) (snd p)) (combine h st).

Fixpoint blocks (fuel : nat) (ws : list Z) (h : list Z) : list Z :=
  match fuel, ws with
  | S fuel', _ :: _ => blocks fuel' (skipn 16 ws) (compress h (firstn 16 ws))
  | _, _ => h
  end.

Definition sha256 (msg : list Z) : list Z :=
  let bs := pad msg in
  let ws := words_of (List.length bs) bs in
  flat_map (be_bytes 4) (blocks (List.length ws) ws H_init).

(** *** HMAC (RFC 2104) with SHA-256, block size 64 *)

Definition hmac_sha256 (key msg : list Z) : list Z :=
  let k0 := if (64 <? Z.of_nat (List.length key)) then sha256 key else key in
  let k := (k0 ++ repeat 0 (64 - List.length k0))%list in
  let ipad := map (fun b => Z.lxor b 54) k in
  let opad := map (fun b => Z.lxor b 92) k in
  sha256 (opad ++ sha256 (ipad ++ msg))%list.

(** *** base64 (RFC 4648, with padding) *)

Definition b64_char (i : Z) : ascii :=
  if i <? 26 then chr (65 + i)
  else if i <? 52 then chr (97 + (i - 26))
  else if i <? 62 then chr (48 + (i - 52))
  else if i =? 62 then "+"%char
  else "/"%char.

Fixpoint base64 (bs : list Z) : string :=
  match bs with
  | a :: b :: c :: rest =>
      String (b64_char (a / 4))
        (String (b64_char ((a mod 4) * 16 + b / 16))
           (String (b64_char ((b mod 16) * 4 + c / 64))
              (String (b64_char (c mod 64)) (base64 rest))))
  | [a; b] =>
      String (b64_char (a / 4))
        (String (b64_char ((a mod 4) * 16 + b / 16))
           (String (b64_char ((b mod 16) * 4)) "="))
  | [a] =>
      String (b64_char (a / 4)) (String (b64_char ((a mod 4) * 16)) "==")
  | [] => ""
  end.

Definition bytes_of (s : string) : list Z := map code (list_ascii_of_string s).

(** [crypto.createHmac("sha256", secret).update(raw).digest("base64")] *)
Definition hmac_sha256_base64 (secret raw : string) : string :=
  base64 (hmac_sha256 (bytes_of secret) (bytes_of raw)).

(** [crypto.timingSafeEqual(A, B)]: [None] is the RangeError it throws
    when the two buffers differ in byte length. *)
Definition timingSafeEqual (a b : string) : option bool :=
  if Nat.eqb (String.length a) (String.length b)
  then Some (String.eqb a b)
  else None.

End Crypto.

(* ================================================================== *)
(** ** The table [lsc_cashback_events] *)

(** The tuple of an [INSERT ... VALUES (...)]: every column but
    [created_at], which the table fills with [NOW()]. *)
Record Values : Type := {
  order_id : string;
  shop_domain : string;
  customer_email : value;
  currency : value;
  total_paid : Num.Number;
  cashback_percent : Num.Number;
  cashback_amount : Num.Number;
  raw : value
}.

Record Row : Type := {
  created_at : Z;
  cols : Values
}.

Definition key (r : Row) : string := order_id (cols r).

Record Database : Type := {
  table_exists : bool;
  rows : list Row
}.

(** One call of the [sql] tag: the text it sends. *)
Inductive statement : Type :=
| CreateTable          (* CREATE TABLE IF NOT EXISTS lsc_cashback_events *)
| CreateIndexEmail     (* CREATE INDEX IF NOT EXISTS idx_lsc_cashback_email *)
| CreateIndexCreated   (* CREATE INDEX IF NOT EXISTS idx_lsc_cashback_created *)
| CreateAll            (* the three commands above sent as one text *)
| InsertOrUpdate (v : Values)   (* ... ON CONFLICT (order_id) DO UPDATE SET ... RETURNING * *)
| InsertOrNothing (v : Values). (* ... ON CONFLICT (order_id) DO NOTHING *)

Module Storage.

Definition has_key (k : string) (rs : list Row) : bool :=
  existsb (fun r => String.eqb (key r) k) rs.

(** [DO UPDATE SET] of every column but [order_id] and [created_at]; the
    excluded tuple carries the conflicting [order_id] itself. *)
Definition update_row (v : Values) (r : Row) : Row :=
  if String.eqb (key r) (order_id v)
  then {| created_at := created_at r; cols := v |}
  else r.

(** What one statement does to the table at time [now], and the rows it
    returns; [None] when the database refuses it: the table it names does not
    exist, or the text holds several commands.  The [sql] tag sends its text
    as a parameterised query, and Postgres takes one command per such query
    (the first file says so above its [ensureTable]). *)
Definition exec (now : Z) (st : statement) (d : Database)
  : option (Database * list Row) :=
  match st with
  | CreateAll => None
  | CreateTable =>
      Some ({| table_exists := true; rows := rows d |}, [])
  | CreateIndexEmail | CreateIndexCreated =>
      if table_exists d then Some (d, []) else None
  | InsertOrUpdate v =>
      if table_exists d then
        if has_key (order_id v) (rows d) then
          let rs := map (update_row v) (rows d) in
          Some ({| table_exists := true; rows := rs |},
                filter (fun r => String.eqb (key r) (order_id v)) rs)
        else
          let r := {| created_at := now; cols := v |} in
          Some ({| table_exists := true; rows := (rows d ++ [r])%list |}, [r])
      else None
  | InsertOrNothing v =>
      if table_exists d then
        if has_key (order_id v) (rows d) then Some (d, [])
        else
          let r := {| created_at := now; cols := v |} in
          Some ({| table_exists := true; rows := (rows d ++ [r])%list |}, [])
      else None
  end.

(** The message of a refusal. *)
Definition refusal (st : statement) : string :=
  match st with
  | CreateAll => "cannot insert multiple commands into a prepared statement"
  | _ => "relation does not exist"
  end.

End Storage.

(* ================================================================== *)
(** ** The world a handler runs in *)

Inductive exn : Type :=
| TypeError (msg : string)
| RangeError (msg : string)
| SyntaxError (msg : string)
| StorageError (msg : string).

(** What a run does besides answering, in the order it does it. *)
Inductive event : Type :=
| EvHmacDigest                         (* createHmac(..).update(..).digest(..) *)
| EvTimingSafeEqual                    (* crypto.timingSafeEqual *)
| EvJsonParse                          (* JSON.parse *)
| EvSql (st : statement) (ok : bool)   (* one [sql] call and whether it resolved *)
| EvConsoleLog (label : string) (data : value)
| EvConsoleError (label : string) (e : exn).

Record World : Type := {
  db : Database;
  tableReady : bool;        (* the module-level [let tableReady] *)
  clock : Z;                (* what [NOW()] answers *)
  faults : list bool;       (* for each coming [sql] call: does the storage layer fail *)
  trace : list event        (* what has been done so far, oldest first *)
}.

Inductive outcome (A : Type) : Type :=
| Returned (a : A)
| Thrown (e : exn).

Arguments Returned {A} a.
Arguments Thrown {A} e.

Definition M (A : Type) : Type := World -> outcome A * World.

Definition ret {A : Type} (a : A) : M A := fun w => (Returned a, w).

Definition throw {A : Type} (e : exn) : M A := fun w => (Thrown e, w).

Definition bind {A B : Type} (m : M A) (k : A -> M B) : M B :=
  fun w =>
    match m w with
    | (Returned a, w') => k a w'
    | (Thrown e, w') => (Thrown e, w')
    end.

(** [try { m } catch (e) { h e }] *)
Definition try_catch {A : Type} (m : M A) (h : exn -> M A) : M A :=
  fun w =>
    match m w with
    | (Returned a, w') => (Returned a, w')
    | (Thrown e, w') => h e w'
    end.

Declare Scope js_scope.
Delimit Scope js_scope with js.
Notation "x <- m ;; k" := (bind m (fun x => k))
  (at level 61, m at next level, right associativity) : js_scope.
Notation "m ;; k" := (bind m (fun _ => k))
  (at level 61, right associativity) : js_scope.
Local Open Scope js_scope.

Definition emit (e : event) : M unit :=
  fun w =>
    (Returned tt,
     {| db := db w; tableReady := tableReady w; clock := clock w;
        faults := faults w; trace := (trace w ++ [e])%list |}).

Definition get_tableReady : M bool := fun w => (Returned (tableReady w), w).

Definition set_tableReady (b : bool) : M unit :=
  fun w =>
    (Returned tt,
     {| db := db w; tableReady := b; clock := clock w;
        faults := faults w; trace := trace w |}).

(** One awaited [sql] call.  The storage layer fails when the schedule
    says so (the network, the driver, a value the column type refuses) or
    when the database refuses the statement; a failed call leaves the table
    as it was and rejects. *)
Definition sql (st : statement) : M (list Row) :=
  fun w =>
    let failing := match faults w with b :: _ => b | [] => false end in
    let w1 d ok :=
      {| db := d; tableReady := tableReady w; clock := clock w;
         faults := tl (faults w); trace := (trace w ++ [EvSql st ok])%list |} in
    if failing then (Thrown (StorageError "storage failure"), w1 (db w) false)
    else
      match Storage.exec (clock w) st (db w) with
      | Some (d, res) => (Returned res, w1 d true)
      | None => (Thrown (StorageError (Storage.refusal st)), w1 (db w) false)
      end.

Definition console_log (label : string) (data : value) : M unit :=
  emit (EvConsoleLog label data).

Definition console_error (label : string) (e : exn) : M unit :=
  emit (EvConsoleError label e).

(** [crypto.createHmac("sha256", secret).update(raw).digest("base64")] *)
Definition createHmac_digest (secret rawBody : string) : M string :=
  emit EvHmacDigest ;; ret (Crypto.hmac_sha256_base64 secret rawBody).

(** [crypto.timingSafeEqual(A, B)] *)
Definition timingSafeEqual (a b : string) : M bool :=
  emit EvTimingSafeEqual ;;
  match Crypto.timingSafeEqual a b with
  | Some r => ret r
  | None => throw (RangeError "Input buffers must have the same byte length")
  end.

(** [JSON.parse(text)] *)
Definition JSON_parse (text : string) : M value :=
  emit EvJsonParse ;;
  match JSON.parse text with
  | Some v => ret v
  | None => throw (SyntaxError "Unexpected token in JSON")
  end.

(** [v.k], a TypeError on [null] and [undefined]. *)
Definition get_member (v : value) (k : string) : M value :=
  match JS.get v k with
  | Some x => ret x
  | None => throw (TypeError "Cannot read properties of null")
  end.

(** The result of [String(v)] or [Number(v)], a TypeError when the value
    has no primitive. *)
Definition converted {A : Type} (x : option A) : M A :=
  match x with
  | Some a => ret a
  | None => throw (TypeError "Cannot convert object to primitive value")
  end.

(* ================================================================== *)
(** ** Requests, responses, configuration *)

Record Request : Type := {
  method : string;
  headers : list (string * string);   (* [req.headers], names in lower case *)
  chunks : list string                (* what iterating [req] yields *)
}.

(** [req.headers[name]] *)
Fixpoint header (name : string) (hs : list (string * string)) : option string :=
  match hs with
  | [] => None
  | (n, v) :: hs' => if String.eqb n name then Some v else header name hs'
  end.

Inductive body : Type :=
| Json (v : value)      (* [res.status(c).json(v)] *)
| Text (s : string).    (* [res.status(c).send(s)] *)

Record Response : Type := {
  status : Z;
  content : body
}.

(** [process.env] *)
Record Env : Type := {
  env_SHOPIFY_WEBHOOK_SECRET : option string;
  env_ALLOWED_SHOPIFY_DOMAIN : option string;
  env_LSC_CASHBACK_PERCENT : option string
}.

(** [x || ""] on an environment entry *)
Definition or_empty (x : option string) : string :=
  match x with
  | Some s => s
  | None => ""
  end.

Definition nonempty (s : string) : bool :=
  match s with
  | EmptyString => false
  | String _ _ => true
  end.

(** [async function readRawBody(req)], the same in both files. *)
Definition readRawBody (req : Request) : string :=
  fold_left append (chunks req) "".

Definition five : Num.Number := Num.of_Z 5.
Definition hundred : Num.Number := Num.of_Z 100.

(** The three module constants, the same in both files. *)
Section Constants.

Variable env : Env.

Definition SHOPIFY_WEBHOOK_SECRET : string :=
  or_empty (env_SHOPIFY_WEBHOOK_SECRET env).

Definition ALLOWED_SHOPIFY_DOMAIN : string :=
  toLowerCase (or_empty (env_ALLOWED_SHOPIFY_DOMAIN env)).

(** [Number(process.env.LSC_CASHBACK_PERCENT || 5)] *)
Definition LSC_CASHBACK_PERCENT : Num.Number :=
  match env_LSC_CASHBACK_PERCENT env with
  | Some s => if nonempty s then Num.StringToNumber s else five
  | None => five
  end.

End Constants.

(* ================================================================== *)
(** ** src/api/shopify-orders-paid.js *)

Module Api.
Section Handler.

Variable env : Env.

(** [async function ensureTable()]: one statement per call. *)
Definition ensureTable : M unit :=
  ready <- get_tableReady ;;
  if ready then ret tt
  else
    sql CreateTable ;;
    sql CreateIndexEmail ;;
    sql CreateIndexCreated ;;
    set_tableReady true.

(** [function verifyShopifyHmac(rawBody, hmacHeader)] *)
Definition verifyShopifyHmac (rawBody : string) (hmacHeader : option string)
  : M bool :=
  if negb (nonempty (SHOPIFY_WEBHOOK_SECRET env)) then ret false
  else
    digest <- createHmac_digest (SHOPIFY_WEBHOOK_SECRET env) rawBody ;;
    timingSafeEqual digest (or_empty hmacHeader).

Definition respond (code : Z) (fields : list (string * value)) : Response :=
  {| status := code; content := Json (VObj fields) |}.

(** [!topic || (!topic.includes("orders/paid") && !topic.includes("order"))] *)
Definition not_our_topic (topic : option string) : bool :=
  match topic with
  | None => true
  | Some t =>
      negb (nonempty t)
      || (negb (includes t "orders/paid") && negb (includes t "order"))
  end.

(** The extraction of lines 93-107; [String(..)] and [Number(..)] have no
    result where they throw. *)
Definition orderId_of (payload : value) : option string :=
  JS.String_
    (JS.coalesce (JS.get_opt payload "id")
       (JS.coalesce (JS.get_opt payload "order_id") (VStr ""))).

Definition customerEmail_of (payload : value) : value :=
  JS.or (JS.get_opt payload "email")
    (JS.or (JS.get_opt (JS.get_opt payload "customer") "email")
       (JS.or (JS.get_opt
                 (JS.get_opt (JS.get_opt payload "customer") "default_address")
                 "email")
          VNull)).

Definition currency_of (payload : value) : value :=
  JS.or (JS.get_opt payload "currency")
    (JS.or (JS.get_opt payload "presentment_currency") (VStr "USD")).

Definition totalPaidRaw_of (payload : value) : value :=
  JS.or (JS.get_opt payload "total_price")
    (JS.or (JS.get_opt payload "current_total_price")
       (JS.or (JS.get_opt
                 (JS.get_opt (JS.get_opt payload "total_price_set") "shop_money")
                 "amount")
          (VStr "0"))).

Definition totalPaid_of (payload : value) : option Num.Number :=
  JS.Number_ (totalPaidRaw_of payload).

(** [Number.isFinite(LSC_CASHBACK_PERCENT) ? LSC_CASHBACK_PERCENT : 5] *)
Definition cashbackPercent : Num.Number :=
  if Num.isFinite (LSC_CASHBACK_PERCENT env)
  then LSC_CASHBACK_PERCENT env else five.

(** [Number((totalPaid * (cashbackPercent / 100)).toFixed(2))] *)
Definition cashbackAmount_of (totalPaid : Num.Number) : Num.Number :=
  Num.StringToNumber
    (Num.toFixed2 (Num.mul totalPaid (Num.div cashbackPercent hundred))).

(** The body of the [try] block. *)
Definition process (req : Request) : M Response :=
  let rawBody := readRawBody req in
  let hmacHeader := header "x-shopify-hmac-sha256" (headers req) in
  let topic := header "x-shopify-topic" (headers req) in
  let shopDomain :=
    toLowerCase (or_empty (header "x-shopify-shop-domain" (headers req))) in
  if nonempty (ALLOWED_SHOPIFY_DOMAIN env)
     && negb (String.eqb shopDomain (ALLOWED_SHOPIFY_DOMAIN env))
  then ret (respond 401 [("ok", VBool false);
                         ("error", VStr "Unauthorized shop domain")])
  else
    verified <- verifyShopifyHmac rawBody hmacHeader ;;
    if negb verified
    then ret (respond 401 [("ok", VBool false); ("error", VStr "Invalid HMAC")])
    else
      payload <- JSON_parse rawBody ;;
      if not_our_topic topic
      then ret (respond 200 [("ok", VBool true); ("skipped", VBool true);
                             ("reason", VStr "Not an orders/paid topic")])
      else
        orderId <- converted (orderId_of payload) ;;
        let customerEmail := customerEmail_of payload in
        let currency := currency_of payload in
        totalPaid <- converted (totalPaid_of payload) ;;
        let cashbackAmount := cashbackAmount_of totalPaid in
        ensureTable ;;
        result <- sql (InsertOrUpdate
                         {| order_id := orderId;
                            shop_domain := shopDomain;
                            customer_email := customerEmail;
                            currency := currency;
                            total_paid := totalPaid;
                            cashback_percent := cashbackPercent;
                            cashback_amount := cashbackAmount;
                            raw := payload |}) ;;
        console_log "Cashback saved:"
          (match result with
           | r :: _ =>
               VObj [("order_id", VStr (order_id (cols r)));
                     ("cashback_amount", VNum (cashback_amount (cols r)))]
           | [] =>
               VObj [("order_id", VUndefined); ("cashback_amount", VUndefined)]
           end) ;;
        ret (respond 200 [("ok", VBool true); ("order_id", VStr orderId);
                          ("cashback_amount", VNum cashbackAmount)]).

(** [export default async function handler(req, res)] *)
Definition handler (req : Request) : M Response :=
  if negb (String.eqb (method req) "POST")
  then ret (respond 405 [("ok", VBool false);
                         ("error", VStr "Method Not Allowed")])
  else
    try_catch (process req)
      (fun err =>
         console_error "Webhook error:" err ;;
         ret (respond 200 [("ok", VBool false);
                           ("error", VStr "Logged server error")])).

End Handler.
End Api.

(* ================================================================== *)
(** ** src/unnamed/part_000 *)

Module Part000.
Section Handler.

Variable env : Env.

(** [async function ensureTable()]: the three commands in one call. *)
Definition ensureTable : M unit :=
  ready <- get_tableReady ;;
  if ready then ret tt
  else
    sql CreateAll ;;
    set_tableReady true.

(** [function timingSafeEqualStr(a, b)] *)
Definition timingSafeEqualStr (a b : string) : M bool :=
  if negb (Nat.eqb (String.length a) (String.length b)) then ret false
  else timingSafeEqual a b.

Definition send (code : Z) (text : string) : Response :=
  {| status := code; content := Text text |}.

(** The extraction of lines 66-71; [payload.id] itself is read in
    [handler], where it can throw, and [String(..)] and [Number(..)] have no
    result where they throw.  [String(id || "")]: *)
Definition orderId_from (id : value) : option string :=
  JS.String_ (JS.or id (VStr "")).

Definition customerEmail_of (payload : value) : value :=
  JS.or (JS.get_opt payload "email")
    (JS.or (JS.get_opt (JS.get_opt payload "customer") "email") VNull).

Definition currency_of (payload : value) : value :=
  JS.or (JS.get_opt
           (JS.get_opt (JS.get_opt payload "total_price_set") "shop_money")
           "currency_code")
    (JS.or (JS.get_opt payload "currency")
       (JS.or (JS.get_opt payload "presentment_currency") (VStr "USD"))).

Definition totalPaid_of (payload : value) : option Num.Number :=
  JS.Number_
    (JS.coalesce
       (JS.get_opt
          (JS.get_opt (JS.get_opt payload "total_price_set") "shop_money")
          "amount")
       (JS.coalesce (JS.get_opt payload "total_price") (VNum Num.zero))).

(** [isFinite(LSC_CASHBACK_PERCENT) ? LSC_CASHBACK_PERCENT : 5] *)
Definition pct : Num.Number :=
  if Num.isFinite (LSC_CASHBACK_PERCENT env)
  then LSC_CASHBACK_PERCENT env else five.

(** [Number((totalPaid * (pct / 100)).toFixed(2))] *)
Definition cashbackAmount_of (totalPaid : Num.Number) : Num.Number :=
  Num.StringToNumber (Num.toFixed2 (Num.mul totalPaid (Num.div pct hundred))).

(** [export default async function handler(req, res)] *)
Definition handler (req : Request) : M Response :=
  if negb (String.eqb (method req) "POST")
  then ret (send 405 "Method Not Allowed")
  else
    let raw_ := readRawBody req in
    let text := raw_ in
    let hmac := or_empty (header "x-shopify-hmac-sha256" (headers req)) in
    let shop :=
      toLowerCase (or_empty (header "x-shopify-shop-domain" (headers req))) in
    let topic :=
      toLowerCase (or_empty (header "x-shopify-topic" (headers req))) in
    if negb (nonempty (ALLOWED_SHOPIFY_DOMAIN env))
       || negb (String.eqb shop (ALLOWED_SHOPIFY_DOMAIN env))
    then ret (send 403 "Forbidden (domain)")
    else if negb (nonempty (SHOPIFY_WEBHOOK_SECRET env))
    then ret (send 500 "Server misconfigured (secret)")
    else
      digest <- createHmac_digest (SHOPIFY_WEBHOOK_SECRET env) raw_ ;;
      same <- timingSafeEqualStr digest hmac ;;
      if negb same then ret (send 403 "Forbidden (hmac)")
      else if negb (String.eqb topic "orders/paid")
      then ret (send 200 "Ignored topic")
      else
        parsed <- try_catch (v <- JSON_parse text ;; ret (Some v))
                            (fun _ => ret None) ;;
        match parsed with
        | None => ret (send 400 "Bad JSON")
        | Some payload =>
            id <- get_member payload "id" ;;
            orderId <- converted (orderId_from id) ;;
            let customerEmail := customerEmail_of payload in
            let currency := currency_of payload in
            totalPaid <- converted (totalPaid_of payload) ;;
            if negb (nonempty orderId) || negb (Num.gtb totalPaid Num.zero)
            then ret (send 200 "Missing order data")
            else
              let cashbackAmount := cashbackAmount_of totalPaid in
              try_catch
                (ensureTable ;;
                 sql (InsertOrNothing
                        {| order_id := orderId;
                           shop_domain := shop;
                           customer_email := customerEmail;
                           currency := currency;
                           total_paid := totalPaid;
                           cashback_percent := pct;
                           cashback_amount := cashbackAmount;
                           raw := payload |}) ;;
                 ret tt)
                (fun e => console_error "DB insert error:" e) ;;
              console_log "[LSC] orders/paid"
                (VObj [("shop", VStr shop); ("orderId", VStr orderId);
                       ("currency", currency); ("totalPaid", VNum totalPaid);
                       ("pct", VNum pct);
                       ("cashbackAmount", VNum cashbackAmount)]) ;;
              ret (send 200 "OK")
        end.

End Handler.
End Part000.

(* ================================================================== *)
(** ** Deliveries

    The platform calls the handler once per delivered request; the module
    state ([tableReady]) and the table persist between calls. *)

Record Delivery : Type := {
  request : Request;
  at_time : Z;                 (* [NOW()] during this run *)
  storage_faults : list bool   (* which of its [sql] calls fail *)
}.

Definition arrive (d : Delivery) (w : World) : World :=
  {| db := db w; tableReady := tableReady w; clock := at_time d;
     faults := storage_faults d; trace := trace w |}.

Definition deliver (h : Request -> M Response) (d : Delivery) (w : World)
  : outcome Response * World :=
  h (request d) (arrive d w).

Fixpoint run (h : Request -> M Response) (ds : list Delivery) (w : World)
  : World :=
  match ds with
  | [] => w
  | d :: ds' => run h ds' (snd (deliver h d w))
  end.

(** A fresh deployment: no table yet, nothing logged. *)
Definition fresh : World :=
  {| db := {| table_exists := false; rows := [] |};
     tableReady := false; clock := 0; faults := []; trace := [] |}.

(** Rows stored under an order identifier. *)
Definition records_for (k : string) (w : World) : nat :=
  List.length (filter (fun r => String.eqb (key r) k) (rows (db w))).

Definition unique_keys (d : Database) : Prop := NoDup (map key (rows d)).

(* ================================================================== *)
(** ** Vocabulary of the statements proved below *)

(** Statements reaching the table in any order, from any number of runs;
    one that cannot run leaves the table as it is. *)
Fixpoint exec_all (sts : list (Z * statement)) (d : Database) : Database :=
  match sts with
  | [] => d
  | (now, st) :: sts' =>
      match Storage.exec now st d with
      | Some (d', _) => exec_all sts' d'
      | None => exec_all sts' d
      end
  end.

(** The statements of a run that the storage layer carried out. *)
Definition statements_of (now : Z) (evs : list event) : list (Z * statement) :=
  flat_map (fun e => match e with
                     | EvSql st true => [(now, st)]
                     | _ => []
                     end) evs.

Definition failed_sql (e : event) : bool :=
  match e with
  | EvSql _ false => true
  | _ => false
  end.

Definition logged_error (e : event) : bool :=
  match e with
  | EvConsoleError _ _ => true
  | _ => false
  end.

(** A property of the world that a computation never breaks. *)
Definition keeps (P : World -> Prop) {A : Type} (m : M A) : Prop :=
  forall w, P w -> P (snd (m w)).

Definition table_keys_unique (w : World) : Prop := unique_keys (db w).

(** [String(req.headers["x-shopify-shop-domain"] || "").toLowerCase()] *)
Definition shop_of (req : Request) : string :=
  toLowerCase (or_empty (header "x-shopify-shop-domain" (headers req))).

(** A POST from the allowed shop that carries the signature of its body:
    it passes the method, domain and signature checks of both files. *)
Record signed_post (env : Env) (req : Request) : Prop := {
  sp_method : method req = "POST";
  sp_secret : SHOPIFY_WEBHOOK_SECRET env <> "";
  sp_allowed : ALLOWED_SHOPIFY_DOMAIN env <> "";
  sp_domain : shop_of req = ALLOWED_SHOPIFY_DOMAIN env;
  sp_signature :
    header "x-shopify-hmac-sha256" (headers req)
    = Some (Crypto.hmac_sha256_base64 (SHOPIFY_WEBHOOK_SECRET env)
                                      (readRawBody req))
}.

(** The answers the two files give at their gates. *)
Definition Api_method_not_allowed : Response :=
  Api.respond 405 [("ok", VBool false); ("error", VStr "Method Not Allowed")].

Definition Api_unauthorized_domain : Response :=
  Api.respond 401 [("ok", VBool false); ("error", VStr "Unauthorized shop domain")].

Definition Api_invalid_hmac : Response :=
  Api.respond 401 [("ok", VBool false); ("error", VStr "Invalid HMAC")].

Definition Api_topic_skip : Response :=
  Api.respond 200 [("ok", VBool true); ("skipped", VBool true);
                   ("reason", VStr "Not an orders/paid topic")].

Definition Api_logged_error : Response :=
  Api.respond 200 [("ok", VBool false); ("error", VStr "Logged server error")].

(** Strings of decimal digits. *)
Fixpoint all_digits (s : string) : bool :=
  match s with
  | EmptyString => true
  | String c s' => is_digit c && all_digits s'
  end.

(** The number a string of digits denotes after the digits read so far. *)
Fixpoint dval (s : string) (acc : Z) : Z :=
  match s with
  | EmptyString => acc
  | String c s' => dval s' (10 * acc + digit_val c)
  end.

(** Where [span_digits] stops. *)
Definition stops (r : string) : Prop :=
  match r with
  | EmptyString => True
  | String c _ => is_digit c = false
  end.

(** The spec's formula for the amount, on exact fractions: the number of
    hundredths in [round(total * percent / 100, 2)] for a total [tn / td]
    and a percent [pn / pd], neither negative, under a rounding rule.  The
    two rules the spec allows, each taking a fraction [num / den] to an
    integer: half-up, and half-even (banker's). *)
Definition spec_half_up (num den : Z) : Z := (2 * num + den) / (2 * den).

Definition spec_half_even (num den : Z) : Z :=
  let f := num / den in
  let r := num mod den in
  if 2 * r <? den then f
  else if den <? 2 * r then f + 1
  else if Z.even f then f else f + 1.

Definition spec_cashback_hundredths (round : Z -> Z -> Z) (tn td pn pd : Z)
  : Z :=
  round (100 * (tn * pn)) (td * pd * 100).

(** A configuration with another rate. *)
Definition env_at (percent : string) : Env :=
  {| env_SHOPIFY_WEBHOOK_SECRET := Some "shhh";
     env_ALLOWED_SHOPIFY_DOMAIN := Some "Shop.Example.com";
     env_LSC_CASHBACK_PERCENT := Some percent |}.

(* ================================================================== *)
(** ** Sample deliveries *)

Module Sample.

Definition env : Env :=
  {| env_SHOPIFY_WEBHOOK_SECRET := Some "shhh";
     env_ALLOWED_SHOPIFY_DOMAIN := Some "Shop.Example.com";
     env_LSC_CASHBACK_PERCENT := Some "5" |}.

Definition env_without_secret : Env :=
  {| env_SHOPIFY_WEBHOOK_SECRET := None;
     env_ALLOWED_SHOPIFY_DOMAIN := Some "Shop.Example.com";
     env_LSC_CASHBACK_PERCENT := Some "5" |}.

Definition env_without_allow_list : Env :=
  {| env_SHOPIFY_WEBHOOK_SECRET := Some "shhh";
     env_ALLOWED_SHOPIFY_DOMAIN := None;
     env_LSC_CASHBACK_PERCENT := Some "5" |}.

Definition post (shop topic : string) (signature : option string)
  (text : string) : Request :=
  {| method := "POST";
     headers :=
       ([("x-shopify-topic", topic); ("x-shopify-shop-domain", shop)]
        ++ match signature with
           | Some sig => [("x-shopify-hmac-sha256", sig)]
           | None => []
           end)%list;
     chunks := [text] |}.

Definition shop : string := "shop.example.com".

(** JSON text written with ['] where it has its double quote. *)
Definition json (s : string) : string :=
  string_of_list_ascii
    (map (fun c => if Ascii.eqb c "'" then chr 34 else c) (list_ascii_of_string s)).

Definition order_1001 : string :=
  json "{'id':'1001','total_price':'200.00','currency':'EUR'}".
Definition sig_1001 : string := "E2KOAqhz+QhEKZJoh4M0rDbVB0pg1mJF3jqvhr0tEFU=".

Definition order_1001_again : string :=
  json "{'id':'1001','total_price':'250.00','currency':'EUR'}".
Definition sig_1001_again : string := "deUJzWz5I7gq/sS6LELHYuWJPilmoOWEVAsTf9coiKo=".

Definition order_1002_zero : string := json "{'id':'1002','total_price':'0'}".
Definition sig_1002_zero : string := "KTUViTS2SkKH7FiKDn9onC1QWyVUuRnJKUY+AFZgnM8=".

Definition cut_short : string := json "{'id':'1003',".
Definition sig_cut_short : string := "0+Ng4vuxd0LCiK8Z1s+ce6MwC9f3p0tWD3QvWJelr3c=".

(** The spec's scenario: order 1001 paid. *)
Definition paid : Request := post shop "orders/paid" (Some sig_1001) order_1001.

(** The same order delivered again with another total. *)
Definition paid_again : Request :=
  post shop "orders/paid" (Some sig_1001_again) order_1001_again.

(** The same body announced as an order update. *)
Definition updated : Request :=
  post shop "orders/updated" (Some sig_1001) order_1001.

(** A topic that names no order at all. *)
Definition product_update : Request :=
  post shop "products/update" (Some sig_1001) order_1001.

(** The same, with a signature of the right length that is not the body's. *)
Definition product_update_forged : Request :=
  post shop "products/update" (Some sig_1001_again) order_1001.

(** No signature header at all. *)
Definition unsigned : Request := post shop "orders/paid" None order_1001.

Definition zero_amount : Request :=
  post shop "orders/paid" (Some sig_1002_zero) order_1002_zero.

Definition malformed : Request :=
  post shop "orders/paid" (Some sig_cut_short) cut_short.

Definition from_elsewhere : Request :=
  post "other.example.com" "orders/paid" (Some sig_1001) order_1001.

Definition get_request : Request :=
  {| method := "GET"; headers := []; chunks := [] |}.

Definition at_noon (r : Request) : Delivery :=
  {| request := r; at_time := 1200; storage_faults := [] |}.

Definition storage_down (r : Request) : Delivery :=
  {| request := r; at_time := 1200; storage_faults := [true] |}.

End Sample.

(* ================================================================== *)
(** ** Vocabulary of the further properties *)

Definition is_sql (e : event) : bool :=
  match e with
  | EvSql _ _ => true
  | _ => false
  end.

(** The lazily set flag never claims a table that is not there. *)
Definition flag_is_sound (w : World) : Prop :=
  tableReady w = true -> table_exists (db w) = true.

(** The request is a POST that carries the digest of its body under a
    configured secret. *)
Record verified (env : Env) (req : Request) : Prop := {
  v_method : method req = "POST";
  v_secret : SHOPIFY_WEBHOOK_SECRET env <> "";
  v_signature :
    Crypto.hmac_sha256_base64 (SHOPIFY_WEBHOOK_SECRET env) (readRawBody req)
    = or_empty (header "x-shopify-hmac-sha256" (headers req))
}.

(** The tuple the first file hands to its [INSERT] (lines 117-118); there
    is none when [String(..)] at line 93 or [Number(..)] at line 104
    throws. *)
Definition Api_values (env : Env) (req : Request) (payload : value)
  : option Values :=
  match Api.orderId_of payload, Api.totalPaid_of payload with
  | Some orderId, Some totalPaid =>
      Some {| order_id := orderId;
              shop_domain := shop_of req;
              customer_email := Api.customerEmail_of payload;
              currency := Api.currency_of payload;
              total_paid := totalPaid;
              cashback_percent := Api.cashbackPercent env;
              cashback_amount := Api.cashbackAmount_of env totalPaid;
              raw := payload |}
  | _, _ => None
  end.

(** The tuple the second file hands to its [INSERT] (line 84); there is
    none when [String(..)] at line 66 or [Number(..)] at line 71 throws. *)
Definition Part000_values (env : Env) (req : Request) (payload : value)
  : option Values :=
  match Part000.orderId_from (JS.member payload "id"),
        Part000.totalPaid_of payload with
  | Some orderId, Some totalPaid =>
      Some {| order_id := orderId;
              shop_domain := shop_of req;
              customer_email := Part000.customerEmail_of payload;
              currency := Part000.currency_of payload;
              total_paid := totalPaid;
              cashback_percent := Part000.pct env;
              cashback_amount := Part000.cashbackAmount_of env totalPaid;
              raw := payload |}
  | _, _ => None
  end.

(** Everything the first file asks of a request before it goes to the
    table with the tuple [v]. *)
Record Api_accepts (env : Env) (req : Request) (payload : value)
  (v : Values) : Prop := {
  aa_verified : verified env req;
  aa_domain :
    ALLOWED_SHOPIFY_DOMAIN env <> "" -> shop_of req = ALLOWED_SHOPIFY_DOMAIN env;
  aa_topic : Api.not_our_topic (header "x-shopify-topic" (headers req)) = false;
  aa_payload : JSON.parse (readRawBody req) = Some payload;
  aa_values : Api_values env req payload = Some v
}.

(** Everything the second file asks. *)
Record Part000_accepts (env : Env) (req : Request) (payload : value)
  (v : Values) : Prop := {
  pa_verified : verified env req;
  pa_allowed : ALLOWED_SHOPIFY_DOMAIN env <> "";
  pa_domain : shop_of req = ALLOWED_SHOPIFY_DOMAIN env;
  pa_topic :
    toLowerCase (or_empty (header "x-shopify-topic" (headers req)))
    = "orders/paid";
  pa_payload : JSON.parse (readRawBody req) = Some payload;
  pa_not_null : JS.nullish payload = false;
  pa_values : Part000_values env req payload = Some v;
  pa_order : order_id v <> "";
  pa_total : Num.gtb (total_paid v) Num.zero = true
}.

(** A parsed body that lines 66-71 of the second file cannot read:
    [payload.id] throws on [null]; [String(payload.id || "")] and the
    [Number(..)] of the amount throw on a value without primitive. *)
Definition Part000_cannot_read (payload : value) : Prop :=
  JS.nullish payload = true \/
  Part000.orderId_from (JS.member payload "id") = None \/
  Part000.totalPaid_of payload = None.

(** What the first file may do in a run for [req]: statements only for an
    accepted request, one command each, the insert with the tuple of the
    request. *)
Definition Api_sends (env : Env) (req : Request) (e : event) : Prop :=
  match e with
  | EvSql st _ =>
      exists payload v,
        Api_accepts env req payload v /\
        match st with
        | InsertOrUpdate v' => v' = v
        | CreateTable | CreateIndexEmail | CreateIndexCreated => True
        | CreateAll | InsertOrNothing _ => False
        end
  | _ => True
  end.

Definition Part000_sends (env : Env) (req : Request) (e : event) : Prop :=
  match e with
  | EvSql st _ =>
      exists payload v,
        Part000_accepts env req payload v /\
        match st with
        | InsertOrNothing v' => v' = v
        | CreateAll => True
        | CreateTable | CreateIndexEmail | CreateIndexCreated
        | InsertOrUpdate _ => False
        end
  | _ => True
  end.

(** Statements that leave every stored row as it is. *)
Definition appends_only (st : statement) : Prop :=
  match st with
  | InsertOrUpdate _ => False
  | _ => True
  end.

(** What both files guarantee of a stored tuple: the rate and the amount
    belong to the total, and the currency is not empty. *)
Definition Api_tuple_ok (env : Env) (v : Values) : Prop :=
  cashback_percent v = Api.cashbackPercent env /\
  cashback_amount v = Api.cashbackAmount_of env (total_paid v) /\
  JS.truthy (currency v) = true /\
  (ALLOWED_SHOPIFY_DOMAIN env <> "" ->
   shop_domain v = ALLOWED_SHOPIFY_DOMAIN env).


(** A statement whose tuple, if it has one, satisfies [Q]. *)
Definition tuple_of (Q : Values -> Prop) (st : statement) : Prop :=
  match st with
  | InsertOrUpdate v | InsertOrNothing v => Q v
  | _ => True
  end.

(** What the second file writes to the console for the tuple [v]
    (line 92). *)
Definition Part000_logged (v : Values) : value :=
  VObj [("shop", VStr (shop_domain v)); ("orderId", VStr (order_id v));
        ("currency", currency v); ("totalPaid", VNum (total_paid v));
        ("pct", VNum (cashback_percent v));
        ("cashbackAmount", VNum (cashback_amount v))].

(** A delivery of [req] at [now] with the storage layer working. *)
Definition smooth (req : Request) (now : Z) : Delivery :=
  {| request := req; at_time := now; storage_faults := [] |}.

(** A successful insert among the events of a run. *)
Definition inserted (e : event) : bool :=
  match e with
  | EvSql (InsertOrUpdate _) true | EvSql (InsertOrNothing _) true => true
  | _ => false
  end.

(** What the first file answers when it has stored a tuple. *)
Definition Api_saved (v : Values) : Response :=
  Api.respond 200 [("ok", VBool true); ("order_id", VStr (order_id v));
                   ("cashback_amount", VNum (cashback_amount v))].

(** Further sample data: the payloads of the two sample orders, and a world
    in which the first of them is stored. *)
Module More.

Definition order_1001_payload : value :=
  VObj [("id", VStr "1001"); ("total_price", VStr "200.00");
        ("currency", VStr "EUR")].


(** The tuples both files make of them under [Sample.env]. *)
Definition order_1001_values : Values :=
  {| order_id := "1001";
     shop_domain := Sample.shop;
     customer_email := VNull;
     currency := VStr "EUR";
     total_paid := Num.StringToNumber "200.00";
     cashback_percent := five;
     cashback_amount := Num.of_Z 10;
     raw := order_1001_payload |}.


(** A signed order whose identifier is an object with a member named
    [toString]: it has no primitive value. *)
Definition order_without_primitive : string :=
  Sample.json "{'id':{'toString':1},'total_price':'5'}".
Definition sig_without_primitive : string :=
  "z81waBVxnRSGprTnSpUE+axnqvi+7zb43EuqZVvP+vQ=".

Definition without_primitive : Request :=
  Sample.post Sample.shop "orders/paid" (Some sig_without_primitive)
    order_without_primitive.

Definition without_primitive_payload : value :=
  VObj [("id", VObj [("toString", VNum (Num.of_Z 1))]);
        ("total_price", VStr "5")].



End More.

(* ================================================================== *)
(** * Properties *)

Local Open Scope js_scope.

Arguments Crypto.hmac_sha256_base64 : simpl never.
Arguments Crypto.timingSafeEqual : simpl never.
Arguments JSON.parse : simpl never.
Arguments Storage.exec : simpl never.
Arguments String.eqb : simpl never.
Arguments includes : simpl never.
Arguments toLowerCase : simpl never.
Arguments Api.not_our_topic : simpl never.

(** ** The platform model against known values *)

(** The round constants are the first 32 fractional bits of the cube roots
    of the first 64 primes, the initial hash those of the square roots of
    the first 8. *)
Example sha256_constants :
  let primes :=
    [2; 3; 5; 7; 11; 13; 17; 19; 23; 29; 31; 37; 41; 43; 47; 53; 59; 61; 67;
     71; 73; 79; 83; 89; 97; 101; 103; 107; 109; 113; 127; 131; 137; 139;
     149; 151; 157; 163; 167; 173; 179; 181; 191; 193; 197; 199; 211; 223;
     227; 229; 233; 239; 241; 251; 257; 263; 269; 271; 277; 281; 283; 293;
     307; 311] in
  forallb (fun pk =>
             existsb (fun a =>
                        let r := a * 2 ^ 32 + snd pk in
                        (r ^ 3 <=? fst pk * 2 ^ 96)
                        && (fst pk * 2 ^ 96 <? (r + 1) ^ 3))
                     [1; 2; 3; 4; 5; 6])
          (combine primes Crypto.K256) = true /\
  List.length Crypto.K256 = 64%nat /\
  map (fun p => Z.sqrt (p * 2 ^ 64) mod 2 ^ 32) (firstn 8 primes)
  = Crypto.H_init.
Proof. vm_compute. repeat split; reflexivity. Qed.

(** FIPS 180-4, the digest of "abc", in base64. *)
Example sha256_abc :
  Crypto.base64 (Crypto.sha256 (Crypto.bytes_of "abc"))
  = "ungWv48Bz+pBQUDeXa4iI7ADYaOWF3qctBD/YfIAFa0=".
Proof. vm_compute. reflexivity. Qed.

(** RFC 4231, test case 2. *)
Example hmac_sha256_rfc4231 :
  Crypto.hmac_sha256_base64 "Jefe" "what do ya want for nothing?"
  = "W9zBRr9gdU5qBCQmCJV1x1oAPwidJzmDnexYuWTsOEM=".
Proof. vm_compute. reflexivity. Qed.

Example base64_padding :
  map Crypto.base64 [[77]; [77; 97]; [77; 97; 110]] = ["TQ=="; "TWE="; "TWFu"].
Proof. reflexivity. Qed.

Example number_of_strings :
  map Num.StringToNumber ["200.00"; "0"; ""; " 12 "; "0x1F"; "abc"; "1e400"]
  = [S754_finite false 7036874417766400 (-45); S754_zero false;
     S754_zero false; S754_finite false 6755399441055744 (-49);
     S754_finite false 8725724278030336 (-48); S754_nan;
     S754_infinity false].
Proof. vm_compute. reflexivity. Qed.

Example string_of_numbers :
  map (fun s => Num.toString (Num.StringToNumber s))
      ["820982911946154508"; "0.30"; "1e21"; "-12.345"; "0.000001"; "1e-7"]
  = ["820982911946154500"; "0.3"; "1e+21"; "-12.345"; "0.000001"; "1e-7"].
Proof. vm_compute. reflexivity. Qed.

Example toFixed_of_numbers :
  map (fun s => Num.toFixed2 (Num.StringToNumber s))
      ["10"; "0.125"; "1.005"; "-2.675"; "-0.001"; "1e21"; "abc"]
  = ["10.00"; "0.13"; "1.00"; "-2.67"; "-0.00"; "1e+21"; "NaN"].
Proof. vm_compute. reflexivity. Qed.

Example parse_order :
  JSON.parse Sample.order_1001
  = Some (VObj [("id", VStr "1001"); ("total_price", VStr "200.00");
                ("currency", VStr "EUR")]).
Proof. vm_compute. reflexivity. Qed.

Example parse_rejects :
  map JSON.parse ["{"; Sample.json "{'a':1,}"; "01"; "'a'"; ""; Sample.cut_short]
  = [None; None; None; None; None; None].
Proof. vm_compute. reflexivity. Qed.

Example topic_matching :
  map Api.not_our_topic
      [None; Some ""; Some "orders/paid"; Some "orders/updated";
       Some "order_transactions/create"; Some "products/update"]
  = [true; true; false; false; false; true].
Proof. vm_compute. reflexivity. Qed.

(** ** Running a handler symbolically *)

Ltac unfold_run :=
  unfold Api.handler, Api.process, Api.verifyShopifyHmac, Api.ensureTable,
    Part000.handler, Part000.timingSafeEqualStr, Part000.ensureTable,
    createHmac_digest, timingSafeEqual, JSON_parse, get_member, converted,
    console_log, console_error, sql, emit, get_tableReady, set_tableReady,
    try_catch, bind, ret, throw.

Ltac case_scrutinee :=
  match goal with
  | |- context [match ?x with _ => _ end] =>
      lazymatch x with
      | context [match _ with _ => _ end] => fail
      | _ => destruct x eqn:?
      end
  end.

(** Every path of a run, one goal each. *)
Ltac run_cases := unfold_run; cbn; repeat (case_scrutinee; cbn).

Lemma nonempty_true (s : string) : s <> "" -> nonempty s = true.
Proof. destruct s; [congruence | reflexivity]. Qed.

Lemma timingSafeEqual_same (s : string) :
  Crypto.timingSafeEqual s s = Some true.
Proof.
  unfold Crypto.timingSafeEqual. now rewrite Nat.eqb_refl, String.eqb_refl.
Qed.



Lemma trace_tail (t evs evs' : list event) :
  (t ++ evs)%list = (t ++ evs')%list -> evs' = evs.
Proof. intros H. apply app_inv_head in H. congruence. Qed.

Lemma trace_same (t evs : list event) : t = (t ++ evs)%list -> evs = [].
Proof.
  intros H. rewrite <- (app_nil_r t) in H at 1.
  apply app_inv_head in H. congruence.
Qed.

(** Past the method, domain and signature checks of both files. *)
Ltac enter_signed H :=
  destruct H as [Hm Hs Ha Hd Hsig];
  unfold shop_of in Hd;
  unfold Api.handler, Api.process, Api.verifyShopifyHmac,
    Part000.handler, Part000.timingSafeEqualStr;
  rewrite ?Hm, ?Hd, ?Hsig, ?String.eqb_refl, ?(nonempty_true _ Hs),
    ?(nonempty_true _ Ha);
  cbn [negb andb orb or_empty];
  unfold createHmac_digest, timingSafeEqual, JSON_parse, try_catch, bind,
    emit, ret, throw;
  cbn;
  rewrite ?Nat.eqb_refl, ?timingSafeEqual_same; cbn.

(* ------------------------------------------------------------------ *)
(** ** C1: one record per order *)

Section PrimaryKey.

Lemma key_update_row (v : Values) (r : Row) :
  key (Storage.update_row v r) = key r.
Proof.
  unfold Storage.update_row.
  destruct (String.eqb (key r) (order_id v)) eqn:E; [|reflexivity].
  apply String.eqb_eq in E. unfold key at 1. cbn. congruence.
Qed.

Lemma has_key_false (k : string) (rs : list Row) :
  Storage.has_key k rs = false -> ~ In k (map key rs).
Proof.
  unfold Storage.has_key. induction rs as [|r rs IH]; cbn; [tauto|].
  intros H [E|I].
  - rewrite E, String.eqb_refl in H. discriminate.
  - apply orb_false_iff in H. tauto.
Qed.

Lemma NoDup_snoc {A : Type} (l : list A) (x : A) :
  NoDup l -> ~ In x l -> NoDup (l ++ [x]).
Proof.
  induction 1 as [|y l Hy Hl IH]; cbn; intros Hx.
  - repeat constructor. tauto.
  - constructor.
    + rewrite in_app_iff. cbn. intuition congruence.
    + apply IH. tauto.
Qed.

(** No single statement breaks the primary key. *)
Lemma exec_keeps_unique_keys now st d d' res :
  unique_keys d -> Storage.exec now st d = Some (d', res) -> unique_keys d'.
Proof.
  unfold unique_keys, Storage.exec. intros U.
  destruct st;
    repeat match goal with
           | |- context [if ?c then _ else _] => destruct c eqn:?
           end;
    intros E; inversion E; subst; clear E; cbn; try assumption.
  - rewrite map_map. erewrite map_ext; [exact U|].
    intros r. apply key_update_row.
  - rewrite map_app. cbn. apply NoDup_snoc; [assumption|].
    now apply has_key_false.
  - rewrite map_app. cbn. apply NoDup_snoc; [assumption|].
    now apply has_key_false.
Qed.

Lemma exec_all_keeps_unique_keys sts :
  forall d, unique_keys d -> unique_keys (exec_all sts d).
Proof.
  induction sts as [|[now st] sts IH]; intros d U; cbn; [exact U|].
  destruct (Storage.exec now st d) as [[d' res]|] eqn:E; [|auto].
  apply IH. eapply exec_keeps_unique_keys; eassumption.
Qed.

Lemma unique_keys_records (k : string) (rs : list Row) :
  NoDup (map key rs) ->
  (List.length (filter (fun r => String.eqb (key r) k) rs) <= 1)%nat.
Proof.
  induction rs as [|r rs IH]; cbn; [lia|].
  intros U. inversion U as [|? ? Hn U']; subst.
  destruct (String.eqb (key r) k) eqn:E; [|auto].
  apply String.eqb_eq in E. cbn.
  assert (filter (fun r0 => String.eqb (key r0) k) rs = []) as ->;
    [|cbn; lia].
  clear IH U U'. induction rs as [|r' rs IH]; cbn; [reflexivity|].
  cbn in Hn. destruct (String.eqb (key r') k) eqn:E'.
  - apply String.eqb_eq in E'. exfalso. apply Hn. left. congruence.
  - apply IH. tauto.
Qed.

End PrimaryKey.

Section Keeps.

Variable P : World -> Prop.

Lemma keeps_ret {A} (a : A) : keeps P (ret a).
Proof. intros w H. exact H. Qed.

Lemma keeps_throw {A} (e : exn) : keeps P (@throw A e).
Proof. intros w H. exact H. Qed.

Lemma keeps_bind {A B} (m : M A) (k : A -> M B) :
  keeps P m -> (forall a, keeps P (k a)) -> keeps P (bind m k).
Proof.
  intros Hm Hk w H. unfold bind. specialize (Hm w H).
  destruct (m w) as [[a|e] w']; cbn in *; [now apply Hk | assumption].
Qed.

Lemma keeps_try_catch {A} (m : M A) (h : exn -> M A) :
  keeps P m -> (forall e, keeps P (h e)) -> keeps P (try_catch m h).
Proof.
  intros Hm Hh w H. unfold try_catch. specialize (Hm w H).
  destruct (m w) as [[a|e] w']; cbn in *; [assumption | now apply Hh].
Qed.

End Keeps.

Lemma keeps_keys_emit e : keeps table_keys_unique (emit e).
Proof. intros w H. exact H. Qed.

Lemma keeps_keys_get_tableReady : keeps table_keys_unique get_tableReady.
Proof. intros w H. exact H. Qed.

Lemma keeps_keys_set_tableReady b : keeps table_keys_unique (set_tableReady b).
Proof. intros w H. exact H. Qed.

Lemma keeps_keys_sql st : keeps table_keys_unique (sql st).
Proof.
  intros w H. unfold sql.
  destruct (match faults w with b :: _ => b | [] => false end); [exact H|].
  destruct (Storage.exec (clock w) st (db w)) as [[d res]|] eqn:E; [|exact H].
  cbn. eapply exec_keeps_unique_keys; eassumption.
Qed.

Ltac keeps_step :=
  match goal with
  | |- keeps _ (bind _ _) => apply keeps_bind; [|intros ?]
  | |- keeps _ (try_catch _ _) => apply keeps_try_catch; [|intros ?]
  | |- keeps _ (ret _) => apply keeps_ret
  | |- keeps _ (throw _) => apply keeps_throw
  | |- keeps _ (emit _) => apply keeps_keys_emit
  | |- keeps _ (console_log _ _) => apply keeps_keys_emit
  | |- keeps _ (console_error _ _) => apply keeps_keys_emit
  | |- keeps _ get_tableReady => apply keeps_keys_get_tableReady
  | |- keeps _ (set_tableReady _) => apply keeps_keys_set_tableReady
  | |- keeps _ (sql _) => apply keeps_keys_sql
  | |- keeps _ (if ?c then _ else _) => destruct c
  | |- keeps _ (match ?x with _ => _ end) => destruct x
  end.

Lemma Api_handler_keeps_keys env req :
  keeps table_keys_unique (Api.handler env req).
Proof.
  unfold Api.handler, Api.process, Api.verifyShopifyHmac, Api.ensureTable,
    createHmac_digest, timingSafeEqual, JSON_parse, converted.
  repeat keeps_step.
Qed.

Lemma Part000_handler_keeps_keys env req :
  keeps table_keys_unique (Part000.handler env req).
Proof.
  unfold Part000.handler, Part000.timingSafeEqualStr, Part000.ensureTable,
    createHmac_digest, timingSafeEqual, JSON_parse, get_member, converted.
  repeat keeps_step.
Qed.

Lemma run_keeps_keys (h : Request -> M Response) :
  (forall req, keeps table_keys_unique (h req)) ->
  forall ds w, unique_keys (db w) -> unique_keys (db (run h ds w)).
Proof.
  intros Hh ds. induction ds as [|d ds IH]; intros w U; cbn; [exact U|].
  apply IH. unfold deliver. apply (Hh (request d) (arrive d w)). exact U.
Qed.

(** What a run does to the table is what its statements do, one at a time:
    there is no other access, and none that reads before it writes. *)
Ltac replay_leaf :=
  eexists; split;
  [ first [ rewrite <- ?app_assoc; cbn; reflexivity
          | symmetry; apply app_nil_r ]
  | cbn;
    repeat match goal with
           | H : Storage.exec _ _ _ = _ |- _ => rewrite H
           end;
    reflexivity ].

Lemma Api_run_is_its_statements env req w :
  exists evs,
    trace (snd (Api.handler env req w)) = (trace w ++ evs)%list /\
    db (snd (Api.handler env req w))
    = exec_all (statements_of (clock w) evs) (db w).
Proof. run_cases; replay_leaf. Qed.

Lemma Part000_run_is_its_statements env req w :
  exists evs,
    trace (snd (Part000.handler env req w)) = (trace w ++ evs)%list /\
    db (snd (Part000.handler env req w))
    = exec_all (statements_of (clock w) evs) (db w).
Proof. run_cases; replay_leaf. Qed.

(** C1.  Whatever requests are delivered, in whatever number, with whatever
    storage failures, to a table that satisfies its primary key, each order
    identifier has at most one record afterwards, in both files.  The table
    is only ever touched by single [INSERT ... ON CONFLICT] statements (a run
    changes the table exactly as the statements it sent do), and no
    interleaving of such statements can break the key. *)
Theorem C1_at_most_one_record_per_order :
  forall (env : Env) (ds : list Delivery) (w : World) (k : string),
    unique_keys (db w) ->
    (records_for k (run (Api.handler env) ds w) <= 1)%nat /\
    (records_for k (run (Part000.handler env) ds w) <= 1)%nat /\
    (forall sts, unique_keys (exec_all sts (db w))) /\
    (forall req,
        exists evs,
          trace (snd (Api.handler env req w)) = (trace w ++ evs)%list /\
          db (snd (Api.handler env req w))
          = exec_all (statements_of (clock w) evs) (db w)) /\
    (forall req,
        exists evs,
          trace (snd (Part000.handler env req w)) = (trace w ++ evs)%list /\
          db (snd (Part000.handler env req w))
          = exec_all (statements_of (clock w) evs) (db w)).
Proof.
  intros env ds w k U. repeat split.
  - apply unique_keys_records, run_keeps_keys;
      [apply Api_handler_keeps_keys | exact U].
  - apply unique_keys_records, run_keeps_keys;
      [apply Part000_handler_keeps_keys | exact U].
  - intros sts. now apply exec_all_keeps_unique_keys.
  - intros req. apply Api_run_is_its_statements.
  - intros req. apply Part000_run_is_its_statements.
Qed.

Lemma C1_replayed_order_witness :
  unique_keys (db fresh) /\
  (records_for "1001"
     (run (Api.handler Sample.env)
          [Sample.at_noon Sample.paid; Sample.storage_down Sample.paid_again;
           Sample.at_noon Sample.paid_again] fresh) <= 1)%nat.
Proof.
  assert (U : unique_keys (db fresh)) by constructor.
  split; [exact U|].
  exact (proj1 (C1_at_most_one_record_per_order Sample.env
                  [Sample.at_noon Sample.paid;
                   Sample.storage_down Sample.paid_again;
                   Sample.at_noon Sample.paid_again] fresh "1001" U)).
Defined.

(** The spec's replay scenario: after 200.00 and then 250.00 for order 1001
    the first file holds one row with the refreshed amounts (250 and 12.5);
    the second file holds none, its provisioning text being refused. *)
Example replay_scenario :
  let twice := [Sample.at_noon Sample.paid; Sample.at_noon Sample.paid_again] in
  map (fun r => (key r, Num.toString (total_paid (cols r)),
                 Num.toString (cashback_amount (cols r))))
      (rows (db (run (Api.handler Sample.env) twice fresh)))
  = [("1001", "250", "12.5")] /\
  map (fun r => (key r, Num.toString (total_paid (cols r)),
                 Num.toString (cashback_amount (cols r))))
      (rows (db (run (Part000.handler Sample.env) twice fresh)))
  = [].
Proof. vm_compute. split; reflexivity. Qed.

(* ------------------------------------------------------------------ *)
(** ** C2: requests whose signature does not match *)

(** The second file refuses every POST from the allowed shop whose
    signature header is not the digest of its body, whatever its length,
    and stores nothing. *)
Lemma Part000_refuses_bad_signature env req w :
  method req = "POST" ->
  SHOPIFY_WEBHOOK_SECRET env <> "" ->
  ALLOWED_SHOPIFY_DOMAIN env <> "" ->
  shop_of req = ALLOWED_SHOPIFY_DOMAIN env ->
  or_empty (header "x-shopify-hmac-sha256" (headers req))
  <> Crypto.hmac_sha256_base64 (SHOPIFY_WEBHOOK_SECRET env) (readRawBody req) ->
  exists w',
    Part000.handler env req w
    = (Returned (Part000.send 403 "Forbidden (hmac)"), w') /\
    db w' = db w.
Proof.
  intros Hm Hs Ha Hd Hsig. unfold shop_of in Hd.
  unfold Part000.handler, Part000.timingSafeEqualStr.
  rewrite Hm, Hd, !String.eqb_refl, (nonempty_true _ Hs), (nonempty_true _ Ha).
  cbn [negb orb].
  unfold createHmac_digest, timingSafeEqual, Crypto.timingSafeEqual, bind, emit,
    ret, throw.
  cbn.
  destruct (Nat.eqb _ _); cbn.
  - apply not_eq_sym, String.eqb_neq in Hsig. rewrite Hsig. cbn.
    eexists. split; reflexivity.
  - eexists. split; reflexivity.
Qed.

(** The first file refuses it too when the header has the digest's length. *)
Lemma Api_refuses_bad_signature_of_equal_length env req w :
  method req = "POST" ->
  SHOPIFY_WEBHOOK_SECRET env <> "" ->
  (ALLOWED_SHOPIFY_DOMAIN env <> "" -> shop_of req = ALLOWED_SHOPIFY_DOMAIN env) ->
  String.length (or_empty (header "x-shopify-hmac-sha256" (headers req)))
  = String.length
      (Crypto.hmac_sha256_base64 (SHOPIFY_WEBHOOK_SECRET env) (readRawBody req)) ->
  or_empty (header "x-shopify-hmac-sha256" (headers req))
  <> Crypto.hmac_sha256_base64 (SHOPIFY_WEBHOOK_SECRET env) (readRawBody req) ->
  exists w',
    Api.handler env req w = (Returned Api_invalid_hmac, w') /\ db w' = db w.
Proof.
  intros Hm Hs Hd Hlen Hsig. unfold shop_of in Hd.
  unfold Api.handler, Api.process, Api.verifyShopifyHmac.
  rewrite Hm, String.eqb_refl, (nonempty_true _ Hs). cbn [negb].
  assert (nonempty (ALLOWED_SHOPIFY_DOMAIN env)
          && negb (String.eqb
                     (toLowerCase
                        (or_empty (header "x-shopify-shop-domain" (headers req))))
                     (ALLOWED_SHOPIFY_DOMAIN env)) = false) as ->.
  { destruct (ALLOWED_SHOPIFY_DOMAIN env) eqn:E; [reflexivity|].
    rewrite Hd by discriminate. now rewrite String.eqb_refl. }
  unfold createHmac_digest, timingSafeEqual, Crypto.timingSafeEqual, try_catch,
    bind, emit, ret, throw.
  cbn. rewrite <- Hlen, Nat.eqb_refl. cbn.
  apply String.eqb_neq in Hsig. rewrite String.eqb_sym, Hsig. cbn.
  eexists. split; reflexivity.
Qed.

(** But a header of any other length makes the comparison throw, and the
    first file then acknowledges the request. *)
Lemma Api_acknowledges_signature_of_other_length env req w :
  method req = "POST" ->
  SHOPIFY_WEBHOOK_SECRET env <> "" ->
  (ALLOWED_SHOPIFY_DOMAIN env <> "" -> shop_of req = ALLOWED_SHOPIFY_DOMAIN env) ->
  String.length (or_empty (header "x-shopify-hmac-sha256" (headers req)))
  <> String.length
       (Crypto.hmac_sha256_base64 (SHOPIFY_WEBHOOK_SECRET env) (readRawBody req)) ->
  exists w',
    Api.handler env req w = (Returned Api_logged_error, w') /\ db w' = db w.
Proof.
  intros Hm Hs Hd Hlen. unfold shop_of in Hd.
  unfold Api.handler, Api.process, Api.verifyShopifyHmac.
  rewrite Hm, String.eqb_refl, (nonempty_true _ Hs). cbn [negb].
  assert (nonempty (ALLOWED_SHOPIFY_DOMAIN env)
          && negb (String.eqb
                     (toLowerCase
                        (or_empty (header "x-shopify-shop-domain" (headers req))))
                     (ALLOWED_SHOPIFY_DOMAIN env)) = false) as ->.
  { destruct (ALLOWED_SHOPIFY_DOMAIN env) eqn:E; [reflexivity|].
    rewrite Hd by discriminate. now rewrite String.eqb_refl. }
  unfold createHmac_digest, timingSafeEqual, Crypto.timingSafeEqual, try_catch,
    console_error, bind, emit, ret, throw.
  cbn. apply not_eq_sym, Nat.eqb_neq in Hlen. rewrite Hlen. cbn.
  eexists. split; reflexivity.
Qed.

(** C2, the failing delivery.  A POST from the allowed shop that carries no
    signature header: [crypto.timingSafeEqual] is handed buffers of 44 and 0
    bytes and throws, the [catch] around the whole body of the first file
    logs it and answers 200.  Nothing is stored; the second file, which
    compares lengths first, answers 403. *)
Theorem C2_api_acknowledges_unsigned_request :
  Api.handler Sample.env Sample.unsigned fresh
  = (Returned Api_logged_error,
     {| db := db fresh; tableReady := false; clock := 0; faults := [];
        trace :=
          [EvHmacDigest; EvTimingSafeEqual;
           EvConsoleError "Webhook error:"
             (RangeError "Input buffers must have the same byte length")] |}) /\
  status Api_logged_error = 200 /\
  fst (Part000.handler Sample.env Sample.unsigned fresh)
  = Returned (Part000.send 403 "Forbidden (hmac)").
Proof. vm_compute. repeat split; reflexivity. Qed.

(* ------------------------------------------------------------------ *)
(** ** C3: the topic "orders/updated" *)

(** The second file skips every verified request whose topic, in lower
    case, is not exactly "orders/paid". *)
Lemma Part000_ignores_other_topics env req w :
  signed_post env req ->
  toLowerCase (or_empty (header "x-shopify-topic" (headers req)))
  <> "orders/paid" ->
  exists w',
    Part000.handler env req w
    = (Returned (Part000.send 200 "Ignored topic"), w') /\
    db w' = db w.
Proof.
  intros H Ht. enter_signed H.
  apply String.eqb_neq in Ht. rewrite Ht. cbn.
  eexists. split; reflexivity.
Qed.

(** C3, the failing delivery.  The first file's filter lets through every
    topic that contains "order": the signed order 1001 announced as
    "orders/updated" is recorded, with its cashback, and acknowledged as
    processed.  The second file ignores it. *)
Theorem C3_api_records_orders_updated :
  Api.not_our_topic (Some "orders/updated") = false /\
  fst (Api.handler Sample.env Sample.updated fresh)
  = Returned (Api.respond 200 [("ok", VBool true); ("order_id", VStr "1001");
                               ("cashback_amount", VNum (Num.of_Z 10))]) /\
  map (fun r => (key r, Num.toString (cashback_amount (cols r))))
      (rows (db (snd (Api.handler Sample.env Sample.updated fresh))))
  = [("1001", "10")] /\
  Part000.handler Sample.env Sample.updated fresh
  = (Returned (Part000.send 200 "Ignored topic"),
     {| db := db fresh; tableReady := false; clock := 0; faults := [];
        trace := [EvHmacDigest; EvTimingSafeEqual] |}).
Proof. vm_compute. repeat split; reflexivity. Qed.

(* ------------------------------------------------------------------ *)
(** ** C4: missing order data *)

Lemma upsert_stores now v d :
  table_exists d = true ->
  exists d' res,
    Storage.exec now (InsertOrUpdate v) d = Some (d', res) /\
    table_exists d' = true /\
    exists r, In r (rows d') /\ cols r = v.
Proof.
  intros T. unfold Storage.exec. rewrite T.
  destruct (Storage.has_key (order_id v) (rows d)) eqn:K.
  - do 2 eexists. split; [reflexivity|]. split; [reflexivity|]. cbn.
    unfold Storage.has_key in K. apply existsb_exists in K.
    destruct K as [r [I E]].
    exists (Storage.update_row v r). split.
    + now apply in_map.
    + unfold Storage.update_row. now rewrite E.
  - do 2 eexists. split; [reflexivity|]. split; [reflexivity|]. cbn.
    eexists. split; [apply in_or_app; right; left; reflexivity | reflexivity].
Qed.








(** The second file does not answer at all when the body is the JSON text
    [null]: reading [payload.id] throws outside any [try]. *)
Example Part000_throws_on_null_body :
  let req := Sample.post Sample.shop "orders/paid"
               (Some "E0rogHZmOpwb6SIp1/fZ+UODW75/DfbTY3LnVty51h0=") "null" in
  fst (Part000.handler Sample.env req fresh)
  = Thrown (TypeError "Cannot read properties of null").
Proof. vm_compute. reflexivity. Qed.

(* ------------------------------------------------------------------ *)
(** ** C5: the order of the checks *)

Lemma timingSafeEqual_true (a b : string) :
  Crypto.timingSafeEqual a b = Some true -> a = b.
Proof.
  unfold Crypto.timingSafeEqual. destruct (Nat.eqb _ _); [|discriminate].
  intros E. inversion E as [E']. now apply String.eqb_eq.
Qed.

Ltac skip_was_verified :=
  match goal with
  | H : Crypto.timingSafeEqual _ _ = Some true |- _ =>
      exact (timingSafeEqual_true _ _ H)
  | H : Crypto.timingSafeEqual _ _ = Some ?b, H' : negb ?b = false |- _ =>
      destruct b; [exact (timingSafeEqual_true _ _ H) | discriminate H']
  end.

(** C5, as the code has it.  In both files the method check and the
    source-domain check answer without any secret-dependent work: the world,
    its trace included, is untouched.  The topic filter is not part of that
    gate: a request is only ever skipped for its topic after the HMAC digest
    has been computed and found equal to the header (and, in the first
    file, after the body has been parsed). *)
Theorem C5_method_and_domain_before_hmac_topic_after :
  forall (env : Env) (req : Request) (w : World),
    (method req <> "POST" ->
     Api.handler env req w = (Returned Api_method_not_allowed, w) /\
     Part000.handler env req w
     = (Returned (Part000.send 405 "Method Not Allowed"), w)) /\
    (method req = "POST" ->
     shop_of req <> ALLOWED_SHOPIFY_DOMAIN env ->
     ALLOWED_SHOPIFY_DOMAIN env <> "" ->
     Api.handler env req w = (Returned Api_unauthorized_domain, w) /\
     Part000.handler env req w
     = (Returned (Part000.send 403 "Forbidden (domain)"), w)) /\
    (forall w',
        Api.handler env req w = (Returned Api_topic_skip, w') ->
        trace w'
        = (trace w ++ [EvHmacDigest; EvTimingSafeEqual; EvJsonParse])%list /\
        Crypto.hmac_sha256_base64 (SHOPIFY_WEBHOOK_SECRET env) (readRawBody req)
        = or_empty (header "x-shopify-hmac-sha256" (headers req))) /\
    (forall w',
        Part000.handler env req w
        = (Returned (Part000.send 200 "Ignored topic"), w') ->
        trace w' = (trace w ++ [EvHmacDigest; EvTimingSafeEqual])%list /\
        Crypto.hmac_sha256_base64 (SHOPIFY_WEBHOOK_SECRET env) (readRawBody req)
        = or_empty (header "x-shopify-hmac-sha256" (headers req))).
Proof.
  intros env req w. split; [|split; [|split]].
  - intros H. apply String.eqb_neq in H.
    unfold Api.handler, Part000.handler. rewrite H. split; reflexivity.
  - intros Hm Hd Ha. apply String.eqb_neq in Hd.
    unfold Api.handler, Api.process, Part000.handler. fold (shop_of req).
    rewrite Hm, Hd, (nonempty_true _ Ha), String.eqb_refl.
    split; reflexivity.
  - intros w'. unfold Api_topic_skip.
    run_cases; intros E; inversion E; subst; clear E;
      (split; [cbn; rewrite <- ?app_assoc; reflexivity | skip_was_verified]).
  - intros w'.
    run_cases; intros E; inversion E; subst; clear E;
      (split; [cbn; rewrite <- ?app_assoc; reflexivity | skip_was_verified]).
Qed.

Lemma C5_gate_order_witness :
  (Api.handler Sample.env Sample.get_request fresh
   = (Returned Api_method_not_allowed, fresh)) /\
  (Part000.handler Sample.env Sample.from_elsewhere fresh
   = (Returned (Part000.send 403 "Forbidden (domain)"), fresh)) /\
  (trace (snd (Api.handler Sample.env Sample.product_update fresh))
   = [EvHmacDigest; EvTimingSafeEqual; EvJsonParse]) /\
  (trace (snd (Part000.handler Sample.env Sample.product_update fresh))
   = [EvHmacDigest; EvTimingSafeEqual]).
Proof.
  split; [|split; [|split]].
  - apply (C5_method_and_domain_before_hmac_topic_after
             Sample.env Sample.get_request fresh).
    discriminate.
  - apply (C5_method_and_domain_before_hmac_topic_after
             Sample.env Sample.from_elsewhere fresh);
      [reflexivity | vm_compute; discriminate | vm_compute; discriminate].
  - refine (proj1 (proj1 (proj2 (proj2
             (C5_method_and_domain_before_hmac_topic_after
                Sample.env Sample.product_update fresh))) _ _)).
    vm_compute. reflexivity.
  - refine (proj1 (proj2 (proj2 (proj2
             (C5_method_and_domain_before_hmac_topic_after
                Sample.env Sample.product_update fresh))) _ _)).
    vm_compute. reflexivity.
Defined.

(** C5 as stated fails: the topic filter does not act before the
    secret-dependent work.  A request whose topic is not an order event is
    skipped only after its HMAC has been computed and compared, and the same
    request with a forged signature is not skipped at all but refused. *)
Lemma C5_topic_filter_runs_after_hmac :
  (fst (Part000.handler Sample.env Sample.product_update fresh)
   = Returned (Part000.send 200 "Ignored topic") /\
   In EvHmacDigest
      (trace (snd (Part000.handler Sample.env Sample.product_update fresh))) /\
   In EvTimingSafeEqual
      (trace (snd (Part000.handler Sample.env Sample.product_update fresh)))) /\
  (fst (Api.handler Sample.env Sample.product_update fresh)
   = Returned Api_topic_skip /\
   In EvHmacDigest
      (trace (snd (Api.handler Sample.env Sample.product_update fresh))) /\
   In EvTimingSafeEqual
      (trace (snd (Api.handler Sample.env Sample.product_update fresh)))) /\
  fst (Part000.handler Sample.env Sample.product_update_forged fresh)
  = Returned (Part000.send 403 "Forbidden (hmac)") /\
  fst (Api.handler Sample.env Sample.product_update_forged fresh)
  = Returned Api_invalid_hmac.
Proof.
  vm_compute. repeat split; auto.
Qed.

(* ------------------------------------------------------------------ *)
(** ** C6: malformed JSON *)

(** C6, as the code has it.  For a signed POST from the allowed shop whose
    body is not JSON, nothing is stored by either file.  The second file
    answers 400 "Bad JSON" when the topic is "orders/paid" (any other topic
    is skipped with 200 before the body is parsed); the first file has no
    such answer: the SyntaxError reaches the [catch] around the whole body,
    is logged, and the request is acknowledged with 200 and [ok: false]. *)
Theorem C6_malformed_json :
  forall (env : Env) (req : Request) (w : World),
    signed_post env req ->
    JSON.parse (readRawBody req) = None ->
    (exists w',
        Part000.handler env req w
        = (Returned
             (if String.eqb
                   (toLowerCase (or_empty (header "x-shopify-topic" (headers req))))
                   "orders/paid"
              then Part000.send 400 "Bad JSON"
              else Part000.send 200 "Ignored topic"), w')
        /\ db w' = db w) /\
    (exists w',
        Api.handler env req w = (Returned Api_logged_error, w') /\
        db w' = db w /\
        existsb logged_error (trace w') = true).
Proof.
  intros env req w H Hbad. split.
  - enter_signed H.
    destruct (String.eqb _ "orders/paid"); cbn.
    + rewrite Hbad. cbn. eexists. split; reflexivity.
    + eexists. split; reflexivity.
  - enter_signed H. rewrite Hbad. cbn.
    unfold console_error, emit, bind, ret. cbn.
    eexists. split; [reflexivity|]. split; [reflexivity|].
    cbn. rewrite !existsb_app. cbn. apply orb_true_r.
Qed.

Lemma sample_malformed_signed : signed_post Sample.env Sample.malformed.
Proof.
  constructor; try discriminate; vm_compute; reflexivity.
Defined.

Lemma C6_cut_short_witness :
  JSON.parse (readRawBody Sample.malformed) = None /\
  (exists w',
      Part000.handler Sample.env Sample.malformed fresh
      = (Returned (Part000.send 400 "Bad JSON"), w') /\ db w' = db fresh) /\
  (exists w',
      Api.handler Sample.env Sample.malformed fresh
      = (Returned Api_logged_error, w') /\
      db w' = db fresh /\
      existsb logged_error (trace w') = true).
Proof.
  assert (P : JSON.parse (readRawBody Sample.malformed) = None)
    by (vm_compute; reflexivity).
  split; [exact P|].
  exact (C6_malformed_json Sample.env Sample.malformed fresh
           sample_malformed_signed P).
Defined.

(** C6 as stated fails on the first file: a validly signed body that is not
    JSON is answered 200, not 400. *)
Lemma C6_api_answers_200_to_malformed_json :
  signed_post Sample.env Sample.malformed /\
  JSON.parse (readRawBody Sample.malformed) = None /\
  exists r w',
    Api.handler Sample.env Sample.malformed fresh = (Returned r, w') /\
    status r = 200 /\ status r <> 400.
Proof.
  split; [exact sample_malformed_signed|].
  split; [vm_compute; reflexivity|].
  do 2 eexists. split; [vm_compute; reflexivity|].
  split; [reflexivity | discriminate].
Qed.

(* ------------------------------------------------------------------ *)
(** ** C7: the cashback amount *)

Lemma code_chr (z : Z) : 0 <= z < 256 -> code (chr z) = z.
Proof.
  intros H. unfold code, chr. rewrite N_ascii_embedding.
  - rewrite Z2N.id; [apply Z.mod_small; lia | apply Z.mod_pos_bound; lia].
  - rewrite Z.mod_small by lia. change 256%N with (Z.to_N 256). apply Z2N.inj_lt; lia.
Qed.

Lemma digit_char (d : Z) :
  0 <= d < 10 -> is_digit (chr (48 + d)) = true /\ digit_val (chr (48 + d)) = d.
Proof.
  intros H. unfold is_digit, digit_val. rewrite code_chr by lia.
  split; [|lia]. apply andb_true_iff. split; apply Z.leb_le; lia.
Qed.

Lemma span_digits_app (s r : string) :
  all_digits s = true -> stops r ->
  forall acc len,
    Num.span_digits (s ++ r) acc len
    = (dval s acc, len + Z.of_nat (String.length s), r).
Proof.
  intros Hs Hr. induction s as [|c s IH]; intros acc len; cbn.
  - rewrite Z.add_0_r. destruct r as [|c r]; cbn; [reflexivity|].
    cbn in Hr. now rewrite Hr.
  - cbn in Hs. apply andb_true_iff in Hs. destruct Hs as [Hc Hs].
    rewrite Hc, (IH Hs). f_equal. f_equal. lia.
Qed.

Lemma all_digits_app (a b : string) :
  all_digits (a ++ b) = all_digits a && all_digits b.
Proof.
  induction a as [|c a IH]; cbn; [reflexivity|]. now rewrite IH, andb_assoc.
Qed.

Lemma dval_app (a b : string) (acc : Z) : dval (a ++ b) acc = dval b (dval a acc).
Proof. revert acc. induction a as [|c a IH]; intros acc; cbn; [reflexivity | apply IH]. Qed.

Lemma length_app (a b : string) :
  String.length (a ++ b) = (String.length a + String.length b)%nat.
Proof. induction a as [|c a IH]; cbn; [reflexivity | now rewrite IH]. Qed.

Lemma app_assoc_str (a b c : string) : (a ++ b) ++ c = a ++ (b ++ c).
Proof. induction a as [|x a IH]; cbn; [reflexivity | now rewrite IH]. Qed.

Lemma app_nil_r_str (a : string) : a ++ "" = a.
Proof. induction a as [|x a IH]; cbn; [reflexivity | now rewrite IH]. Qed.

Lemma digits_fuel_spec (fuel : nat) :
  forall n acc,
    0 <= n < 10 ^ Z.of_nat fuel ->
    exists ds,
      Num.digits_fuel fuel n acc = ds ++ acc /\
      all_digits ds = true /\
      (forall a, dval ds a = a * 10 ^ Z.of_nat (String.length ds) + n).
Proof.
  induction fuel as [|fuel IH]; intros n acc Hn.
  - cbn in Hn. exists "". cbn. repeat split. intros a. lia.
  - cbn [Num.digits_fuel].
    assert (Hd : 0 <= n mod 10 < 10) by (apply Z.mod_pos_bound; lia).
    destruct (digit_char _ Hd) as [Hc Hv].
    destruct (n <? 10) eqn:E.
    + apply Z.ltb_lt in E. exists (String (chr (48 + n mod 10)) "").
      cbn [append all_digits dval String.length].
      rewrite Hc, Hv. repeat split. intros a.
      rewrite Z.mod_small by lia. change (Z.of_nat 1) with 1. lia.
    + apply Z.ltb_ge in E.
      destruct (IH (n / 10) (String (chr (48 + n mod 10)) acc)) as (ds & E1 & A & V).
      { split; [apply Z.div_pos; lia|].
        apply Z.div_lt_upper_bound; [lia|].
        rewrite Nat2Z.inj_succ, Z.pow_succ_r in Hn by lia. lia. }
      exists (ds ++ String (chr (48 + n mod 10)) ""). repeat split.
      * rewrite E1, app_assoc_str. reflexivity.
      * rewrite all_digits_app, A. cbn [all_digits andb]. now rewrite Hc.
      * intros a. rewrite dval_app, V, length_app.
        cbn [dval String.length]. rewrite Hv.
        rewrite Nat2Z.inj_add. change (Z.of_nat 1) with 1.
        rewrite Z.pow_add_r by lia.
        pose proof (Z.div_mod n 10 ltac:(lia)). lia.
Qed.

Lemma decimal_digits_spec (n : Z) :
  0 <= n ->
  all_digits (Num.decimal_digits n) = true /\
  (forall a, dval (Num.decimal_digits n) a
             = a * 10 ^ Z.of_nat (String.length (Num.decimal_digits n)) + n).
Proof.
  intros Hn. unfold Num.decimal_digits.
  destruct (digits_fuel_spec (S (Z.to_nat (Z.log2 n))) n "") as (ds & E & A & V).
  - split; [assumption|].
    rewrite Nat2Z.inj_succ, Z2Nat.id by apply Z.log2_nonneg.
    destruct (Z.eq_dec n 0) as [->|Hz]; [cbn; lia|].
    apply Z.lt_le_trans with (2 ^ Z.succ (Z.log2 n)).
    + apply Z.log2_spec. lia.
    + apply Z.pow_le_mono_l. lia.
  - rewrite E. replace (ds ++ "") with ds; [now split|].
    clear. induction ds as [|c ds IH]; cbn; [reflexivity | now rewrite <- IH].
Qed.

Lemma substring_split (j : nat) :
  forall s, (j <= String.length s)%nat ->
    substring 0 j s ++ substring j (String.length s - j) s = s /\
    String.length (substring 0 j s) = j.
Proof.
  induction j as [|j IH]; intros s Hj.
  - rewrite Nat.sub_0_r. destruct s as [|c s]; cbn; [now split|].
    split; [|reflexivity]. f_equal.
    clear. induction s as [|c' s IH]; cbn; [reflexivity | now rewrite IH].
  - destruct s as [|c s]; cbn in Hj; [lia|].
    destruct (IH s ltac:(lia)) as [E L]. cbn. rewrite E, L. now split.
Qed.

Lemma all_digits_repeat (k : nat) : all_digits (repeat_char "0" k) = true.
Proof. induction k as [|k IH]; cbn; [reflexivity | exact IH]. Qed.

Lemma dval_repeat_zero (k : nat) : dval (repeat_char "0" k) 0 = 0.
Proof. induction k as [|k IH]; cbn; [reflexivity | exact IH]. Qed.

Lemma length_repeat (c : ascii) (k : nat) : String.length (repeat_char c k) = k.
Proof. induction k as [|k IH]; cbn; [reflexivity | now rewrite IH]. Qed.


Lemma strip_ws_keeps (c : ascii) (s : string) :
  32 < code c < 194 -> Num.strip_ws (String c s) = String c s.
Proof.
  intros H. cbn [Num.strip_ws].
  assert ((9 <=? code c) && (code c <=? 13) || (code c =? 32) = false) as ->.
  { apply orb_false_iff. split; [apply andb_false_iff; right; apply Z.leb_gt | apply Z.eqb_neq]; lia. }
  assert (F1 : (code c =? 194) = false) by (apply Z.eqb_neq; lia).
  assert (F2 : (code c =? 225) = false) by (apply Z.eqb_neq; lia).
  assert (F3 : (code c =? 226) = false) by (apply Z.eqb_neq; lia).
  assert (F4 : (code c =? 227) = false) by (apply Z.eqb_neq; lia).
  assert (F5 : (code c =? 239) = false) by (apply Z.eqb_neq; lia).
  destruct s as [|c1 [|c2 s]]; try reflexivity; rewrite ?F1, ?F2, ?F3, ?F4, ?F5;
    reflexivity.
Qed.

Lemma is_digit_code (c : ascii) : is_digit c = true -> 48 <= code c <= 57.
Proof.
  unfold is_digit. intros H. apply andb_true_iff in H.
  destruct H as [A B]. apply Z.leb_le in A, B. lia.
Qed.

Lemma not_Infinity (c : ascii) (s : string) :
  code c <= 57 -> starts_with "Infinity" (String c s) = false.
Proof.
  intros H. cbn [starts_with].
  destruct (Ascii.eqb_spec "I" c) as [<-|_]; [cbn in H; lia | reflexivity].
Qed.

(** Reading [digits . two digits]: the digits as one integer, two places
    down. *)
Lemma unsigned_decimal_fixed (neg : bool) (i f : string) :
  all_digits i = true -> (1 <= String.length i)%nat ->
  all_digits f = true -> String.length f = 2%nat ->
  Num.unsigned_decimal neg (i ++ "." ++ f)
  = Num.of_decimal neg (dval (i ++ f) 0) (- 2).
Proof.
  intros Hi Li Hf Lf. unfold Num.unsigned_decimal.
  destruct i as [|c i]; [cbn in Li; lia|].
  cbn [append]. rewrite not_Infinity.
  2:{ cbn in Hi. apply andb_true_iff in Hi. destruct Hi as [Hc _].
      apply is_digit_code in Hc. lia. }
  change (String c (i ++ String "." f)) with (String c i ++ String "." f).
  rewrite span_digits_app; [|exact Hi|reflexivity].
  rewrite <- (app_nil_r_str f) at 1.
  rewrite span_digits_app; [|exact Hf|exact I].
  rewrite Lf.
  change (code "." =? 46) with true. cbv iota beta.
  assert ((0 <? 0 + Z.of_nat (String.length (String c i)) + (0 + Z.of_nat 2)) = true) as ->.
  { apply Z.ltb_lt. lia. }
  cbn [Num.exponent_part].
  change (String c (i ++ f)) with (String c i ++ f). rewrite dval_app. reflexivity.
Qed.

Lemma StringToNumber_digit_first (c : ascii) (s : string) :
  is_digit c = true ->
  match s with
  | EmptyString => True
  | String c1 _ => code c1 <= 57
  end ->
  Num.StringToNumber (String c s) = Num.unsigned_decimal false (String c s).
Proof.
  intros Hc Hs. apply is_digit_code in Hc. unfold Num.StringToNumber.
  rewrite strip_ws_keeps by lia.
  assert ((code c =? 45) = false) as -> by (apply Z.eqb_neq; lia).
  assert ((code c =? 43) = false) as -> by (apply Z.eqb_neq; lia).
  destruct (code c =? 48); [|reflexivity].
  destruct s as [|c1 s]; [reflexivity|].
  assert ((code c1 =? 120) = false) as -> by (apply Z.eqb_neq; lia).
  assert ((code c1 =? 88) = false) as -> by (apply Z.eqb_neq; lia).
  assert ((code c1 =? 111) = false) as -> by (apply Z.eqb_neq; lia).
  assert ((code c1 =? 79) = false) as -> by (apply Z.eqb_neq; lia).
  assert ((code c1 =? 98) = false) as -> by (apply Z.eqb_neq; lia).
  assert ((code c1 =? 66) = false) as -> by (apply Z.eqb_neq; lia).
  reflexivity.
Qed.

Lemma StringToNumber_fixed (neg : bool) (i f : string) :
  all_digits i = true -> (1 <= String.length i)%nat ->
  all_digits f = true -> String.length f = 2%nat ->
  Num.StringToNumber ((if neg then "-" else "") ++ i ++ "." ++ f)
  = Num.of_decimal neg (dval (i ++ f) 0) (- 2).
Proof.
  intros Hi Li Hf Lf. destruct neg.
  - cbn [append]. unfold Num.StringToNumber.
    rewrite strip_ws_keeps by (cbn; lia).
    change (code "-" =? 45) with true. cbv iota.
    now apply unsigned_decimal_fixed.
  - cbn [append]. rewrite <- unsigned_decimal_fixed by assumption.
    destruct i as [|c i]; [cbn in Li; lia|].
    cbn [append]. cbn in Hi. apply andb_true_iff in Hi. destruct Hi as [Hc Hi].
    apply StringToNumber_digit_first; [exact Hc|].
    destruct i as [|c1 i]; cbn [append]; [cbn; lia|].
    cbn in Hi. apply andb_true_iff in Hi. destruct Hi as [Hc1 _].
    apply is_digit_code in Hc1. lia.
Qed.

(** [Number(x.toFixed(2))] for a value of [n] hundredths. *)
Lemma read_fixed2_digits (neg : bool) (n : Z) :
  0 <= n ->
  Num.StringToNumber ((if neg then "-" else "") ++ Num.fixed2_digits n)
  = Num.of_decimal neg n (- 2).
Proof.
  intros Hn. unfold Num.fixed2_digits.
  destruct (decimal_digits_spec n Hn) as [A V].
  set (m := Num.decimal_digits n) in *.
  set (m' := repeat_char "0" (3 - String.length m) ++ m).
  assert (L : (3 <= String.length m')%nat).
  { unfold m'. rewrite length_app, length_repeat. lia. }
  assert (A' : all_digits m' = true).
  { unfold m'. now rewrite all_digits_app, all_digits_repeat, A. }
  assert (V' : dval m' 0 = n).
  { unfold m'. rewrite dval_app, dval_repeat_zero, V. lia. }
  destruct (substring_split (String.length m' - 2) m' ltac:(lia)) as [E Li].
  replace (String.length m' - (String.length m' - 2))%nat with 2%nat in E by lia.
  set (i := substring 0 (String.length m' - 2) m') in *.
  set (f := substring (String.length m' - 2) 2 m') in *.
  assert (Lf : String.length f = 2%nat).
  { apply (f_equal String.length) in E. rewrite length_app in E. lia. }
  assert (Hif : all_digits i = true /\ all_digits f = true).
  { rewrite <- E, all_digits_app in A'. now apply andb_true_iff in A'. }
  rewrite StringToNumber_fixed; try tauto; [|lia].
  now rewrite E, V'.
Qed.

Lemma abs_den_pos (x : Num.Number) : 0 < Num.abs_den x.
Proof.
  destruct x as [s|s| |s m e]; unfold Num.abs_den; try lia.
  destruct (0 <=? e) eqn:E; [lia|].
  apply Z.leb_gt in E. apply Z.pow_pos_nonneg; lia.
Qed.

Lemma abs_num_nonneg (x : Num.Number) : 0 <= Num.abs_num x.
Proof.
  destruct x as [s|s| |s m e]; unfold Num.abs_num; try lia.
  destruct (0 <=? e) eqn:E; [|lia].
  apply Z.leb_le in E. apply Z.mul_nonneg_nonneg; [lia|].
  apply Z.pow_nonneg. lia.
Qed.

(** [hundredths x] is the integer nearest to [100 |x|], the larger of the
    two when [100 |x|] lies half way. *)
Lemma hundredths_nearest (x : Num.Number) :
  0 <= Num.hundredths x /\
  (2 * Num.hundredths x - 1) * Num.abs_den x <= 200 * Num.abs_num x
    < (2 * Num.hundredths x + 1) * Num.abs_den x.
Proof.
  unfold Num.hundredths.
  pose proof (abs_den_pos x) as D. pose proof (abs_num_nonneg x) as N.
  set (a := 200 * Num.abs_num x + Num.abs_den x).
  set (b := 2 * Num.abs_den x).
  assert (B : 0 < b) by (unfold b; lia).
  pose proof (Z.mul_div_le a b B) as L.
  pose proof (Z.mul_succ_div_gt a b B) as U.
  split; [apply Z.div_pos; unfold a; lia|].
  unfold a, b in *. set (n := (200 * Num.abs_num x + Num.abs_den x) / (2 * Num.abs_den x)) in *.
  nia.
Qed.

Lemma cashback_of_finite (p x : Num.Number) :
  Num.isFinite x = true ->
  Num.abs_num x < 10 ^ 21 * Num.abs_den x ->
  Num.StringToNumber (Num.toFixed2 x)
  = Num.of_decimal (Num.is_negative x) (Num.hundredths x) (- 2).
Proof.
  intros F B. unfold Num.toFixed2. rewrite F. cbn [negb].
  apply Z.leb_gt in B. rewrite B.
  apply read_fixed2_digits, hundredths_nearest.
Qed.

(** A product that is not a finite number comes back as it is. *)
Lemma cashback_of_non_finite (x : Num.Number) :
  Num.isFinite x = false -> Num.StringToNumber (Num.toFixed2 x) = x.
Proof.
  destruct x as [s|[|]| |s m e]; try discriminate; intros _; vm_compute; reflexivity.
Qed.

Lemma five_is_finite : Num.isFinite five = true.
Proof. reflexivity. Qed.

(** The nearest integer, ties up, depends on the value of the fraction
    only. *)
Lemma half_up_of_equal_fractions (n a b c d : Z) :
  0 < b -> 0 < d -> a * d = c * b ->
  (2 * n - 1) * b <= 200 * a < (2 * n + 1) * b ->
  spec_half_up (100 * c) d = n.
Proof.
  intros B D E [L U]. unfold spec_half_up.
  assert (L' : (2 * n - 1) * d <= 200 * c) by nia.
  assert (U' : 200 * c < (2 * n + 1) * d) by nia.
  symmetry. apply (Z.div_unique_pos _ _ n (2 * (100 * c) + d - 2 * d * n)); lia.
Qed.

(** C7, as the code has it.  The cashback amount depends on the paid total
    and the configured percent only, and is the same function in both
    files.  It is not the rounding of the product [total * percent / 100]
    but of the binary64 number [x] that [totalPaid * (percent / 100)]
    computes, the division and the multiplication each rounded to the
    nearest number: for [x] finite and below 10^21 in magnitude, the amount
    is [n / 100] read as a number, signed as [x], where [n] is the integer
    nearest to [100 |x|] and the larger one on a tie (half-up on the exact
    value of [x]).  Where [x] is the product exactly, this is the spec's
    formula under half-up rounding.  The percent is the configured number
    when that is finite and 5 otherwise, so it is always finite. *)
Theorem C7_cashback_rounds_the_binary_product :
  forall (env : Env) (totalPaid : Num.Number),
    let p := Api.cashbackPercent env in
    let x := Num.mul totalPaid (Num.div p hundred) in
    Num.isFinite x = true ->
    Num.abs_num x < 10 ^ 21 * Num.abs_den x ->
    (exists n : Z,
        (2 * n - 1) * Num.abs_den x <= 200 * Num.abs_num x
          < (2 * n + 1) * Num.abs_den x /\
        Api.cashbackAmount_of env totalPaid
        = Num.of_decimal (Num.is_negative x) n (- 2)) /\
    (Num.abs_num x * (Num.abs_den totalPaid * Num.abs_den p * 100)
     = Num.abs_num totalPaid * Num.abs_num p * Num.abs_den x ->
     Api.cashbackAmount_of env totalPaid
     = Num.of_decimal (Num.is_negative x)
         (spec_cashback_hundredths spec_half_up
            (Num.abs_num totalPaid) (Num.abs_den totalPaid)
            (Num.abs_num p) (Num.abs_den p))
         (- 2)) /\
    Part000.cashbackAmount_of env totalPaid
    = Api.cashbackAmount_of env totalPaid /\
    Part000.pct env = p /\
    Num.isFinite p = true /\
    (Num.isFinite (LSC_CASHBACK_PERCENT env) = true ->
     p = LSC_CASHBACK_PERCENT env) /\
    (Num.isFinite (LSC_CASHBACK_PERCENT env) = false -> p = five).
Proof.
  intros env totalPaid p x F B.
  assert (A : Api.cashbackAmount_of env totalPaid
              = Num.of_decimal (Num.is_negative x) (Num.hundredths x) (- 2)).
  { unfold Api.cashbackAmount_of. fold p. fold x.
    now apply (cashback_of_finite p). }
  split; [|split; [|repeat split]].
  - exists (Num.hundredths x). split; [apply hundredths_nearest | exact A].
  - intros E. rewrite A. f_equal. symmetry.
    unfold spec_cashback_hundredths.
    apply (half_up_of_equal_fractions _ (Num.abs_num x) (Num.abs_den x)).
    + apply abs_den_pos.
    + pose proof (abs_den_pos totalPaid). pose proof (abs_den_pos p). nia.
    + exact E.
    + apply hundredths_nearest.
  - unfold p, Api.cashbackPercent.
    destruct (Num.isFinite (LSC_CASHBACK_PERCENT env)) eqn:E;
      [exact E | exact five_is_finite].
  - intros E. unfold p, Api.cashbackPercent. now rewrite E.
  - intros E. unfold p, Api.cashbackPercent. now rewrite E.
Qed.

Lemma C7_two_hundred_at_five_percent_witness :
  let total := Num.StringToNumber "200.00" in
  let p := Api.cashbackPercent Sample.env in
  let x := Num.mul total (Num.div p hundred) in
  Num.isFinite x = true /\
  Num.abs_num x < 10 ^ 21 * Num.abs_den x /\
  Num.abs_num x * (Num.abs_den total * Num.abs_den p * 100)
  = Num.abs_num total * Num.abs_num p * Num.abs_den x /\
  (exists n : Z,
      (2 * n - 1) * Num.abs_den x <= 200 * Num.abs_num x
        < (2 * n + 1) * Num.abs_den x /\
      Api.cashbackAmount_of Sample.env total
      = Num.of_decimal (Num.is_negative x) n (- 2)) /\
  Api.cashbackAmount_of Sample.env total
  = Num.of_decimal (Num.is_negative x)
      (spec_cashback_hundredths spec_half_up
         (Num.abs_num total) (Num.abs_den total)
         (Num.abs_num p) (Num.abs_den p))
      (- 2).
Proof.
  intros total p x.
  assert (F : Num.isFinite x = true) by (vm_compute; reflexivity).
  assert (B : Num.abs_num x < 10 ^ 21 * Num.abs_den x) by (vm_compute; reflexivity).
  assert (E : Num.abs_num x * (Num.abs_den total * Num.abs_den p * 100)
              = Num.abs_num total * Num.abs_num p * Num.abs_den x)
    by (vm_compute; reflexivity).
  split; [exact F|]. split; [exact B|]. split; [exact E|].
  split.
  - exact (proj1 (C7_cashback_rounds_the_binary_product Sample.env total F B)).
  - exact (proj1 (proj2 (C7_cashback_rounds_the_binary_product
                           Sample.env total F B)) E).
Defined.

(** C7 as stated fails: the amount is not [round(total * percent / 100, 2)]
    under either rule.  A total of 0.5 at 3 percent: both numbers are exact
    in binary64 and the product is exactly 0.015, which half-up and
    half-even both round to 0.02; the code computes 0.5 * 0.03, a binary64
    number just below 0.015, and returns 0.01, in both files. *)
Lemma C7_half_cent_is_rounded_down :
  let env := env_at "3" in
  let total := Num.StringToNumber "0.5" in
  let p := Api.cashbackPercent env in
  2 * Num.abs_num total = 1 * Num.abs_den total /\
  1 * Num.abs_num p = 3 * Num.abs_den p /\
  spec_cashback_hundredths spec_half_up 1 2 3 1 = 2 /\
  spec_cashback_hundredths spec_half_even 1 2 3 1 = 2 /\
  Api.cashbackAmount_of env total = Num.of_decimal false 1 (- 2) /\
  Part000.cashbackAmount_of env total = Num.of_decimal false 1 (- 2) /\
  Num.toString (Api.cashbackAmount_of env total) = "0.01" /\
  Num.eqb (Api.cashbackAmount_of env total) (Num.of_decimal false 2 (- 2))
  = false.
Proof. vm_compute. repeat split; reflexivity. Qed.

(** Nor is any one rule applied to the product: at 1 percent the totals
    0.5, 1.5, 2.5, 3.5 and 4.5 have the exact products 0.005, 0.015, 0.025,
    0.035 and 0.045; half-up gives 1, 2, 3, 4, 5 hundredths, half-even 0, 2,
    2, 4, 4, the code 1, 1, 3, 4, 4. *)
Example cashback_on_half_cents :
  let halves := [(1, "0.5"); (3, "1.5"); (5, "2.5"); (7, "3.5"); (9, "4.5")] in
  map (fun h => spec_cashback_hundredths spec_half_up (fst h) 2 1 1) halves
  = [1; 2; 3; 4; 5] /\
  map (fun h => spec_cashback_hundredths spec_half_even (fst h) 2 1 1) halves
  = [0; 2; 2; 4; 4] /\
  map (fun h => Num.toString
                  (Api.cashbackAmount_of (env_at "1")
                     (Num.StringToNumber (snd h)))) halves
  = ["0.01"; "0.01"; "0.03"; "0.04"; "0.04"].
Proof. vm_compute. repeat split; reflexivity. Qed.

(** The amounts of the spec's scenarios, and two that show the rounding is
    of the binary product: 0.30 at 5% is 0.01499999... and gives 0.01, 2.50
    at 5% is exactly 0.125 and gives 0.13. *)
Example cashback_amounts :
  map (fun s => Num.toString
                  (Api.cashbackAmount_of Sample.env (Num.StringToNumber s)))
      ["200.00"; "250.00"; "0.30"; "2.50"; "19.99"; "0"; "abc"]
  = ["10"; "12.5"; "0.01"; "0.13"; "1"; "0"; "NaN"].
Proof. vm_compute. reflexivity. Qed.

(** The percent that is used, for several settings of the variable. *)
Example cashback_percents :
  map (fun v => Num.toString
                  (Api.cashbackPercent
                     {| env_SHOPIFY_WEBHOOK_SECRET := None;
                        env_ALLOWED_SHOPIFY_DOMAIN := None;
                        env_LSC_CASHBACK_PERCENT := v |}))
      [None; Some ""; Some "7.5"; Some "ten"; Some "Infinity"; Some "0"]
  = ["5"; "5"; "7.5"; "5"; "5"; "0"].
Proof. vm_compute. reflexivity. Qed.

(* ------------------------------------------------------------------ *)
(** ** C8: no secret, no verification *)

(** C8.  When the webhook secret is not configured (unset or empty), every
    request is rejected and the world is left exactly as it was: nothing is
    stored, nothing is verified or parsed.  A POST is answered 401 by the
    first file (domain mismatch or "Invalid HMAC") and 403 (domain) or 500
    ("Server misconfigured") by the second; any other method is answered
    405 before verification is reached. *)
Theorem C8_missing_secret_fails_closed :
  forall (env : Env) (req : Request) (w : World),
    SHOPIFY_WEBHOOK_SECRET env = "" ->
    (exists r,
        Api.handler env req w = (Returned r, w) /\
        (status r = 405 \/ status r = 401) /\
        (method req = "POST" -> status r = 401)) /\
    (exists r,
        Part000.handler env req w = (Returned r, w) /\
        (status r = 405 \/ status r = 403 \/ status r = 500) /\
        (method req = "POST" -> status r = 403 \/ status r = 500)).
Proof.
  intros env req w Hsecret. split.
  - unfold Api.handler.
    destruct (String.eqb (method req) "POST") eqn:Hm; cbn [negb].
    + unfold try_catch, Api.process, Api.verifyShopifyHmac.
      rewrite Hsecret. cbn [nonempty negb].
      match goal with |- context [if ?c then _ else _] => destruct c end;
        cbn; eexists; (split; [reflexivity|]); cbn; auto.
    + eexists; split; [reflexivity|]; cbn. split; [auto|].
      intros E. apply String.eqb_eq in E. congruence.
  - unfold Part000.handler.
    destruct (String.eqb (method req) "POST") eqn:Hm; cbn [negb].
    + rewrite Hsecret. cbn [nonempty negb].
      match goal with |- context [if ?c then _ else _] => destruct c end;
        cbn; eexists; (split; [reflexivity|]); cbn; auto.
    + eexists; split; [reflexivity|]; cbn. split; [auto|].
      intros E. apply String.eqb_eq in E. congruence.
Qed.

Lemma C8_signed_request_without_secret_witness :
  SHOPIFY_WEBHOOK_SECRET Sample.env_without_secret = "" /\
  (exists r,
      Api.handler Sample.env_without_secret Sample.paid fresh
      = (Returned r, fresh) /\
      (status r = 405 \/ status r = 401) /\
      (method Sample.paid = "POST" -> status r = 401)) /\
  (exists r,
      Part000.handler Sample.env_without_secret Sample.paid fresh
      = (Returned r, fresh) /\
      (status r = 405 \/ status r = 403 \/ status r = 500) /\
      (method Sample.paid = "POST" -> status r = 403 \/ status r = 500)).
Proof.
  split; [reflexivity|].
  apply (C8_missing_secret_fails_closed Sample.env_without_secret Sample.paid fresh).
  reflexivity.
Defined.

(** The two answers themselves, for a request that would otherwise verify. *)
Example missing_secret_answers :
  fst (Api.handler Sample.env_without_secret Sample.paid fresh)
  = Returned Api_invalid_hmac /\
  fst (Part000.handler Sample.env_without_secret Sample.paid fresh)
  = Returned (Part000.send 500 "Server misconfigured (secret)").
Proof. vm_compute. split; reflexivity. Qed.

(* ------------------------------------------------------------------ *)
(** ** C9: storage failures *)

Ltac failed_sql_leaf :=
  intros E; inversion E; subst; clear E; cbn;
  rewrite <- ?app_assoc; cbn;
  intros T;
  first [apply trace_tail in T | apply trace_same in T];
  subst; cbn;
  intros F; try discriminate F;
  (split; [eexists; split; reflexivity | reflexivity]).

Lemma Api_storage_failure env req w o w' evs :
  Api.handler env req w = (o, w') ->
  trace w' = (trace w ++ evs)%list ->
  existsb failed_sql evs = true ->
  (exists r, o = Returned r /\ status r = 200) /\
  existsb logged_error evs = true.
Proof. run_cases; failed_sql_leaf. Qed.

Lemma Part000_storage_failure env req w o w' evs :
  Part000.handler env req w = (o, w') ->
  trace w' = (trace w ++ evs)%list ->
  existsb failed_sql evs = true ->
  (exists r, o = Returned r /\ status r = 200) /\
  existsb logged_error evs = true.
Proof. run_cases; failed_sql_leaf. Qed.

(** C9.  In both files: if during a run any [sql] call fails (the
    provisioning statements or the insert itself), the run still returns a
    response, its status is 200, and the failure was written to
    [console.error]. *)
Theorem C9_storage_failure_is_acknowledged :
  forall (env : Env) (req : Request) (w : World) (evs : list event)
         (h : Env -> Request -> M Response),
    h = Api.handler \/ h = Part000.handler ->
    trace (snd (h env req w)) = (trace w ++ evs)%list ->
    existsb failed_sql evs = true ->
    (exists r, fst (h env req w) = Returned r /\ status r = 200) /\
    existsb logged_error evs = true.
Proof.
  intros env req w evs h [-> | ->] T F.
  - destruct (Api.handler env req w) as [o w'] eqn:E.
    exact (Api_storage_failure env req w o w' evs E T F).
  - destruct (Part000.handler env req w) as [o w'] eqn:E.
    exact (Part000_storage_failure env req w o w' evs E T F).
Qed.

Lemma C9_storage_down_witness :
  let w := arrive (Sample.storage_down Sample.paid) fresh in
  let evs :=
    [EvHmacDigest; EvTimingSafeEqual; EvJsonParse; EvSql CreateAll false;
     EvConsoleError "DB insert error:" (StorageError "storage failure");
     EvConsoleLog "[LSC] orders/paid"
       (VObj [("shop", VStr "shop.example.com"); ("orderId", VStr "1001");
              ("currency", VStr "EUR");
              ("totalPaid", VNum (Num.StringToNumber "200"));
              ("pct", VNum five); ("cashbackAmount", VNum (Num.of_Z 10))])] in
  trace (snd (Part000.handler Sample.env Sample.paid w)) = (trace w ++ evs)%list /\
  existsb failed_sql evs = true /\
  (exists r, fst (Part000.handler Sample.env Sample.paid w) = Returned r
             /\ status r = 200) /\
  existsb logged_error evs = true.
Proof.
  intros w evs.
  assert (T : trace (snd (Part000.handler Sample.env Sample.paid w))
              = (trace w ++ evs)%list) by (vm_compute; reflexivity).
  assert (F : existsb failed_sql evs = true) by reflexivity.
  split; [exact T|]. split; [exact F|].
  exact (C9_storage_failure_is_acknowledged Sample.env Sample.paid w evs
           Part000.handler (or_intror eq_refl) T F).
Defined.

(** The first file under the same failure: acknowledged with [ok: false]. *)
Example storage_down_api :
  let w := arrive (Sample.storage_down Sample.paid) fresh in
  fst (Api.handler Sample.env Sample.paid w) = Returned Api_logged_error /\
  rows (db (snd (Api.handler Sample.env Sample.paid w))) = [].
Proof. vm_compute. split; reflexivity. Qed.

(* ------------------------------------------------------------------ *)
(** ** C10: the empty allow-list *)

(** C10.  With [ALLOWED_SHOPIFY_DOMAIN] empty, the second file refuses
    every request without looking at it further (403 "Forbidden (domain)"
    for a POST, 405 otherwise; the world is untouched), while the first
    file never answers "Unauthorized shop domain": a POST from any shop goes
    on to the signature check. *)
Theorem C10_empty_allow_list :
  forall (env : Env) (req : Request) (w : World),
    ALLOWED_SHOPIFY_DOMAIN env = "" ->
    (exists r,
        Part000.handler env req w = (Returned r, w) /\
        (status r = 405 \/ status r = 403) /\
        (method req = "POST" -> r = Part000.send 403 "Forbidden (domain)")) /\
    fst (Api.handler env req w) <> Returned Api_unauthorized_domain /\
    (method req = "POST" ->
     SHOPIFY_WEBHOOK_SECRET env <> "" ->
     exists evs,
       trace (snd (Api.handler env req w))
       = (trace w ++ EvHmacDigest :: EvTimingSafeEqual :: evs)%list).
Proof.
  intros env req w H. repeat split.
  - unfold Part000.handler. rewrite H. cbn [nonempty negb orb].
    destruct (String.eqb (method req) "POST") eqn:E; cbn [negb].
    + eexists. split; [reflexivity|]. cbn. auto.
    + eexists. split; [reflexivity|]. cbn. split; [auto|].
      intros E'. apply String.eqb_eq in E'. congruence.
  - unfold Api.handler, Api.process, Api_unauthorized_domain.
    rewrite H. cbn [nonempty andb].
    run_cases; discriminate.
  - intros Hm Hs. unfold Api.handler, Api.process, Api.verifyShopifyHmac.
    rewrite H, Hm, String.eqb_refl, (nonempty_true _ Hs).
    cbn [nonempty andb negb].
    run_cases; rewrite <- ?app_assoc; cbn; eexists; reflexivity.
Qed.

Lemma C10_any_shop_witness :
  ALLOWED_SHOPIFY_DOMAIN Sample.env_without_allow_list = "" /\
  fst (Api.handler Sample.env_without_allow_list Sample.from_elsewhere fresh)
  <> Returned Api_unauthorized_domain /\
  fst (Part000.handler Sample.env_without_allow_list Sample.from_elsewhere fresh)
  = Returned (Part000.send 403 "Forbidden (domain)").
Proof.
  assert (H : ALLOWED_SHOPIFY_DOMAIN Sample.env_without_allow_list = "")
    by reflexivity.
  destruct (C10_empty_allow_list Sample.env_without_allow_list
              Sample.from_elsewhere fresh H) as [[r [E [_ P]]] [N _]].
  split; [exact H|]. split; [exact N|].
  rewrite E. cbn. f_equal. apply P. reflexivity.
Defined.

(** A paid order announced by another shop is recorded by the first file
    when no domain is configured. *)
Example any_shop_is_recorded :
  map (fun r => (key r, shop_domain (cols r)))
      (rows (db (snd (Api.handler Sample.env_without_allow_list
                        Sample.from_elsewhere fresh))))
  = [("1001", "other.example.com")].
Proof. vm_compute. reflexivity. Qed.

(* ------------------------------------------------------------------ *)
(** ** Reading the conditions of a path *)

Lemma nonempty_neq (s : string) : nonempty s = true -> s <> "".
Proof. destruct s; [discriminate | discriminate]. Qed.

Lemma get_some (v x : value) (k : string) :
  JS.get v k = Some x -> JS.nullish v = false /\ x = JS.member v k.
Proof.
  unfold JS.get. destruct (JS.nullish v); [discriminate|].
  intros E. inversion E. split; reflexivity.
Qed.

Lemma api_domain_passes (allowed shop : string) :
  nonempty allowed && negb (String.eqb shop allowed) = false ->
  allowed <> "" -> shop = allowed.
Proof.
  intros H N. rewrite (nonempty_true _ N) in H. cbn in H.
  apply negb_false_iff in H. now apply String.eqb_eq.
Qed.

(** Turns the boolean tests met along a path into the facts they decide. *)
Ltac read_conditions :=
  repeat match goal with
         | H : negb _ = false |- _ => apply negb_false_iff in H
         | H : negb _ = true |- _ => apply negb_true_iff in H
         | H : _ || _ = false |- _ =>
             apply orb_false_iff in H; destruct H
         | H : String.eqb _ _ = true |- _ => apply String.eqb_eq in H
         | H : nonempty _ = true |- _ => apply nonempty_neq in H
         | H : Crypto.timingSafeEqual _ _ = Some true |- _ =>
             apply timingSafeEqual_true in H
         | H : Crypto.timingSafeEqual _ _ = Some ?b, H' : ?b = true |- _ =>
             rewrite H' in H
         | H : JS.get _ _ = Some _ |- _ =>
             apply get_some in H; destruct H
         | H : Crypto.timingSafeEqual _ _ = None, L : Nat.eqb _ _ = true |- _ =>
             unfold Crypto.timingSafeEqual in H; rewrite L in H; discriminate H
         end.

(** The tuple of a path on which both conversions had a result. *)
Ltac values_found :=
  unfold Api_values, Part000_values;
  repeat match goal with
         | H : _ = Some _ |- _ => rewrite H
         end;
  reflexivity.

Ltac leaf_events :=
  cbn; rewrite <- ?app_assoc; cbn; intros T;
  first [apply trace_tail in T | apply trace_same in T]; subst.

Lemma Api_trace env req w evs :
  trace (snd (Api.handler env req w)) = (trace w ++ evs)%list ->
  Forall (Api_sends env req) evs.
Proof.
  run_cases; leaf_events; read_conditions;
    repeat (constructor; try exact I);
    cbn;
    (do 2 eexists; split;
     [ constructor;
       [ constructor; assumption
       | intros; eapply api_domain_passes; eassumption
       | assumption
       | eassumption
       | values_found ]
     | first [exact I | reflexivity] ]).
Qed.

Lemma Part000_trace env req w evs :
  trace (snd (Part000.handler env req w)) = (trace w ++ evs)%list ->
  Forall (Part000_sends env req) evs.
Proof.
  run_cases; leaf_events; read_conditions; subst;
    repeat (constructor; try exact I);
    cbn;
    (do 2 eexists; split;
     [ constructor;
       [ constructor; assumption
       | assumption
       | assumption
       | assumption
       | eassumption
       | assumption
       | values_found
       | cbn; assumption
       | cbn; assumption ]
     | first [exact I | reflexivity] ]).
Qed.

(* ------------------------------------------------------------------ *)
(** ** The helpers of the two files *)

Lemma fold_append (cs : list string) (acc : string) :
  fold_left append cs acc = acc ++ fold_left append cs "".
Proof.
  revert acc. induction cs as [|c cs IH]; intros acc; cbn.
  - now rewrite app_nil_r_str.
  - rewrite IH, (IH c). now rewrite app_assoc_str.
Qed.

Lemma readRawBody_app m hs cs1 cs2 :
  readRawBody {| method := m; headers := hs; chunks := (cs1 ++ cs2)%list |}
  = readRawBody {| method := m; headers := hs; chunks := cs1 |}
    ++ readRawBody {| method := m; headers := hs; chunks := cs2 |}.
Proof.
  unfold readRawBody. cbn. rewrite fold_left_app. apply fold_append.
Qed.

Lemma readRawBody_concat m hs cs :
  readRawBody {| method := m; headers := hs; chunks := cs |}
  = String.concat "" cs.
Proof.
  unfold readRawBody. cbn [chunks].
  induction cs as [|c cs IH]; [reflexivity|].
  cbn [fold_left]. rewrite fold_append, IH. cbn [append].
  destruct cs as [|c' cs]; [cbn; apply app_nil_r_str | reflexivity].
Qed.

(** [readRawBody] joins the chunks in the order they arrive: the text read
    is the first chunk followed by the text of the rest, a single chunk
    reads as itself and no chunk as the empty text.  So where the transport
    cuts the body is of no consequence: cutting a chunk in two anywhere
    leaves the text read, and with it the whole run of either handler, as it
    was. *)
Theorem readRawBody_joins_the_chunks :
  forall (env : Env) (m : string) (hs : list (string * string))
         (before after : list string) (a b : string),
    let read cs := readRawBody {| method := m; headers := hs; chunks := cs |} in
    let joined :=
      {| method := m; headers := hs;
         chunks := (before ++ [(a ++ b)%string] ++ after)%list |} in
    let cut :=
      {| method := m; headers := hs;
         chunks := (before ++ [a; b] ++ after)%list |} in
    read [] = "" /\
    read [a] = a /\
    read (a :: after) = a ++ read after /\
    read (before ++ after)%list = read before ++ read after /\
    String.length (read (a :: after))
    = (String.length a + String.length (read after))%nat /\
    readRawBody cut = readRawBody joined /\
    readRawBody joined = read before ++ a ++ b ++ read after /\
    Api.handler env cut = Api.handler env joined /\
    Part000.handler env cut = Part000.handler env joined.
Proof.
  intros env m hs before after a b read joined cut.
  assert (C : forall c cs, read (c :: cs) = c ++ read cs).
  { intros c cs. unfold read.
    change (c :: cs) with ([c] ++ cs)%list. rewrite readRawBody_app.
    reflexivity. }
  assert (E : readRawBody cut = readRawBody joined).
  { unfold cut, joined. rewrite !readRawBody_app. reflexivity. }
  split; [reflexivity|]. split; [reflexivity|]. split; [apply C|].
  split; [apply readRawBody_app|].
  split; [rewrite C; apply length_app|].
  split; [exact E|]. split.
  - unfold joined. rewrite !readRawBody_app. fold (read before).
    fold (read after). change (readRawBody _) with (read [(a ++ b)%string]).
    unfold read at 2. unfold readRawBody. cbn. now rewrite app_assoc_str.
  - split.
    + unfold Api.handler, Api.process. rewrite E. reflexivity.
    + unfold Part000.handler. rewrite E. reflexivity.
Qed.

Lemma eqb_length (a b : string) :
  String.eqb a b = true -> String.length a = String.length b.
Proof. intros E. apply String.eqb_eq in E. now subst. Qed.

(** [timingSafeEqualStr] never throws and answers exactly whether the two
    strings are equal; strings of different lengths are told apart without
    [crypto.timingSafeEqual] being called. *)
Theorem timingSafeEqualStr_decides_equality :
  forall (a b : string) (w : World),
    exists w',
      Part000.timingSafeEqualStr a b w = (Returned (String.eqb a b), w') /\
      db w' = db w /\
      (String.length a <> String.length b -> w' = w).
Proof.
  intros a b w. unfold Part000.timingSafeEqualStr.
  destruct (Nat.eqb (String.length a) (String.length b)) eqn:L; cbn [negb].
  - unfold timingSafeEqual, Crypto.timingSafeEqual, bind, emit, ret. cbn.
    rewrite L. cbn. eexists. split; [reflexivity|]. split; [reflexivity|].
    apply Nat.eqb_eq in L. congruence.
  - assert (String.eqb a b = false) as ->.
    { destruct (String.eqb a b) eqn:E; [|reflexivity].
      apply eqb_length in E. apply Nat.eqb_neq in L. congruence. }
    eexists. split; [reflexivity|]. split; [reflexivity|]. reflexivity.
Qed.

(** [verifyShopifyHmac]: without a secret it answers false and computes
    nothing; with one, it answers whether the header is the digest when the
    two have the same length, and throws a RangeError when they do not. *)
Theorem verifyShopifyHmac_cases :
  forall (env : Env) (rawBody : string) (hmacHeader : option string)
         (w : World),
    let digest :=
      Crypto.hmac_sha256_base64 (SHOPIFY_WEBHOOK_SECRET env) rawBody in
    (SHOPIFY_WEBHOOK_SECRET env = "" ->
     Api.verifyShopifyHmac env rawBody hmacHeader w = (Returned false, w)) /\
    (SHOPIFY_WEBHOOK_SECRET env <> "" ->
     String.length digest = String.length (or_empty hmacHeader) ->
     exists w',
       Api.verifyShopifyHmac env rawBody hmacHeader w
       = (Returned (String.eqb digest (or_empty hmacHeader)), w')) /\
    (SHOPIFY_WEBHOOK_SECRET env <> "" ->
     String.length digest <> String.length (or_empty hmacHeader) ->
     exists msg w',
       Api.verifyShopifyHmac env rawBody hmacHeader w
       = (Thrown (RangeError msg), w')).
Proof.
  intros env rawBody hmacHeader w digest. unfold Api.verifyShopifyHmac.
  split; [|split].
  - intros E. rewrite E. reflexivity.
  - intros N L. rewrite (nonempty_true _ N). cbn [negb].
    unfold createHmac_digest, timingSafeEqual, Crypto.timingSafeEqual, bind,
      emit, ret, throw.
    cbn. fold digest. apply Nat.eqb_eq in L. rewrite L. cbn.
    eexists. reflexivity.
  - intros N L. rewrite (nonempty_true _ N). cbn [negb].
    unfold createHmac_digest, timingSafeEqual, Crypto.timingSafeEqual, bind,
      emit, ret, throw.
    cbn. fold digest. apply Nat.eqb_neq in L. rewrite L. cbn.
    do 2 eexists. reflexivity.
Qed.

Lemma verifyShopifyHmac_witness :
  let digest := Crypto.hmac_sha256_base64 "shhh" Sample.order_1001 in
  Api.verifyShopifyHmac Sample.env_without_secret Sample.order_1001
    (Some Sample.sig_1001) fresh
  = (Returned false, fresh) /\
  (exists w',
      Api.verifyShopifyHmac Sample.env Sample.order_1001
        (Some Sample.sig_1001_again) fresh
      = (Returned (String.eqb digest Sample.sig_1001_again), w')) /\
  (exists msg w',
      Api.verifyShopifyHmac Sample.env Sample.order_1001 None fresh
      = (Thrown (RangeError msg), w')).
Proof.
  intros digest. split; [|split].
  - apply (verifyShopifyHmac_cases Sample.env_without_secret
             Sample.order_1001 (Some Sample.sig_1001) fresh).
    reflexivity.
  - apply (verifyShopifyHmac_cases Sample.env Sample.order_1001
             (Some Sample.sig_1001_again) fresh);
      [discriminate | vm_compute; reflexivity].
  - apply (verifyShopifyHmac_cases Sample.env Sample.order_1001 None fresh);
      [discriminate | vm_compute; discriminate].
Defined.

(* ------------------------------------------------------------------ *)
(** ** What a run never does *)

Lemma exists_sql (P : event -> Prop) (evs : list event) :
  Forall P evs -> existsb is_sql evs = true ->
  exists st ok, In (EvSql st ok) evs /\ P (EvSql st ok).
Proof.
  intros F E. apply existsb_exists in E. destruct E as [[| | |st ok| |] [I S]];
    try discriminate.
  exists st, ok. split; [exact I|]. rewrite Forall_forall in F. now apply F.
Qed.

(** Neither file sends a statement to the database for a request that is
    not a POST carrying the digest of its body under a configured secret;
    the first file further wants the allowed shop when one is configured,
    the second always. *)
Theorem no_statement_without_signature :
  forall (env : Env) (req : Request) (w : World) (evs : list event),
    (trace (snd (Api.handler env req w)) = (trace w ++ evs)%list ->
     existsb is_sql evs = true ->
     verified env req /\
     (ALLOWED_SHOPIFY_DOMAIN env <> "" ->
      shop_of req = ALLOWED_SHOPIFY_DOMAIN env)) /\
    (trace (snd (Part000.handler env req w)) = (trace w ++ evs)%list ->
     existsb is_sql evs = true ->
     verified env req /\
     ALLOWED_SHOPIFY_DOMAIN env <> "" /\
     shop_of req = ALLOWED_SHOPIFY_DOMAIN env).
Proof.
  intros env req w evs. split; intros T S.
  - destruct (exists_sql _ _ (Api_trace env req w evs T) S)
      as (st & ok & _ & payload & v & A & _).
    destruct A. now split.
  - destruct (exists_sql _ _ (Part000_trace env req w evs T) S)
      as (st & ok & _ & payload & v & A & _).
    destruct A. split; [assumption | split; assumption].
Qed.

(** The first file always answers: whatever the request and whatever the
    storage layer does, the run returns a response, and its status is 405,
    401 or 200. *)
Theorem Api_always_answers :
  forall (env : Env) (req : Request) (w : World),
    exists r w',
      Api.handler env req w = (Returned r, w') /\
      (status r = 405 \/ status r = 401 \/ status r = 200).
Proof.
  intros env req w.
  run_cases; do 2 eexists; (split; [reflexivity|]); cbn; auto.
Qed.

(** The second file answers with 405, 403, 500, 400 or 200, or throws a
    TypeError and sends no response.  It throws exactly on a verified
    "orders/paid" request from the allowed shop whose body parses to a value
    that lines 66-71 cannot read: [null], on which [payload.id] throws, or a
    value on which [String(payload.id || "")] or the [Number(..)] of the
    amount throws; these lines are outside any [try].  Nothing is stored
    then. *)
Theorem Part000_answers_or_throws_TypeError :
  forall (env : Env) (req : Request) (w : World),
    ((exists r w',
         Part000.handler env req w = (Returned r, w') /\
         (status r = 405 \/ status r = 403 \/ status r = 500 \/
          status r = 400 \/ status r = 200)) \/
     (exists msg w' payload,
         Part000.handler env req w = (Thrown (TypeError msg), w') /\
         verified env req /\
         JSON.parse (readRawBody req) = Some payload /\
         Part000_cannot_read payload /\
         db w' = db w)) /\
    (forall payload,
        verified env req ->
        ALLOWED_SHOPIFY_DOMAIN env <> "" ->
        shop_of req = ALLOWED_SHOPIFY_DOMAIN env ->
        toLowerCase (or_empty (header "x-shopify-topic" (headers req)))
        = "orders/paid" ->
        JSON.parse (readRawBody req) = Some payload ->
        Part000_cannot_read payload ->
        exists msg w',
          Part000.handler env req w = (Thrown (TypeError msg), w') /\
          db w' = db w).
Proof.
  intros env req w. split.
  - unfold Part000_cannot_read.
    run_cases; read_conditions; subst;
      first
        [ left; do 2 eexists; (split; [reflexivity|]); cbn; auto 10; fail
        | right; do 3 eexists; (split; [reflexivity|]);
          (split; [constructor; assumption|]);
          (split; [reflexivity|]);
          split; [|reflexivity];
          match goal with
          | H : JS.get ?v _ = None |- _ =>
              left; unfold JS.get in H; destruct (JS.nullish v);
              [reflexivity | discriminate H]
          | H : Part000.orderId_from _ = None |- _ => right; left; exact H
          | H : Part000.totalPaid_of _ = None |- _ => right; right; exact H
          end ].
  - intros payload [Vm Vs Vsig] A D T P C.
    unfold Part000.handler, Part000.timingSafeEqualStr.
    unfold shop_of in D.
    rewrite Vm, D, T, <- Vsig, !String.eqb_refl, (nonempty_true _ Vs),
      (nonempty_true _ A).
    cbn [negb andb orb].
    unfold createHmac_digest, timingSafeEqual, JSON_parse, try_catch, bind,
      emit, ret, throw.
    cbn. rewrite Nat.eqb_refl, timingSafeEqual_same. cbn. rewrite P. cbn.
    unfold get_member, converted, JS.get, ret, throw.
    destruct C as [C|[C|C]].
    + rewrite C. do 2 eexists. split; reflexivity.
    + destruct (JS.nullish payload); [do 2 eexists; split; reflexivity|].
      rewrite C. do 2 eexists. split; reflexivity.
    + destruct (JS.nullish payload); [do 2 eexists; split; reflexivity|].
      destruct (Part000.orderId_from (JS.member payload "id"));
        [rewrite C|]; do 2 eexists; split; reflexivity.
Qed.

(* ------------------------------------------------------------------ *)
(** ** What single statements keep, and runs with them *)

Lemma exec_table_exists now st d d' res :
  Storage.exec now st d = Some (d', res) -> table_exists d' = true.
Proof.
  unfold Storage.exec.
  destruct st;
    repeat match goal with
           | |- context [if ?c then _ else _] => destruct c eqn:?
           end;
    intros E; inversion E; subst; clear E; cbn; auto.
Qed.

Lemma exec_keeps_rows now st d d' res r :
  Storage.exec now st d = Some (d', res) ->
  In r (rows d) ->
  exists r', In r' (rows d') /\ key r' = key r /\ created_at r' = created_at r.
Proof.
  unfold Storage.exec.
  destruct st;
    repeat match goal with
           | |- context [if ?c then _ else _] => destruct c eqn:?
           end;
    intros E; inversion E; subst; clear E; cbn; intros I;
    try (exists r; repeat split; auto using in_or_app; fail).
  exists (Storage.update_row v r). split; [now apply in_map|].
  split; [apply key_update_row|].
  unfold Storage.update_row. now destruct (String.eqb _ _).
Qed.

Lemma exec_appends now st d d' res :
  appends_only st ->
  Storage.exec now st d = Some (d', res) ->
  exists new, rows d' = (rows d ++ new)%list.
Proof.
  unfold Storage.exec.
  destruct st; cbn; intros A; try contradiction;
    repeat match goal with
           | |- context [if ?c then _ else _] => destruct c eqn:?
           end;
    intros E; inversion E; subst; clear E; cbn;
    first [ exists []; now rewrite app_nil_r | eexists; reflexivity ].
Qed.

Lemma exec_keeps_tuples (Q : Values -> Prop) now st d d' res :
  tuple_of Q st ->
  Storage.exec now st d = Some (d', res) ->
  Forall (fun r => Q (cols r)) (rows d) ->
  Forall (fun r => Q (cols r)) (rows d').
Proof.
  unfold Storage.exec.
  destruct st; cbn; intros T;
    repeat match goal with
           | |- context [if ?c then _ else _] => destruct c eqn:?
           end;
    intros E; inversion E; subst; clear E; cbn; intros F; auto.
  - rewrite Forall_forall in *. intros r I. apply in_map_iff in I.
    destruct I as (r0 & <- & I). unfold Storage.update_row.
    destruct (String.eqb _ _); cbn; auto.
  - apply Forall_app. split; [exact F | repeat constructor; exact T].
  - apply Forall_app. split; [exact F | repeat constructor; exact T].
Qed.

Lemma statements_of_in now evs t st :
  In (t, st) (statements_of now evs) -> In (EvSql st true) evs.
Proof.
  unfold statements_of. intros I. apply in_flat_map in I.
  destruct I as ([| | |st' [|]| |] & I & J); cbn in J; try contradiction.
  destruct J as [J|[]]. inversion J; subst. exact I.
Qed.

(** Lifting from one statement to what a run sends. *)
Lemma exec_all_keeps (I : Database -> Prop) (good : statement -> Prop) :
  (forall now st d d' res,
      good st -> Storage.exec now st d = Some (d', res) -> I d -> I d') ->
  forall sts d,
    Forall (fun p => good (snd p)) sts -> I d -> I (exec_all sts d).
Proof.
  intros step sts. induction sts as [|[now st] sts IH]; intros d G H; cbn;
    [exact H|].
  inversion G as [|? ? Gst Gsts]; subst. cbn in Gst.
  destruct (Storage.exec now st d) as [[d' res]|] eqn:E; [|auto].
  apply IH; [exact Gsts|]. eapply step; eassumption.
Qed.

Lemma Api_step (I : Database -> Prop) (good : statement -> Prop) env req :
  (forall now st d d' res,
      good st -> Storage.exec now st d = Some (d', res) -> I d -> I d') ->
  (forall st ok, Api_sends env req (EvSql st ok) -> good st) ->
  forall w, I (db w) -> I (db (snd (Api.handler env req w))).
Proof.
  intros step sends w H.
  destruct (Api_run_is_its_statements env req w) as (evs & T & ->).
  apply (exec_all_keeps I good step); [|exact H].
  pose proof (Api_trace env req w evs T) as F.
  rewrite Forall_forall in *. intros [t st] J. cbn.
  apply statements_of_in in J. exact (sends st true (F _ J)).
Qed.

Lemma Part000_step (I : Database -> Prop) (good : statement -> Prop) env req :
  (forall now st d d' res,
      good st -> Storage.exec now st d = Some (d', res) -> I d -> I d') ->
  (forall st ok, Part000_sends env req (EvSql st ok) -> good st) ->
  forall w, I (db w) -> I (db (snd (Part000.handler env req w))).
Proof.
  intros step sends w H.
  destruct (Part000_run_is_its_statements env req w) as (evs & T & ->).
  apply (exec_all_keeps I good step); [|exact H].
  pose proof (Part000_trace env req w evs T) as F.
  rewrite Forall_forall in *. intros [t st] J. cbn.
  apply statements_of_in in J. exact (sends st true (F _ J)).
Qed.

Lemma run_keeps_db (I : Database -> Prop) (h : Request -> M Response) :
  (forall req w, I (db w) -> I (db (snd (h req w)))) ->
  forall ds w, I (db w) -> I (db (run h ds w)).
Proof.
  intros step ds. induction ds as [|d ds IH]; intros w H; cbn; [exact H|].
  apply IH. unfold deliver. apply step. exact H.
Qed.

(** No delivery ever removes a record or changes when it was created: a
    row that is in the table stays under its order identifier, with its
    [created_at], through any sequence of deliveries, in both files. *)
Theorem rows_stay_and_keep_created_at :
  forall (env : Env) (ds : list Delivery) (w : World) (r : Row),
    In r (rows (db w)) ->
    (exists r', In r' (rows (db (run (Api.handler env) ds w))) /\
                key r' = key r /\ created_at r' = created_at r) /\
    (exists r', In r' (rows (db (run (Part000.handler env) ds w))) /\
                key r' = key r /\ created_at r' = created_at r).
Proof.
  intros env ds w r H.
  set (I := fun d : Database =>
              exists r', In r' (rows d) /\ key r' = key r
                         /\ created_at r' = created_at r).
  assert (step : forall now st d d' res,
             True -> Storage.exec now st d = Some (d', res) -> I d -> I d').
  { intros now st d d' res _ E (r1 & I1 & K1 & C1).
    destruct (exec_keeps_rows now st d d' res r1 E I1) as (r2 & I2 & K2 & C2).
    exists r2. repeat split; congruence. }
  assert (H0 : I (db w)) by (exists r; auto).
  split.
  - apply (run_keeps_db I); [|exact H0].
    intros req w0. apply (Api_step I (fun _ => True)); auto.
  - apply (run_keeps_db I); [|exact H0].
    intros req w0. apply (Part000_step I (fun _ => True)); auto.
Qed.

Lemma rows_stay_witness :
  let w := snd (deliver (Api.handler Sample.env)
                  (Sample.at_noon Sample.paid) fresh) in
  let r := {| created_at := 1200; cols := More.order_1001_values |} in
  In r (rows (db w)) /\
  exists r', In r' (rows (db (run (Api.handler Sample.env)
                                [smooth Sample.paid_again 1300] w))) /\
             key r' = key r /\ created_at r' = created_at r.
Proof.
  intros w r.
  assert (H : In r (rows (db w))) by (vm_compute; left; reflexivity).
  split; [exact H|].
  exact (proj1 (rows_stay_and_keep_created_at Sample.env
                  [smooth Sample.paid_again 1300] w r H)).
Defined.

(** The second file never changes a stored record: through any sequence of
    deliveries the table only grows at its end. *)
Theorem Part000_only_appends :
  forall (env : Env) (ds : list Delivery) (w : World),
    exists new,
      rows (db (run (Part000.handler env) ds w)) = (rows (db w) ++ new)%list.
Proof.
  intros env ds w.
  set (I := fun d : Database => exists new, rows d = (rows (db w) ++ new)%list).
  apply (run_keeps_db I).
  - intros req w0. apply (Part000_step I appends_only).
    + intros now st d d' res A E (new & N).
      destruct (exec_appends now st d d' res A E) as (more & M).
      exists (new ++ more)%list. now rewrite M, N, app_assoc.
    + intros st ok (payload & v & _ & S). destruct st; cbn; auto.
  - exists []. now rewrite app_nil_r.
Qed.

Lemma or_truthy (a b : value) :
  JS.truthy b = true -> JS.truthy (JS.or a b) = true.
Proof. intros H. unfold JS.or. destruct (JS.truthy a) eqn:E; assumption. Qed.

Lemma Api_currency_truthy payload : JS.truthy (Api.currency_of payload) = true.
Proof. unfold Api.currency_of. repeat apply or_truthy. reflexivity. Qed.


(** Every record the first file stores carries the rate in force, the
    amount computed from its own total at that rate, a currency that is not
    empty and, when an allowed shop is configured, that shop: if the table
    holds only such records, it still does after any deliveries. *)
Theorem Api_stores_consistent_records :
  forall (env : Env) (ds : list Delivery) (w : World),
    Forall (fun r => Api_tuple_ok env (cols r)) (rows (db w)) ->
    Forall (fun r => Api_tuple_ok env (cols r))
           (rows (db (run (Api.handler env) ds w))).
Proof.
  intros env ds w H.
  set (I := fun d : Database =>
              Forall (fun r => Api_tuple_ok env (cols r)) (rows d)).
  apply (run_keeps_db I); [|exact H].
  intros req w0. apply (Api_step I (tuple_of (Api_tuple_ok env))).
  - intros now st d d' res. apply exec_keeps_tuples.
  - intros st ok (payload & v & A & S).
    destruct st as [| | | |v'|v']; cbn; auto; try contradiction.
    subst v'. destruct A as [_ D _ _ V]. unfold Api_values in V.
    destruct (Api.orderId_of payload), (Api.totalPaid_of payload);
      try discriminate V.
    inversion V; subst v. unfold Api_tuple_ok. cbn.
    repeat split; auto using Api_currency_truthy.
Qed.

Lemma Api_consistent_witness :
  Forall (fun r => Api_tuple_ok Sample.env (cols r)) (rows (db fresh)) /\
  Forall (fun r => Api_tuple_ok Sample.env (cols r))
         (rows (db (run (Api.handler Sample.env)
                      [Sample.at_noon Sample.paid;
                       Sample.at_noon Sample.zero_amount] fresh))).
Proof.
  assert (H : Forall (fun r => Api_tuple_ok Sample.env (cols r))
                     (rows (db fresh))) by constructor.
  split; [exact H|].
  exact (Api_stores_consistent_records Sample.env _ fresh H).
Defined.



(* ------------------------------------------------------------------ *)
(** ** The provisioning flag *)

Lemma Api_keeps_flag env req w :
  flag_is_sound w -> flag_is_sound (snd (Api.handler env req w)).
Proof.
  unfold flag_is_sound.
  run_cases; intros S R; cbn in *;
    first [ discriminate R
          | now apply S
          | match goal with
            | H : Storage.exec _ _ _ = Some (?d, _) |- table_exists ?d = true =>
                exact (exec_table_exists _ _ _ _ _ H)
            end ].
Qed.

Lemma Part000_keeps_flag env req w :
  flag_is_sound w -> flag_is_sound (snd (Part000.handler env req w)).
Proof.
  unfold flag_is_sound.
  run_cases; intros S R; cbn in *;
    first [ discriminate R
          | now apply S
          | match goal with
            | H : Storage.exec _ _ _ = Some (?d, _) |- table_exists ?d = true =>
                exact (exec_table_exists _ _ _ _ _ H)
            end ].
Qed.

(** [ensureTable] sets [tableReady] only after its statements went through,
    and no statement ever drops the table: whenever the flag is set the table
    exists, after any sequence of deliveries and storage failures, in both
    files. *)
Theorem tableReady_means_table_exists :
  forall (env : Env) (ds : list Delivery) (w : World),
    flag_is_sound w ->
    flag_is_sound (run (Api.handler env) ds w) /\
    flag_is_sound (run (Part000.handler env) ds w).
Proof.
  intros env ds. induction ds as [|d ds IH]; intros w S; cbn; [now split|].
  split.
  - apply IH. unfold deliver. apply Api_keeps_flag. exact S.
  - apply IH. unfold deliver. apply Part000_keeps_flag. exact S.
Qed.

Lemma tableReady_witness :
  flag_is_sound fresh /\
  flag_is_sound (run (Api.handler Sample.env)
                   [Sample.storage_down Sample.paid;
                    Sample.at_noon Sample.paid] fresh).
Proof.
  assert (S : flag_is_sound fresh) by (intros R; discriminate R).
  split; [exact S|].
  exact (proj1 (tableReady_means_table_exists Sample.env _ fresh S)).
Defined.

(* ------------------------------------------------------------------ *)
(** ** Accepted requests: first delivery, redelivery *)

Lemma db_eta (d : Database) :
  table_exists d = true -> d = {| table_exists := true; rows := rows d |}.
Proof. destruct d as [t rs]. cbn. now intros ->. Qed.

Lemma api_domain_ok env req :
  (ALLOWED_SHOPIFY_DOMAIN env <> "" -> shop_of req = ALLOWED_SHOPIFY_DOMAIN env) ->
  nonempty (ALLOWED_SHOPIFY_DOMAIN env)
  && negb (String.eqb
             (toLowerCase (or_empty (header "x-shopify-shop-domain" (headers req))))
             (ALLOWED_SHOPIFY_DOMAIN env)) = false.
Proof.
  intros Hd. unfold shop_of in Hd.
  destruct (ALLOWED_SHOPIFY_DOMAIN env) eqn:E; [reflexivity|].
  rewrite Hd by discriminate. now rewrite String.eqb_refl.
Qed.

Lemma Api_values_found env req payload v :
  Api_values env req payload = Some v ->
  exists orderId totalPaid,
    Api.orderId_of payload = Some orderId /\
    Api.totalPaid_of payload = Some totalPaid /\
    v = {| order_id := orderId;
           shop_domain := shop_of req;
           customer_email := Api.customerEmail_of payload;
           currency := Api.currency_of payload;
           total_paid := totalPaid;
           cashback_percent := Api.cashbackPercent env;
           cashback_amount := Api.cashbackAmount_of env totalPaid;
           raw := payload |}.
Proof.
  unfold Api_values.
  destruct (Api.orderId_of payload) as [o|], (Api.totalPaid_of payload) as [t|];
    try discriminate.
  intros E. inversion E. now exists o, t.
Qed.

Lemma Part000_values_found env req payload v :
  Part000_values env req payload = Some v ->
  exists orderId totalPaid,
    Part000.orderId_from (JS.member payload "id") = Some orderId /\
    Part000.totalPaid_of payload = Some totalPaid /\
    v = {| order_id := orderId;
           shop_domain := shop_of req;
           customer_email := Part000.customerEmail_of payload;
           currency := Part000.currency_of payload;
           total_paid := totalPaid;
           cashback_percent := Part000.pct env;
           cashback_amount := Part000.cashbackAmount_of env totalPaid;
           raw := payload |}.
Proof.
  unfold Part000_values.
  destruct (Part000.orderId_from (JS.member payload "id")) as [o|],
    (Part000.totalPaid_of payload) as [t|]; try discriminate.
  intros E. inversion E. now exists o, t.
Qed.

(** An accepted request with the storage layer working: the first file
    runs its insert on the provisioned table and reports what it stored. *)
Lemma Api_persists env req payload v w :
  Api_accepts env req payload v ->
  faults w = [] ->
  flag_is_sound w ->
  exists w' res,
    Api.handler env req w = (Returned (Api_saved v), w') /\
    Storage.exec (clock w) (InsertOrUpdate v)
      {| table_exists := true; rows := rows (db w) |}
    = Some (db w', res) /\
    tableReady w' = true.
Proof.
  intros [[Hm Hs Hsig] Hd Ht Hp Hv] F S.
  destruct (Api_values_found _ _ _ _ Hv) as (o & t & Ho & Htot & V).
  pose proof (upsert_stores (clock w) v
                {| table_exists := true; rows := rows (db w) |} eq_refl)
    as (d' & res & E & _).
  unfold Api.handler, Api.process, Api.verifyShopifyHmac.
  rewrite Hm, String.eqb_refl, (nonempty_true _ Hs), (api_domain_ok _ _ Hd).
  cbn [negb].
  unfold createHmac_digest, timingSafeEqual, JSON_parse, try_catch, bind,
    emit, ret, throw.
  cbn. rewrite Hsig, timingSafeEqual_same. cbn. rewrite Hp, Ht. cbn.
  rewrite Ho, Htot.
  unfold converted, Api.ensureTable, console_log, sql, emit, get_tableReady,
    set_tableReady, bind, ret. cbn. rewrite F. cbn.
  fold (shop_of req). rewrite <- V.
  destruct (tableReady w) eqn:R; cbn.
  - assert (E' : Storage.exec (clock w) (InsertOrUpdate v) (db w)
                 = Some (d', res)).
    { rewrite (db_eta (db w) (S R)). exact E. }
    rewrite E'. cbn.
    do 2 eexists. split; [subst v; reflexivity|].
    split; [first [exact E | reflexivity] | reflexivity].
  - unfold Storage.exec at 1. cbn.
    unfold Storage.exec at 1. cbn.
    unfold Storage.exec at 1. cbn.
    rewrite E. cbn.
    do 2 eexists. split; [subst v; reflexivity|].
    split; [first [exact E | reflexivity] | reflexivity].
Qed.

(** Past the checks of the second file, up to its [try]. *)
Ltac enter_accepted A req :=
  let Hm := fresh "Hm" in let Hs := fresh "Hs" in let Hsig := fresh "Hsig" in
  let Ha := fresh "Ha" in let Hd := fresh "Hd" in let Ht := fresh "Ht" in
  let Hp := fresh "Hp" in let Hn := fresh "Hn" in let Hv := fresh "Hv" in
  let Ho := fresh "Ho" in let Hg := fresh "Hg" in
  let o := fresh "o" in let t := fresh "t" in
  let Eo := fresh "Eo" in let Et := fresh "Et" in let V := fresh "V" in
  destruct A as [[Hm Hs Hsig] Ha Hd Ht Hp Hn Hv Ho Hg];
  destruct (Part000_values_found _ _ _ _ Hv) as (o & t & Eo & Et & V);
  rewrite V in Ho, Hg; cbn in Ho, Hg;
  unfold shop_of in Hd;
  unfold Part000.handler, Part000.timingSafeEqualStr;
  rewrite Hm, Hd, Ht, !String.eqb_refl, (nonempty_true _ Hs),
    (nonempty_true _ Ha);
  cbn [negb orb];
  unfold createHmac_digest, timingSafeEqual, JSON_parse, get_member, JS.get,
    try_catch, bind, emit, ret, throw;
  cbn; rewrite Hsig, Nat.eqb_refl, timingSafeEqual_same; cbn;
  rewrite Hp; cbn; rewrite Hn; cbn; rewrite Eo; cbn; rewrite Et; cbn;
  rewrite (nonempty_true _ Ho), Hg; cbn;
  unfold Part000.ensureTable, console_log, console_error, sql, emit,
    get_tableReady, set_tableReady, bind, ret; cbn;
  rewrite <- Hd; fold (shop_of req).

(** An accepted request when the flag is set and the storage layer works:
    the second file runs its insert. *)
Lemma Part000_persists env req payload v w :
  Part000_accepts env req payload v ->
  faults w = [] ->
  flag_is_sound w ->
  tableReady w = true ->
  exists w' d',
    Part000.handler env req w = (Returned (Part000.send 200 "OK"), w') /\
    Storage.exec (clock w) (InsertOrNothing v)
      {| table_exists := true; rows := rows (db w) |}
    = Some (d', []) /\
    db w' = d' /\
    tableReady w' = true.
Proof.
  intros A F S R. enter_accepted A req. rewrite F, R. cbn. rewrite <- V.
  assert (E : exists d',
             Storage.exec (clock w) (InsertOrNothing v)
               {| table_exists := true; rows := rows (db w) |} = Some (d', [])).
  { unfold Storage.exec. cbn.
    match goal with
    | |- context [if ?c then _ else _] => destruct c
    end; eexists; reflexivity. }
  destruct E as (d' & E).
  assert (E' : Storage.exec (clock w) (InsertOrNothing v) (db w)
               = Some (d', [])).
  { rewrite (db_eta (db w) (S R)). exact E. }
  rewrite E'. cbn.
  do 2 eexists. split; [reflexivity|].
  split; [first [exact E | reflexivity] | split; reflexivity].
Qed.

(** Until the flag is set the second file leaves the table alone and the
    flag unset: its provisioning text is refused, and the insert comes after
    it in the same [try]. *)
Lemma Part000_stays_unprovisioned env req w :
  tableReady w = false ->
  db (snd (Part000.handler env req w)) = db w /\
  tableReady (snd (Part000.handler env req w)) = false.
Proof.
  run_cases; intros R; cbn;
    first [ discriminate R
          | split; [reflexivity | assumption]
          | match goal with
            | H : Storage.exec _ CreateAll _ = Some _ |- _ =>
                unfold Storage.exec in H; discriminate H
            end ].
Qed.

Lemma upsert_rows now v rs d' res :
  Storage.exec now (InsertOrUpdate v) {| table_exists := true; rows := rs |}
  = Some (d', res) ->
  rows d' = if Storage.has_key (order_id v) rs
            then map (Storage.update_row v) rs
            else (rs ++ [{| created_at := now; cols := v |}])%list.
Proof.
  unfold Storage.exec. cbn [table_exists rows].
  destruct (Storage.has_key (order_id v) rs);
    intros E; inversion E; reflexivity.
Qed.

Lemma insert_rows now v rs d' res :
  Storage.exec now (InsertOrNothing v) {| table_exists := true; rows := rs |}
  = Some (d', res) ->
  rows d' = if Storage.has_key (order_id v) rs
            then rs
            else (rs ++ [{| created_at := now; cols := v |}])%list.
Proof.
  unfold Storage.exec. cbn [table_exists rows].
  destruct (Storage.has_key (order_id v) rs);
    intros E; inversion E; reflexivity.
Qed.

Lemma has_key_in (k : string) (rs : list Row) (r : Row) :
  In r rs -> key r = k -> Storage.has_key k rs = true.
Proof.
  intros I K. unfold Storage.has_key. apply existsb_exists.
  exists r. split; [exact I|]. now apply String.eqb_eq.
Qed.



(** A payload whose identifier or amount has no primitive never reaches the
    table in the first file: [String(..)] at line 93 or [Number(..)] at line
    104 throws inside the [try], the catch logs the TypeError and answers 200
    with [ok: false]; no statement is sent. *)
Theorem Api_catches_unconvertible_payload :
  forall (env : Env) (req : Request) (payload : value) (w : World),
    verified env req ->
    (ALLOWED_SHOPIFY_DOMAIN env <> "" ->
     shop_of req = ALLOWED_SHOPIFY_DOMAIN env) ->
    Api.not_our_topic (header "x-shopify-topic" (headers req)) = false ->
    JSON.parse (readRawBody req) = Some payload ->
    Api_values env req payload = None ->
    exists w',
      Api.handler env req w = (Returned Api_logged_error, w') /\
      db w' = db w /\
      tableReady w' = tableReady w /\
      trace w'
      = (trace w
           ++ [EvHmacDigest; EvTimingSafeEqual; EvJsonParse;
               EvConsoleError "Webhook error:"
                 (TypeError "Cannot convert object to primitive value")])%list.
Proof.
  intros env req payload w [Hm Hs Hsig] Hd Ht Hp Hv.
  unfold Api.handler, Api.process, Api.verifyShopifyHmac.
  rewrite Hm, String.eqb_refl, (nonempty_true _ Hs), (api_domain_ok _ _ Hd).
  cbn [negb].
  unfold createHmac_digest, timingSafeEqual, JSON_parse, try_catch, bind,
    emit, ret, throw.
  cbn. rewrite Hsig, timingSafeEqual_same. cbn. rewrite Hp, Ht. cbn.
  unfold Api_values in Hv.
  unfold converted, console_error, emit, bind, ret, throw.
  destruct (Api.orderId_of payload) as [o|];
    [destruct (Api.totalPaid_of payload) as [t|]; [discriminate Hv|] |];
    cbn; eexists; (split; [reflexivity|]); cbn;
    (split; [reflexivity|]); (split; [reflexivity|]);
    now rewrite <- !app_assoc.
Qed.

(** The second file acknowledges an accepted request without storing it:
    the flag is not set, so [ensureTable] sends its three commands as one
    text, which is refused; the rejection skips the insert, is logged with
    "DB insert error:", and the run goes on to log the order and answer
    200 "OK".  The table and the flag are left as they were. *)
Theorem Part000_acknowledges_without_storing :
  forall (env : Env) (req : Request) (payload : value) (v : Values)
         (w : World),
    Part000_accepts env req payload v ->
    tableReady w = false ->
    exists w' msg,
      Part000.handler env req w = (Returned (Part000.send 200 "OK"), w') /\
      db w' = db w /\
      tableReady w' = false /\
      trace w'
      = (trace w
           ++ [EvHmacDigest; EvTimingSafeEqual; EvJsonParse;
               EvSql CreateAll false;
               EvConsoleError "DB insert error:" (StorageError msg);
               EvConsoleLog "[LSC] orders/paid" (Part000_logged v)])%list.
Proof.
  intros env req payload v w A R. enter_accepted A req. rewrite R. cbn.
  unfold Part000_logged. rewrite V. cbn.
  destruct (match faults w with b :: _ => b | [] => false end); cbn;
    [| unfold Storage.exec; cbn ];
    do 2 eexists; (split; [reflexivity|]); cbn;
    (split; [reflexivity|]); (split; [reflexivity|]);
    rewrite <- !app_assoc; reflexivity.
Qed.

(** So the second file never stores anything: from a module state whose
    flag is not set, as it is when the module is loaded, the table and the
    flag are unchanged after any sequence of deliveries. *)
Theorem Part000_never_stores :
  forall (env : Env) (ds : list Delivery) (w : World),
    tableReady w = false ->
    db (run (Part000.handler env) ds w) = db w /\
    tableReady (run (Part000.handler env) ds w) = false.
Proof.
  intros env ds. induction ds as [|d ds IH]; intros w R; cbn; [now split|].
  destruct (Part000_stays_unprovisioned env (request d) (arrive d w) R)
    as [D R'].
  unfold deliver.
  destruct (IH (snd (Part000.handler env (request d) (arrive d w))) R')
    as [D' R''].
  split; [rewrite D', D; reflexivity | exact R''].
Qed.

Lemma rows_without_insert now evs :
  existsb inserted evs = false ->
  forall d, rows (exec_all (statements_of now evs) d) = rows d.
Proof.
  induction evs as [|e evs IH]; intros N d; [reflexivity|].
  cbn in N. apply orb_false_iff in N. destruct N as [Ne N].
  destruct e as [| | |st [|]| |]; cbn; auto.
  destruct st; try discriminate Ne; unfold Storage.exec; cbn;
    repeat match goal with
           | |- context [if ?c then _ else _] => destruct c
           end;
    rewrite (IH N); reflexivity.
Qed.

Lemma exists_inserted (P : event -> Prop) (evs : list event) :
  Forall P evs -> existsb inserted evs = true ->
  exists st, inserted (EvSql st true) = true /\ P (EvSql st true).
Proof.
  intros F E. apply existsb_exists in E.
  destruct E as [[| | |st [|]| |] [I S]]; try discriminate.
  - exists st. split; [exact S|]. rewrite Forall_forall in F. now apply F.
  - destruct st; discriminate.
Qed.

Lemma update_row_again (v : Values) (r : Row) :
  Storage.update_row v (Storage.update_row v r) = Storage.update_row v r.
Proof.
  unfold Storage.update_row.
  destruct (String.eqb (key r) (order_id v)) eqn:E.
  - unfold key. cbn. rewrite String.eqb_refl. reflexivity.
  - rewrite E. reflexivity.
Qed.

Lemma has_key_snoc k rs r : key r = k -> Storage.has_key k (rs ++ [r]) = true.
Proof.
  intros K. apply (has_key_in k _ r); [|exact K].
  apply in_or_app. right. left. reflexivity.
Qed.

Lemma has_key_map_update k v rs :
  Storage.has_key k (map (Storage.update_row v) rs) = Storage.has_key k rs.
Proof.
  unfold Storage.has_key. induction rs as [|r rs IH]; cbn; [reflexivity|].
  now rewrite key_update_row, IH.
Qed.

(** The table after an upsert, upserted again with the same tuple. *)
Lemma upsert_twice now now' v rs d1 res1 d2 res2 :
  Storage.exec now (InsertOrUpdate v) {| table_exists := true; rows := rs |}
  = Some (d1, res1) ->
  Storage.exec now' (InsertOrUpdate v)
    {| table_exists := true; rows := rows d1 |} = Some (d2, res2) ->
  rows d2 = rows d1.
Proof.
  intros E1 E2. apply upsert_rows in E1. apply upsert_rows in E2.
  rewrite E2, E1. clear E1 E2.
  destruct (Storage.has_key (order_id v) rs) eqn:K.
  - rewrite has_key_map_update, K, map_map.
    apply map_ext. intros r. apply update_row_again.
  - rewrite has_key_snoc by reflexivity.
    rewrite map_app. cbn. f_equal.
    + rewrite <- (map_id rs) at 2. apply map_ext_in. intros r I.
      unfold Storage.update_row.
      destruct (String.eqb (key r) (order_id v)) eqn:E; [|reflexivity].
      apply String.eqb_eq in E.
      rewrite (has_key_in _ _ _ I E) in K. discriminate.
    + unfold Storage.update_row, key. cbn. now rewrite String.eqb_refl.
Qed.

Lemma insert_twice now now' v rs d1 res1 d2 res2 :
  Storage.exec now (InsertOrNothing v) {| table_exists := true; rows := rs |}
  = Some (d1, res1) ->
  Storage.exec now' (InsertOrNothing v)
    {| table_exists := true; rows := rows d1 |} = Some (d2, res2) ->
  rows d2 = rows d1.
Proof.
  intros E1 E2. apply insert_rows in E1. apply insert_rows in E2.
  rewrite E2, E1. clear E1 E2.
  destruct (Storage.has_key (order_id v) rs) eqn:K.
  - now rewrite K.
  - now rewrite has_key_snoc.
Qed.

Lemma arrive_smooth_sound req now w :
  flag_is_sound w -> flag_is_sound (arrive (smooth req now) w).
Proof. intros S. exact S. Qed.

Lemma Api_twice env req t1 t2 w :
  flag_is_sound w ->
  rows (db (run (Api.handler env) [smooth req t1; smooth req t2] w))
  = rows (db (run (Api.handler env) [smooth req t1] w)).
Proof.
  intros S.
  pose (w0 := arrive (smooth req t1) w).
  pose (w1 := snd (Api.handler env req w0)).
  pose (w2 := arrive (smooth req t2) w1).
  change (rows (db (snd (Api.handler env req w2))) = rows (db w1)).
  destruct (Api_run_is_its_statements env req w2) as (evs & T & D).
  destruct (existsb inserted evs) eqn:X.
  - destruct (exists_inserted _ _ (Api_trace env req w2 evs T) X)
      as (st & _ & payload & v & A & _).
    destruct (Api_persists env req payload v w0 A eq_refl S)
      as (w1' & res1 & E1 & X1 & R1).
    assert (W1 : w1 = w1') by (unfold w1; now rewrite E1).
    assert (S1 : flag_is_sound w2).
    { intros _. unfold w2. cbn. rewrite W1.
      exact (exec_table_exists _ _ _ _ _ X1). }
    destruct (Api_persists env req payload v w2 A eq_refl S1)
      as (w3 & res2 & E2 & X2 & _).
    rewrite E2. cbn [snd].
    change (rows (db w2)) with (rows (db w1)) in X2. rewrite W1 in X2.
    rewrite W1. exact (upsert_twice _ _ _ _ _ _ _ _ X1 X2).
  - rewrite D. now rewrite (rows_without_insert _ _ X).
Qed.

Lemma Part000_twice env req t1 t2 w :
  flag_is_sound w ->
  rows (db (run (Part000.handler env) [smooth req t1; smooth req t2] w))
  = rows (db (run (Part000.handler env) [smooth req t1] w)).
Proof.
  intros S.
  pose (w0 := arrive (smooth req t1) w).
  pose (w1 := snd (Part000.handler env req w0)).
  pose (w2 := arrive (smooth req t2) w1).
  change (rows (db (snd (Part000.handler env req w2))) = rows (db w1)).
  destruct (tableReady w) eqn:R.
  - destruct (Part000_run_is_its_statements env req w2) as (evs & T & D).
    destruct (existsb inserted evs) eqn:X.
    + destruct (exists_inserted _ _ (Part000_trace env req w2 evs T) X)
        as (st & _ & payload & v & A & _).
      destruct (Part000_persists env req payload v w0 A eq_refl S R)
        as (w1' & d1 & E1 & X1 & D1 & R1).
      assert (W1 : w1 = w1') by (unfold w1; now rewrite E1).
      assert (S1 : flag_is_sound w2).
      { intros _. unfold w2. cbn. rewrite W1, D1.
        exact (exec_table_exists _ _ _ _ _ X1). }
      assert (R2 : tableReady w2 = true)
        by (unfold w2; cbn; rewrite W1; exact R1).
      destruct (Part000_persists env req payload v w2 A eq_refl S1 R2)
        as (w3 & d2 & E2 & X2 & D2 & _).
      rewrite E2. cbn [snd].
      change (rows (db w2)) with (rows (db w1)) in X2. rewrite W1, D1 in X2.
      rewrite W1, D1, D2. exact (insert_twice _ _ _ _ _ _ _ _ X1 X2).
    + rewrite D. now rewrite (rows_without_insert _ _ X).
  - destruct (Part000_stays_unprovisioned env req w0 R) as [D1 R1].
    fold w1 in D1, R1.
    destruct (Part000_stays_unprovisioned env req w2 R1) as [D2 _].
    now rewrite D2.
Qed.

(** Deliveries are idempotent: with the storage layer working, delivering
    the same request a second time, at any later moment, leaves the records
    exactly as the first delivery left them, whatever the request is and
    whether or not it was accepted; in both files. *)
Theorem same_request_twice_is_once :
  forall (env : Env) (req : Request) (t1 t2 : Z) (w : World),
    flag_is_sound w ->
    rows (db (run (Api.handler env) [smooth req t1; smooth req t2] w))
    = rows (db (run (Api.handler env) [smooth req t1] w)) /\
    rows (db (run (Part000.handler env) [smooth req t1; smooth req t2] w))
    = rows (db (run (Part000.handler env) [smooth req t1] w)).
Proof.
  intros env req t1 t2 w S. split;
    [now apply Api_twice | now apply Part000_twice].
Qed.

Lemma same_request_twice_witness :
  flag_is_sound fresh /\
  rows (db (run (Api.handler Sample.env)
              [smooth Sample.paid 1200; smooth Sample.paid 1300] fresh))
  = rows (db (run (Api.handler Sample.env) [smooth Sample.paid 1200] fresh)).
Proof.
  assert (S : flag_is_sound fresh) by (intros R; discriminate R).
  split; [exact S|].
  exact (proj1 (same_request_twice_is_once Sample.env Sample.paid
                  1200 1300 fresh S)).
Defined.

(* ------------------------------------------------------------------ *)
(** ** Storage failures and round trips *)

Lemma Api_failure_is_final env req w evs :
  trace (snd (Api.handler env req w)) = (trace w ++ evs)%list ->
  existsb failed_sql evs = true -> existsb inserted evs = false.
Proof.
  run_cases; leaf_events; cbn; intros F; try discriminate F; reflexivity.
Qed.

Lemma Part000_failure_is_final env req w evs :
  trace (snd (Part000.handler env req w)) = (trace w ++ evs)%list ->
  existsb failed_sql evs = true -> existsb inserted evs = false.
Proof.
  run_cases; leaf_events; cbn; intros F; try discriminate F; reflexivity.
Qed.

(** A run in which an [sql] call fails stores nothing: the first failure
    ends the run's dealings with the table, before any record was written,
    so the records are exactly what they were.  In both files. *)
Theorem storage_failure_stores_nothing :
  forall (env : Env) (req : Request) (w : World) (evs : list event),
    (trace (snd (Api.handler env req w)) = (trace w ++ evs)%list ->
     existsb failed_sql evs = true ->
     rows (db (snd (Api.handler env req w))) = rows (db w)) /\
    (trace (snd (Part000.handler env req w)) = (trace w ++ evs)%list ->
     existsb failed_sql evs = true ->
     rows (db (snd (Part000.handler env req w))) = rows (db w)).
Proof.
  intros env req w evs. split; intros T F.
  - destruct (Api_run_is_its_statements env req w) as (evs' & T' & ->).
    rewrite T in T'. apply trace_tail in T'. subst evs'.
    apply rows_without_insert. exact (Api_failure_is_final env req w evs T F).
  - destruct (Part000_run_is_its_statements env req w) as (evs' & T' & ->).
    rewrite T in T'. apply trace_tail in T'. subst evs'.
    apply rows_without_insert.
    exact (Part000_failure_is_final env req w evs T F).
Qed.

(** Round trips to the database in one run: none unless the request is
    accepted, at most four in the first file and two in the second, and at
    most one (the insert) once [tableReady] is set. *)
Theorem sql_calls_per_run :
  forall (env : Env) (req : Request) (w : World) (evs : list event),
    (trace (snd (Api.handler env req w)) = (trace w ++ evs)%list ->
     (List.length (filter is_sql evs) <= 4)%nat /\
     (tableReady w = true -> (List.length (filter is_sql evs) <= 1)%nat)) /\
    (trace (snd (Part000.handler env req w)) = (trace w ++ evs)%list ->
     (List.length (filter is_sql evs) <= 2)%nat /\
     (tableReady w = true -> (List.length (filter is_sql evs) <= 1)%nat)).
Proof.
  intros env req w evs. split.
  - run_cases; leaf_events; cbn; (split; [lia|]); intros R;
      first [discriminate R | lia | (rewrite R in *; discriminate)].
  - run_cases; leaf_events; cbn; (split; [lia|]); intros R;
      first [discriminate R | lia | (rewrite R in *; discriminate)].
Qed.

(* ------------------------------------------------------------------ *)
(** ** The properties above on the sample deliveries *)

Lemma sample_paid_verified : verified Sample.env Sample.paid.
Proof. constructor; [reflexivity | discriminate | vm_compute; reflexivity]. Qed.




Lemma sample_paid_accepted_by_part000 :
  Part000_accepts Sample.env Sample.paid More.order_1001_payload
    More.order_1001_values.
Proof.
  constructor; try exact sample_paid_verified; try discriminate;
    vm_compute; reflexivity.
Qed.

Lemma sample_without_primitive_verified :
  verified Sample.env More.without_primitive.
Proof. constructor; [reflexivity | discriminate | vm_compute; reflexivity]. Qed.

Lemma sample_without_primitive_parsed :
  JSON.parse (readRawBody More.without_primitive)
  = Some More.without_primitive_payload.
Proof. vm_compute. reflexivity. Qed.



Lemma sample_storage_down_trace :
  trace (snd (Api.handler Sample.env Sample.paid
                (arrive (Sample.storage_down Sample.paid) fresh)))
  = [EvHmacDigest; EvTimingSafeEqual; EvJsonParse; EvSql CreateTable false;
     EvConsoleError "Webhook error:" (StorageError "storage failure")].
Proof. vm_compute. reflexivity. Qed.

Lemma no_statement_without_signature_witness :
  let w := arrive (Sample.storage_down Sample.paid) fresh in
  let evs :=
    [EvHmacDigest; EvTimingSafeEqual; EvJsonParse; EvSql CreateTable false;
     EvConsoleError "Webhook error:" (StorageError "storage failure")] in
  existsb is_sql evs = true /\
  verified Sample.env Sample.paid /\
  (ALLOWED_SHOPIFY_DOMAIN Sample.env <> "" ->
   shop_of Sample.paid = ALLOWED_SHOPIFY_DOMAIN Sample.env).
Proof.
  intros w evs. split; [reflexivity|].
  exact (proj1 (no_statement_without_signature Sample.env Sample.paid w evs)
           sample_storage_down_trace eq_refl).
Defined.

Lemma storage_failure_stores_nothing_witness :
  let w := arrive (Sample.storage_down Sample.paid) fresh in
  let evs :=
    [EvHmacDigest; EvTimingSafeEqual; EvJsonParse; EvSql CreateTable false;
     EvConsoleError "Webhook error:" (StorageError "storage failure")] in
  existsb failed_sql evs = true /\
  rows (db (snd (Api.handler Sample.env Sample.paid w))) = rows (db w).
Proof.
  intros w evs. split; [reflexivity|].
  exact (proj1 (storage_failure_stores_nothing Sample.env Sample.paid w evs)
           sample_storage_down_trace eq_refl).
Defined.

Lemma sql_calls_per_run_witness :
  let w := arrive (Sample.storage_down Sample.paid) fresh in
  let evs :=
    [EvHmacDigest; EvTimingSafeEqual; EvJsonParse; EvSql CreateTable false;
     EvConsoleError "Webhook error:" (StorageError "storage failure")] in
  (List.length (filter is_sql evs) <= 4)%nat /\
  (tableReady w = true -> (List.length (filter is_sql evs) <= 1)%nat).
Proof.
  intros w evs.
  exact (proj1 (sql_calls_per_run Sample.env Sample.paid w evs)
           sample_storage_down_trace).
Defined.



Lemma Api_catches_unconvertible_witness :
  Api_values Sample.env More.without_primitive More.without_primitive_payload
  = None /\
  exists w',
    Api.handler Sample.env More.without_primitive fresh
    = (Returned Api_logged_error, w') /\
    db w' = db fresh /\
    tableReady w' = tableReady fresh /\
    trace w'
    = (trace fresh
         ++ [EvHmacDigest; EvTimingSafeEqual; EvJsonParse;
             EvConsoleError "Webhook error:"
               (TypeError "Cannot convert object to primitive value")])%list.
Proof.
  split; [reflexivity|].
  exact (Api_catches_unconvertible_payload Sample.env More.without_primitive
           More.without_primitive_payload fresh
           sample_without_primitive_verified (fun _ => eq_refl) eq_refl
           sample_without_primitive_parsed eq_refl).
Defined.

Lemma Part000_throws_witness :
  Part000_cannot_read More.without_primitive_payload /\
  exists msg w',
    Part000.handler Sample.env More.without_primitive fresh
    = (Thrown (TypeError msg), w') /\
    db w' = db fresh.
Proof.
  assert (C : Part000_cannot_read More.without_primitive_payload)
    by (right; left; reflexivity).
  split; [exact C|].
  refine (proj2 (Part000_answers_or_throws_TypeError Sample.env
                   More.without_primitive fresh)
            More.without_primitive_payload
            sample_without_primitive_verified _ eq_refl eq_refl
            sample_without_primitive_parsed C).
  discriminate.
Defined.

Lemma Part000_acknowledges_without_storing_witness :
  tableReady fresh = false /\
  exists w' msg,
    Part000.handler Sample.env Sample.paid fresh
    = (Returned (Part000.send 200 "OK"), w') /\
    db w' = db fresh /\
    tableReady w' = false /\
    trace w'
    = (trace fresh
         ++ [EvHmacDigest; EvTimingSafeEqual; EvJsonParse;
             EvSql CreateAll false;
             EvConsoleError "DB insert error:" (StorageError msg);
             EvConsoleLog "[LSC] orders/paid"
               (Part000_logged More.order_1001_values)])%list.
Proof.
  split; [reflexivity|].
  exact (Part000_acknowledges_without_storing Sample.env Sample.paid
           More.order_1001_payload More.order_1001_values fresh
           sample_paid_accepted_by_part000 eq_refl).
Defined.

Lemma Part000_never_stores_witness :
  tableReady fresh = false /\
  db (run (Part000.handler Sample.env)
        [Sample.at_noon Sample.paid; Sample.at_noon Sample.paid_again] fresh)
  = db fresh /\
  tableReady (run (Part000.handler Sample.env)
                [Sample.at_noon Sample.paid; Sample.at_noon Sample.paid_again]
                fresh)
  = false.
Proof.
  split; [reflexivity|].
  exact (Part000_never_stores Sample.env
           [Sample.at_noon Sample.paid; Sample.at_noon Sample.paid_again]
           fresh eq_refl).
Defined.

Lemma timingSafeEqualStr_witness :
  String.length "abc" <> String.length "abcd" /\
  exists w',
    Part000.timingSafeEqualStr "abc" "abcd" fresh
    = (Returned (String.eqb "abc" "abcd"), w') /\
    db w' = db fresh /\
    (String.length "abc" <> String.length "abcd" -> w' = fresh).
Proof.
  split; [discriminate|].
  exact (timingSafeEqualStr_decides_equality "abc" "abcd" fresh).
Defined.
